(** * earthaccess: the notebook search widget ([earthaccess/widgets.py])

    A shallow embedding of [SearchWidget]: the conversion of CMR spatial
    metadata to shapely geometries, the construction of the result table
    ([to_geopandas]), the handling of shapes drawn on the map
    ([_handle_draw]) and the rendering of one layer per dataset
    ([explore]).

    The widget is glue code over pandas, geopandas, shapely, matplotlib and
    ipyleaflet.  Those libraries are modelled by the small functions the
    widget calls, following their documented behaviour (shapely 2.0, numpy's
    pairwise summation, pandas' [nansum]).

    A number of a record or of a drawn shape is written as the exact
    rational it denotes (every finite float is one).  Where the code only
    stores or compares numbers the model works on these rationals; where it
    computes (the signed area behind [orient], the total size of a layer,
    the centre of a bounding box) the model computes as the code does, in
    IEEE 754 double precision with rounding to nearest, ties to even. *)

From Stdlib Require Import ZArith QArith Qround String Ascii List Lia Lqa.
From Stdlib Require Import SpecFloat.
From stdpp Require Import base option list strings gmap.

Local Open Scope string_scope.
Local Open Scope list_scope.
Set Warnings "-register-all".

(** ** Python values *)

(** The exceptions the modelled code can raise. *)
Inductive exn : Type :=
| KeyError (key : string)
| IndexError
| TypeError
| ValueError (msg : string)
| AttributeError
| LayerException
| TraitError.

(** The outcome of a call: a value, or a raised exception. *)
Inductive outcome (A : Type) : Type :=
| Ok (a : A)
| Raise (e : exn).
Arguments Ok {A} a.
Arguments Raise {A} e.

Definition obind {A B : Type} (m : outcome A) (k : A -> outcome B) : outcome B :=
  match m with
  | Ok a => k a
  | Raise e => Raise e
  end.

Notation "'do' x <- m ; k" := (obind m (fun x => k))
  (at level 10, x name, m at level 100, k at level 200).

Fixpoint omap {A B : Type} (f : A -> outcome B) (l : list A) : outcome (list B) :=
  match l with
  | [] => Ok []
  | a :: l' => do b <- f a; do bs <- omap f l'; Ok (b :: bs)
  end.

(** JSON-like values: what a granule record, a GeoJSON feature and a cell of
    the result table are made of.  A dict keeps its insertion order. *)
Inductive json : Type :=
| JNull
| JBool (b : bool)
| JNum (q : Q)
| JStr (s : string)
| JList (l : list json)
| JDict (d : list (string * json)).

Definition dict : Type := list (string * json).

(** [d.get(k)] *)
Fixpoint dict_get (k : string) (d : dict) : option json :=
  match d with
  | [] => None
  | (k', v) :: d' => if String.eqb k k' then Some v else dict_get k d'
  end.

(** [k in d] *)
Definition dict_mem (k : string) (d : dict) : bool :=
  match dict_get k d with Some _ => true | None => false end.

(** [d[k] = v]: an existing key keeps its position. *)
Fixpoint dict_set (k : string) (v : json) (d : dict) : dict :=
  match d with
  | [] => [(k, v)]
  | (k', v') :: d' =>
      if String.eqb k k' then (k, v) :: d' else (k', v') :: dict_set k v d'
  end.

(** [v[k]] for a string key. *)
Definition getitem (v : json) (k : string) : outcome json :=
  match v with
  | JDict d =>
      match dict_get k d with
      | Some x => Ok x
      | None => Raise (KeyError k)
      end
  | _ => Raise TypeError
  end.

(** [v[0]] *)
Definition getitem0 (v : json) : outcome json :=
  match v with
  | JList (x :: _) => Ok x
  | JList [] => Raise IndexError
  | JStr (String c _) => Ok (JStr (String c EmptyString))
  | JStr EmptyString => Raise IndexError
  | JDict _ => Raise (KeyError "0")
  | _ => Raise TypeError
  end.

(** [v.keys()] *)
Definition keys (v : json) : outcome (list string) :=
  match v with
  | JDict d => Ok (map fst d)
  | _ => Raise AttributeError
  end.

Fixpoint chars (s : string) : list json :=
  match s with
  | EmptyString => []
  | String c s' => JStr (String c EmptyString) :: chars s'
  end.

(** [for x in v]: the items a value yields when iterated. *)
Definition iter (v : json) : outcome (list json) :=
  match v with
  | JList l => Ok l
  | JStr s => Ok (chars s)
  | JDict d => Ok (map (fun kv => JStr (fst kv)) d)
  | _ => Raise TypeError
  end.

(** *** Lower case *)

Definition is_upper (c : ascii) : bool :=
  (65 <=? nat_of_ascii c)%nat && (nat_of_ascii c <=? 90)%nat.

Definition lower_ascii (c : ascii) : ascii :=
  if is_upper c then ascii_of_nat (nat_of_ascii c + 32) else c.

(** [s.lower()] on ASCII text. *)
Fixpoint lower (s : string) : string :=
  match s with
  | EmptyString => EmptyString
  | String c s' => String (lower_ascii c) (lower s')
  end.

(** *** [float(s)] on text

    The text is stripped of blanks; what is left is an optional sign and
    then digits with an optional point and an optional exponent (single
    underscores are allowed between digits), or one of the spellings of
    an infinity or of NaN.  The text is ASCII. *)

Definition is_space (c : ascii) : bool :=
  let n := nat_of_ascii c in
  ((9 <=? n)%nat && (n <=? 13)%nat) || ((28 <=? n)%nat && (n <=? 32)%nat).

Fixpoint lstrip (s : string) : string :=
  match s with
  | String c s' => if is_space c then lstrip s' else s
  | EmptyString => EmptyString
  end.

(** [s.rstrip()]: the blanks at the end are those followed by blanks only. *)
Fixpoint rstrip (s : string) : string :=
  match s with
  | EmptyString => EmptyString
  | String c s' =>
      match rstrip s' with
      | EmptyString => if is_space c then EmptyString else String c EmptyString
      | rest => String c rest
      end
  end.

Definition digit_of (c : ascii) : option Z :=
  let n := nat_of_ascii c in
  if (48 <=? n)%nat && (n <=? 57)%nat then Some (Z.of_nat (n - 48)) else None.

(** The rest of a run of digits: after a digit comes a digit, or an
    underscore and a digit.  The result is the value read so far, the
    number of digits read so far, and the text that is left. *)
Fixpoint digits_rest (acc : Z) (count : nat) (s : string) : Z * nat * string :=
  match s with
  | String c s' =>
      match digit_of c with
      | Some d => digits_rest (10 * acc + d) (S count) s'
      | None =>
          if Ascii.eqb c "_" then
            match s' with
            | String c' s'' =>
                match digit_of c' with
                | Some d => digits_rest (10 * acc + d) (S count) s''
                | None => (acc, count, s)
                end
            | EmptyString => (acc, count, s)
            end
          else (acc, count, s)
      end
  | EmptyString => (acc, count, s)
  end.

(** A run of digits that continues the value [acc]; it starts with a
    digit. *)
Definition digits_from (acc : Z) (s : string) : option (Z * nat * string) :=
  match s with
  | String c s' =>
      match digit_of c with
      | Some d => Some (digits_rest (10 * acc + d) 1 s')
      | None => None
      end
  | EmptyString => None
  end.

Definition sign_of (s : string) : bool * string :=
  match s with
  | String "-" s' => (true, s')
  | String "+" s' => (false, s')
  | _ => (false, s)
  end.

(** The digits before and after the point: all of them read as one whole
    number, the number of those after the point, and the text that is
    left.  There is a digit before the point or after it. *)
Definition mantissa_of (s : string) : option (Z * nat * string) :=
  match digits_from 0 s with
  | Some (i, _, String "." rest) =>
      match digits_from i rest with
      | Some (m, count, rest') => Some (m, count, rest')
      | None => Some (i, 0%nat, rest)
      end
  | Some (i, _, rest) => Some (i, 0%nat, rest)
  | None =>
      match s with
      | String "." rest => digits_from 0 rest
      | _ => None
      end
  end.

(** The exponent part, or what is left of the text when there is none. *)
Definition exponent_of (s : string) : option (Z * string) :=
  match s with
  | String c s' =>
      if Ascii.eqb c "e" || Ascii.eqb c "E" then
        let (neg, s'') := sign_of s' in
        match digits_from 0 s'' with
        | Some (e, _, rest) => Some (if neg then (- e)%Z else e, rest)
        | None => None
        end
      else Some (0%Z, s)
  | EmptyString => Some (0%Z, s)
  end.

(** [m * 10 ^ e] *)
Definition scale10 (m e : Z) : Q :=
  match e with
  | Z0 => inject_Z m
  | Zpos p => inject_Z (m * Z.pow_pos 10 p)
  | Zneg p => Qmake m (Pos.pow 10 p)
  end.

Inductive parsed_float : Type :=
| Number (q : Q)
| NotFinite
| Malformed.

Definition parse_float (s : string) : parsed_float :=
  let (neg, body) := sign_of (rstrip (lstrip s)) in
  let word := lower body in
  if String.eqb word "inf" || String.eqb word "infinity" || String.eqb word "nan"
  then NotFinite
  else
    match mantissa_of body with
    | Some (m, count, rest) =>
        match exponent_of rest with
        | Some (e, EmptyString) =>
            let q := scale10 m (e - Z.of_nat count) in
            Number (if neg then Qopp q else q)
        | _ => Malformed
        end
    | None => Malformed
    end.

(** [float(v)], the conversion the geometry constructors apply to every
    coordinate.  Text is parsed; an infinity and NaN have no place among
    the coordinates of this model (a [point] holds finite numbers), so
    text that spells one is treated like text that is not a number. *)
Definition as_float (v : json) : outcome Q :=
  match v with
  | JNum q => Ok q
  | JBool b => Ok (if b then 1%Q else 0%Q)
  | JStr s =>
      match parse_float s with
      | Number q => Ok q
      | _ => Raise (ValueError "could not convert string to float")
      end
  | _ => Raise TypeError
  end.

(** ** Floating-point numbers

    The floats of Python and of numpy are IEEE 754 binary64 numbers; the
    operations round to nearest, ties to even.  They are taken from the
    specification of floating-point arithmetic of the standard library. *)

Definition f64 : Type := spec_float.

Definition f64_zero : f64 := S754_zero false.

Definition f64_add : f64 -> f64 -> f64 := SFadd 53 1024.
Definition f64_sub : f64 -> f64 -> f64 := SFsub 53 1024.
Definition f64_mul : f64 -> f64 -> f64 := SFmul 53 1024.
Definition f64_div : f64 -> f64 -> f64 := SFdiv 53 1024.

(** [a <= b]: false when one of them is NaN. *)
Definition f64_le (a b : f64) : bool := SFleb a b.

(** The float of a whole number. *)
Definition f64_of_Z (z : Z) : f64 := binary_normalize 53 1024 z 0 false.

(** The float nearest to a rational: the quotient of numerator and
    denominator, rounded once. *)
Definition f64_of_Q (q : Q) : f64 :=
  match Qnum q with
  | Z0 => f64_zero
  | Zpos n => f64_div (S754_finite false n 0) (S754_finite false (Qden q) 0)
  | Zneg n => f64_div (S754_finite true n 0) (S754_finite false (Qden q) 0)
  end.

(** The rational a finite float is. *)
Definition Q_of_f64 (x : f64) : option Q :=
  match x with
  | S754_zero _ => Some 0%Q
  | S754_finite s m e =>
      let n := if s then Zneg m else Zpos m in
      Some (match e with
            | Z0 => inject_Z n
            | Zpos p => inject_Z (n * Z.pow_pos 2 p)
            | Zneg p => Qmake n (Pos.pow 2 p)
            end)
  | _ => None
  end.

(** Round to the nearest integer, ties to the even one. *)
Definition round_half_even (q : Q) : Z :=
  let f := Qfloor q in
  match (q - inject_Z f ?= 1 # 2)%Q with
  | Lt => f
  | Gt => (f + 1)%Z
  | Eq => if Z.even f then f else (f + 1)%Z
  end.

(** [round(q, 2)] *)
Definition round2 (q : Q) : Q :=
  Qmake (round_half_even (q * 100)) 100.

(** [numpy.rint]: the nearest whole number, ties to the even one; the sign
    is kept when the result is zero. *)
Definition f64_rint (x : f64) : f64 :=
  match x with
  | S754_finite s m (Zneg p) =>
      let k := round_half_even (Qmake (Zpos m) (Pos.pow 2 p)) in
      binary_normalize 53 1024 (if s then (- k)%Z else k) 0 s
  | _ => x
  end.

(** [round(x, 2)] on a numpy float: [rint(x * 100) / 100]. *)
Definition np_round2 (x : f64) : f64 :=
  f64_div (f64_rint (f64_mul x (f64_of_Z 100))) (f64_of_Z 100).

(** [round(x, 2)] on a Python float: the float nearest to the exact value
    of [x] rounded to hundredths. *)
Definition py_round2 (x : f64) : f64 :=
  match x with
  | S754_finite s _ _ =>
      match Q_of_f64 x with
      | Some q => if Qeq_bool (round2 q) 0 then S754_zero s else f64_of_Q (round2 q)
      | None => x
      end
  | _ => x
  end.

(** *** Sums of floats

    [numpy.sum] adds pairwise: fewer than 8 numbers in order, up to 128 with
    8 running sums that are added at the end, more by halves.  *)

Definition lane_add (r a : list f64) : list f64 :=
  map (fun ra => f64_add (fst ra) (snd ra)) (combine r a).

(** The 8 running sums [r] after every full group of 8 numbers of [a] was
    added to them, and the numbers that are left. *)
Fixpoint lanes (fuel : nat) (r a : list f64) : list f64 * list f64 :=
  match fuel with
  | O => (r, a)
  | S fuel' =>
      if (8 <=? length a)%nat
      then lanes fuel' (lane_add r (firstn 8 a)) (skipn 8 a)
      else (r, a)
  end.

Definition block_sum (a : list f64) : f64 :=
  match lanes (length a) (firstn 8 a) (skipn 8 a) with
  | ([r0; r1; r2; r3; r4; r5; r6; r7], rest) =>
      fold_left f64_add rest
        (f64_add (f64_add (f64_add r0 r1) (f64_add r2 r3))
                 (f64_add (f64_add r4 r5) (f64_add r6 r7)))
  | _ => fold_left f64_add a f64_zero
  end.

(** The depth of the halving is bounded by [fuel]; the length of the list
    is enough ([pairwise_sum_fuel]). *)
Fixpoint pairwise_sum (fuel : nat) (a : list f64) : f64 :=
  let n := length a in
  if (n <? 8)%nat then fold_left f64_add a f64_zero
  else if (n <=? 128)%nat then block_sum a
  else
    match fuel with
    | O => block_sum a
    | S fuel' =>
        let n2 := (n / 2 - (n / 2) mod 8)%nat in
        f64_add (pairwise_sum fuel' (firstn n2 a)) (pairwise_sum fuel' (skipn n2 a))
    end.

(** [numpy.sum(a)] on an array of floats. *)
Definition np_sum (a : list f64) : f64 :=
  f64_add f64_zero (pairwise_sum (length a) a).

(** The sum of a list of Python floats, added in order from the first. *)
Definition py_sum (a : list f64) : f64 :=
  match a with
  | [] => f64_zero
  | x :: rest => fold_left f64_add rest x
  end.

(** ** shapely *)

Definition point : Type := (Q * Q)%type.

Definition pt_eqb (p q : point) : bool :=
  Qeq_bool (fst p) (fst q) && Qeq_bool (snd p) (snd q).

(** A polygon is its exterior ring; the empty polygon has no coordinates. *)
Inductive geom : Type :=
| Polygon_ (exterior : list point).

Definition exterior_coords (g : geom) : list point :=
  match g with Polygon_ r => r end.

(** [shapely.linearrings]: a ring of three coordinates is always closed by
    repeating its first one, a longer one when its ends differ; fewer than
    four coordinates after closing is an error. *)
Definition close_ring (cs : list point) : outcome (list point) :=
  match cs with
  | [] => Ok []
  | p0 :: _ =>
      let closure :=
        if Nat.eqb (length cs) 3 then true
        else negb (pt_eqb p0 (List.last cs p0)) in
      let n := (length cs + (if closure then 1 else 0))%nat in
      if (n <? 4)%nat
      then Raise (ValueError "A linearring requires at least 4 coordinates.")
      else Ok (if closure then cs ++ [p0] else cs)
  end.

(** [Polygon(shell)] from planar coordinates. *)
Definition Polygon_of_points (cs : list point) : outcome geom :=
  do r <- close_ring cs; Ok (Polygon_ r).

(** One coordinate of a shell given as a Python value: [[float(c) for c in o]],
    planar. *)
Definition point_of_json (o : json) : outcome point :=
  do cs <- iter o;
  do fs <- omap as_float cs;
  match fs with
  | [x; y] => Ok (x, y)
  | _ => Raise (ValueError "Inconsistent coordinate dimensionality")
  end.

(** [Polygon(shell)] where [shell] is a Python value; [Polygon(None)] is
    the empty polygon. *)
Definition Polygon (shell : json) : outcome geom :=
  match shell with
  | JNull => Ok (Polygon_ [])
  | _ =>
      do os <- iter shell;
      do cs <- omap point_of_json os;
      Polygon_of_points cs
  end.

(** [shapely.geometry.box(minx, miny, maxx, maxy, ccw=True)]: the polygon
    through the four corners. *)
Definition geometry_box (minx miny maxx maxy : json) : outcome geom :=
  Polygon (JList [JList [maxx; miny]; JList [maxx; maxy];
                  JList [minx; maxy]; JList [minx; miny]]).

(** The box of four numbers of which [minx] and [maxx] differ: the ring
    through the corners, closed by the first one. *)
Definition box (minx miny maxx maxy : Q) : geom :=
  Polygon_ [(maxx, miny); (maxx, maxy); (minx, maxy); (minx, miny); (maxx, miny)].

(** The terms [xs[i] * (ys[i+1] - ys[i-1])] over consecutive triples. *)
Fixpoint area_terms (e : list point) : Q :=
  match e with
  | a :: ((b :: c :: _) as tl) => (fst b * (snd c - snd a) + area_terms tl)%Q
  | _ => 0%Q
  end.

(** The signed area of a ring, exactly: positive for a ring that runs
    counter-clockwise.  The ring is extended by its second coordinate; an
    empty ring has no second coordinate. *)
Definition signed_area (ring : list point) : outcome Q :=
  match ring with
  | _ :: p1 :: _ => Ok (area_terms (ring ++ [p1]) / 2)%Q
  | _ => Raise IndexError
  end.

(** The coordinates of a ring as the floats shapely holds. *)
Definition f64_point (p : point) : f64 * f64 :=
  (f64_of_Q (fst p), f64_of_Q (snd p)).

(** The array [xs[1:-1] * (ys[2:] - ys[:-2])]. *)
Fixpoint cga_terms (e : list (f64 * f64)) : list f64 :=
  match e with
  | a :: ((b :: c :: _) as tl) =>
      f64_mul (fst b) (f64_sub (snd c) (snd a)) :: cga_terms tl
  | _ => []
  end.

(** [shapely.algorithms.cga.signed_area], the signed area as shapely
    computes it:
    [np.sum(xs[1:-1] * (ys[2:] - ys[:-2])) / 2.0] on the coordinates
    extended by the second one. *)
Definition cga_signed_area (ring : list point) : outcome f64 :=
  match ring with
  | _ :: p1 :: _ =>
      Ok (f64_div (np_sum (cga_terms (map f64_point (ring ++ [p1])))) (f64_of_Z 2))
  | _ => Raise IndexError
  end.

(** [shapely.geometry.polygon.orient(polygon)] with the default [sign=1.0]:
    the ring is kept when [signed_area(ring) / 1.0 >= 0.0] and reversed
    otherwise. *)
Definition keeps_winding (a : f64) : bool :=
  f64_le f64_zero (f64_div a (f64_of_Z 1)).

Definition orient (g : geom) : outcome geom :=
  let ring := exterior_coords g in
  do a <- cga_signed_area ring;
  if keeps_winding a then Ok g
  else Polygon_of_points (rev ring).

Definition qmin (a b : Q) : Q := if Qle_bool a b then a else b.
Definition qmax (a b : Q) : Q := if Qle_bool a b then b else a.

(** [geometry.bounds]: (minx, miny, maxx, maxy), absent for an empty geometry. *)
Definition bounds (g : geom) : option (Q * Q * Q * Q) :=
  match exterior_coords g with
  | [] => None
  | (x, y) :: r =>
      Some (fold_left (fun acc p => qmin acc (fst p)) r x,
            fold_left (fun acc p => qmin acc (snd p)) r y,
            fold_left (fun acc p => qmax acc (fst p)) r x,
            fold_left (fun acc p => qmax acc (snd p)) r y)
  end.

(** ** Strings: [str.split], [re.sub] and [str.lower] *)

Definition is_dot (c : ascii) : bool := Ascii.eqb c ".".

(** [s.split(".")]: never empty. *)
Fixpoint split_dot (s : string) : list string :=
  match s with
  | EmptyString => [EmptyString]
  | String c s' =>
      if is_dot c then EmptyString :: split_dot s'
      else match split_dot s' with
           | seg :: segs => String c seg :: segs
           | [] => [String c EmptyString]
           end
  end.

(** [s.split(".")[-1]] *)
Definition last_segment (s : string) : string :=
  List.last (split_dot s) EmptyString.

(** [re.sub('([A-Z]+)', r'_\1', s)]: the scanner is either looking for the
    next match ([re_sub]) or inside a greedy run of capitals ([in_run]);
    each match is replaced by an underscore followed by the run. *)
Fixpoint re_sub (s : string) : string :=
  match s with
  | EmptyString => EmptyString
  | String c s' =>
      if is_upper c then String "_" (String c (in_run s'))
      else String c (re_sub s')
  end
with in_run (s : string) : string :=
  match s with
  | EmptyString => EmptyString
  | String c s' =>
      if is_upper c then String c (in_run s')
      else String c (re_sub s')
  end.

(** ** pandas *)

(** A cell holds a value, or is missing (NaN). *)
Inductive cell : Type :=
| Missing
| Val (v : json).

(** A frame: column labels (repetitions allowed) and rows, each as long as
    the labels; the index is [0 .. len(rows)-1]. *)
Record DataFrame : Type := mkDF {
  columns : list string;
  rows : list (list cell)
}.

(** [_normalise_json]: nested dicts are flattened with [.]-joined keys. *)
Definition new_key (key_string key : string) : string :=
  if String.eqb key_string EmptyString then key
  else key_string ++ "." ++ key.

Fixpoint _normalise_json (data : json) (key_string : string) (acc : dict) : dict :=
  match data with
  | JDict d =>
      (fix items (d : list (string * json)) (acc : dict) : dict :=
         match d with
         | [] => acc
         | (k, v) :: d' => items d' (_normalise_json v (new_key key_string k) acc)
         end) d acc
  | _ => dict_set key_string data acc
  end.

Definition is_dict (v : json) : bool :=
  match v with JDict _ => true | _ => false end.

(** [{**a, **b}] *)
Definition dict_update (a b : dict) : dict :=
  fold_left (fun acc kv => dict_set (fst kv) (snd kv) acc) b a.

(** [dict(items)] *)
Definition dict_of_items (items : list (string * json)) : dict :=
  dict_update [] items.

(** [_normalise_json_ordered]: top-level scalars first, then the flattened
    nested dicts. *)
Definition _normalise_json_ordered (data : dict) : dict :=
  let top_dict_ := dict_of_items (List.filter (fun kv => negb (is_dict (snd kv))) data) in
  let nested_dict_ :=
    _normalise_json
      (JDict (dict_of_items (List.filter (fun kv => is_dict (snd kv)) data)))
      EmptyString [] in
  dict_update top_dict_ nested_dict_.

Definition mem_str (s : string) (l : list string) : bool :=
  existsb (String.eqb s) l.

(** The labels of a frame built from a list of dicts: the keys in order of
    first appearance. *)
Fixpoint union_keys (seen : list string) (ds : list dict) : list string :=
  match ds with
  | [] => seen
  | d :: ds' =>
      union_keys
        (fold_left (fun acc kv => if mem_str (fst kv) acc then acc else acc ++ [fst kv]) d seen)
        ds'
  end.

Definition cell_of (d : dict) (c : string) : cell :=
  match dict_get c d with
  | Some v => Val v
  | None => Missing
  end.

(** [pandas.json_normalize(list(records))] *)
Definition json_normalize (records : list dict) : DataFrame :=
  let flat := map _normalise_json_ordered records in
  let cols := union_keys [] flat in
  mkDF cols (map (fun d => map (cell_of d) cols) flat).

(** The positions of the columns labelled [c]. *)
Fixpoint positions_from (i : nat) (c : string) (cols : list string) : list nat :=
  match cols with
  | [] => []
  | c' :: cols' =>
      if String.eqb c c' then i :: positions_from (S i) c cols'
      else positions_from (S i) c cols'
  end.

Definition positions (c : string) (df : DataFrame) : list nat :=
  positions_from 0 c (columns df).

(** Keep the entries of a row whose label satisfies [keep]. *)
Fixpoint select {A : Type} (keep : string -> bool) (cols : list string) (r : list A) : list A :=
  match cols, r with
  | c :: cols', x :: r' =>
      if keep c then x :: select keep cols' r' else select keep cols' r'
  | _, _ => []
  end.

(** [df.drop(columns=labels)] for labels taken from the frame itself. *)
Definition drop_columns (labels : list string) (df : DataFrame) : DataFrame :=
  let keep := fun c => negb (mem_str c labels) in
  mkDF (List.filter keep (columns df)) (map (select keep (columns df)) (rows df)).

(** [df[c]] for a label carried by exactly one column, at position [i]. *)
Definition column_at (i : nat) (df : DataFrame) : list cell :=
  map (fun r => nth i r Missing) (rows df).

(** [df[c] = values] at position [i]. *)
Definition set_column_at (i : nat) (values : list cell) (df : DataFrame) : DataFrame :=
  mkDF (columns df)
       (map (fun rv => <[i := snd rv]> (fst rv)) (combine (rows df) values)).

(** [v in strs] for a list of string literals. *)
Definition py_in (v : json) (strs : list string) : bool :=
  match v with
  | JStr s => mem_str s strs
  | _ => false
  end.

(** [x == y] on scalars: [True == 1], numbers by value. *)
Definition scalar_eqb (x y : json) : bool :=
  match x, y with
  | JNull, JNull => true
  | JStr a, JStr b => String.eqb a b
  | JNum a, JNum b => Qeq_bool a b
  | JBool a, JBool b => Bool.eqb a b
  | JBool a, JNum b | JNum b, JBool a => Qeq_bool (if a then 1 else 0) b
  | _, _ => false
  end.

Definition hashable (c : cell) : bool :=
  match c with
  | Val (JList _) | Val (JDict _) => false
  | _ => true
  end.

(** Equality of two cells as keys of the hash table behind [unique]: all
    missing cells count as one key. *)
Definition same_key (a b : cell) : bool :=
  match a, b with
  | Missing, Missing => true
  | Val x, Val y => scalar_eqb x y
  | _, _ => false
  end.

Fixpoint unique_from (seen : list cell) (cs : list cell) : outcome (list cell) :=
  match cs with
  | [] => Ok seen
  | c :: cs' =>
      if hashable c then
        unique_from (if existsb (same_key c) seen then seen else seen ++ [c]) cs'
      else Raise TypeError
  end.

(** [series.unique()]: the distinct values in order of first appearance. *)
Definition unique (cs : list cell) : outcome (list cell) := unique_from [] cs.

(** One entry of the mask [series == p]: a null on either side never
    matches. *)
Definition matches (p c : cell) : bool :=
  match p, c with
  | Val JNull, _ | _, Val JNull => false
  | Val x, Val y => scalar_eqb x y
  | _, _ => false
  end.

(** What a cell adds to a sum: [sum] skips a missing value by counting it
    as 0, a boolean counts as 0 or 1, and anything that is not a number
    makes the arithmetic fail. *)
Definition cell_f64 (c : cell) : outcome f64 :=
  match c with
  | Missing | Val JNull => Ok f64_zero
  | Val (JNum q) => Ok (f64_of_Q q)
  | Val (JBool b) => Ok (f64_of_Z (if b then 1 else 0))
  | Val _ => Raise TypeError
  end.

Definition is_bool_cell (c : cell) : bool :=
  match c with Val (JBool _) => true | _ => false end.

Definition is_number_cell (c : cell) : bool :=
  match c with Missing | Val JNull | Val (JNum _) => true | _ => false end.

(** The column has a numeric dtype: it holds booleans only, or numbers and
    missing values only.  Any other column holds Python objects. *)
Definition numeric_column (cs : list cell) : bool :=
  forallb is_bool_cell cs || forallb is_number_cell cs.

(** [round(series.sum() / 1024, 2)] on the cells [cs] of a column.  In a
    numeric column the sum is numpy's and so is the rounding; in a column
    of objects the values are added in order and the result is a Python
    float.  Whole numbers are added as floats as well: for a column of
    ints pandas adds 64-bit integers and converts the sum, which is the
    same number as long as the sums stay below 2^53. *)
Definition gb_rounded (numeric : bool) (cs : list cell) : outcome f64 :=
  do xs <- omap cell_f64 cs;
  if numeric
  then Ok (np_round2 (f64_div (np_sum xs) (f64_of_Z 1024)))
  else Ok (py_round2 (f64_div (py_sum xs) (f64_of_Z 1024))).

(** [index.is_unique] *)
Fixpoint is_unique (labels : list string) : bool :=
  match labels with
  | [] => true
  | c :: labels' => negb (mem_str c labels') && is_unique labels'
  end.

(** [[matplotlib.colors.to_hex(c) for c in plt.cm.tab10.colors]] *)
Definition tab10 : list string :=
  ["#1f77b4"; "#ff7f0e"; "#2ca02c"; "#d62728"; "#9467bd";
   "#8c564b"; "#e377c2"; "#7f7f7f"; "#bcbd22"; "#17becf"].

(** ** geopandas and ipyleaflet *)

(** A geometry-aware table: the data columns and the geometry column, one
    entry per row ([None] for a null geometry).  A data column labelled
    [geometry] is replaced by the geometry column. *)
Record GeoDataFrame : Type := mkGDF {
  gdf_data : DataFrame;
  gdf_geometry : list (option geom)
}.

(** The layer name [f"{p} [Count: {total_granules:,} | Size: {total_size} GB]"],
    kept as the values that fill it; [total_size] has one entry per column
    labelled [size]. *)
Record layer_name : Type := mkName {
  name_dataset : cell;
  name_count : nat;
  name_size : list f64
}.

Inductive layer_data : Type :=
| TileLayer (basemap : string)
| GeoJSON (name : string) (data : json) (color : string)
| GeoData (name : layer_name) (color : string) (geo_dataframe : GeoDataFrame).

(** A layer object; [model_id] is its identity. *)
Record layer : Type := mkLayer {
  model_id : nat;
  layer_of : layer_data
}.

Definition on_map (l : layer) (layers : list layer) : bool :=
  existsb (fun l' => Nat.eqb (model_id l') (model_id l)) layers.

(** A value stored under a search parameter, or in [roi]. *)
Inductive param : Type :=
| PStr (s : string)
| PJson (v : json)
| PRing (r : list point).

(** A line written by [print]. *)
Inductive printed : Type :=
| PrintExn (e : exn)
| PrintUnsupported (geometry_type : json).

(** ** The widget *)

Record SearchWidget : Type := mkWidget {
  current_geometry : option layer;
  active_layers : list layer;
  roi : option param;
  search_params : gmap string param;
  m_layers : list layer;
  next_model_id : nat;
  stdout : list printed
}.

(** A method: it may change the widget, and returns or raises. *)
Definition M (A : Type) : Type := SearchWidget -> SearchWidget * outcome A.

Definition ret {A : Type} (a : A) : M A := fun w => (w, Ok a).

Definition raise {A : Type} (e : exn) : M A := fun w => (w, Raise e).

Definition bind {A B : Type} (m : M A) (k : A -> M B) : M B :=
  fun w =>
    match m w with
    | (w', Ok a) => k a w'
    | (w', Raise e) => (w', Raise e)
    end.

Definition lift {A : Type} (o : outcome A) : M A := fun w => (w, o).

Notation "'let*' x := m 'in' k" := (bind m (fun x => k))
  (at level 10, x name, m at level 100, k at level 200).
Notation "m ;; k" := (bind m (fun _ => k))
  (at level 100, k at level 200, right associativity).

Fixpoint for_each {A : Type} (body : A -> M unit) (l : list A) : M unit :=
  match l with
  | [] => ret tt
  | a :: l' => body a ;; for_each body l'
  end.

Fixpoint collect {A B : Type} (f : A -> M B) (l : list A) : M (list B) :=
  match l with
  | [] => ret []
  | a :: l' => let* b := f a in let* bs := collect f l' in ret (b :: bs)
  end.

Definition print (p : printed) : M unit :=
  fun w => (mkWidget (current_geometry w) (active_layers w) (roi w)
              (search_params w) (m_layers w) (next_model_id w)
              (stdout w ++ [p]), Ok tt).

(** [self.m.remove_layer(l)] *)
Definition remove_layer (l : layer) : M unit :=
  fun w =>
    if on_map l (m_layers w) then
      (mkWidget (current_geometry w) (active_layers w) (roi w) (search_params w)
         (List.filter (fun l' => negb (Nat.eqb (model_id l') (model_id l))) (m_layers w))
         (next_model_id w) (stdout w), Ok tt)
    else (w, Raise LayerException).

(** [self.m.add(l)] *)
Definition add_layer (l : layer) : M unit :=
  fun w =>
    if on_map l (m_layers w) then (w, Raise LayerException)
    else
      (mkWidget (current_geometry w) (active_layers w) (roi w) (search_params w)
         (m_layers w ++ [l]) (next_model_id w) (stdout w), Ok tt).

(** What the constructor of a layer raises: the [data] of a [GeoJSON]
    layer must be a dict ([TraitError] otherwise), and the frame of a
    [GeoData] layer, which is converted to GeoJSON, must not have two
    columns of the same name. *)
Definition init_error (d : layer_data) : option exn :=
  match d with
  | TileLayer _ => None
  | GeoJSON _ data _ => if is_dict data then None else Some TraitError
  | GeoData _ _ gdf =>
      if is_unique (columns (gdf_data gdf) ++ ["geometry"]) then None
      else Some (ValueError "GeoDataFrame cannot contain duplicated column names.")
  end.

(** A freshly constructed layer object. *)
Definition new_layer (d : layer_data) : M layer :=
  fun w =>
    match init_error d with
    | Some e => (w, Raise e)
    | None =>
        (mkWidget (current_geometry w) (active_layers w) (roi w) (search_params w)
           (m_layers w) (S (next_model_id w)) (stdout w),
         Ok (mkLayer (next_model_id w) d))
    end.

Definition set_active_layers (ls : list layer) : M unit :=
  fun w => (mkWidget (current_geometry w) ls (roi w) (search_params w)
              (m_layers w) (next_model_id w) (stdout w), Ok tt).

Definition set_current_geometry (l : layer) : M unit :=
  fun w => (mkWidget (Some l) (active_layers w) (roi w) (search_params w)
              (m_layers w) (next_model_id w) (stdout w), Ok tt).

Definition set_roi (r : option param) : M unit :=
  fun w => (mkWidget (current_geometry w) (active_layers w) r (search_params w)
              (m_layers w) (next_model_id w) (stdout w), Ok tt).

(** [self.search_params[k] = v] *)
Definition set_search_param (k : string) (v : param) : M unit :=
  fun w => (mkWidget (current_geometry w) (active_layers w) (roi w)
              (<[k := v]> (search_params w))
              (m_layers w) (next_model_id w) (stdout w), Ok tt).

Definition get {A : Type} (f : SearchWidget -> A) : M A := fun w => (w, Ok (f w)).

Definition default_fields : list string :=
  ["size"; "concept_id"; "dataset-id"; "native-id"; "provider-id";
   "_related_urls"; "_beginning_date_time"; "_ending_date_time"; "geometry"].

(** The name given to one column:
    [re.sub('([A-Z]+)', r'_\1', col.split(".")[-1]).lower()] *)
Definition flat_name (col : string) : string :=
  lower (re_sub (last_segment col)).

Definition _flattent_column_names (df : DataFrame) : DataFrame :=
  mkDF (map flat_name (columns df)) (rows df).

Definition link_types : list string :=
  ["GET DATA"; "GET DATA VIA DIRECT ACCESS"; "GET RELATED VISUALIZATION"].

Fixpoint keep_links (ls : list json) : outcome (list json) :=
  match ls with
  | [] => Ok []
  | l :: ls' =>
      do t <- getitem l "Type";
      do rest <- keep_links ls';
      Ok (if py_in t link_types then l :: rest else rest)
  end.

(** The function applied to every cell of the related-urls column:
    [lambda r: [l for l in r if l["Type"] in [...]]] *)
Definition filter_links (r : cell) : outcome cell :=
  match r with
  | Missing => Raise TypeError
  | Val v => do ls <- iter v; do kept <- keep_links ls; Ok (Val (JList kept))
  end.

(** [results_df["_related_urls"] = results_df["_related_urls"].apply(...)]:
    the label must be there; when several columns carry it the function is
    handed whole columns and fails on their first cell. *)
Definition apply_related_urls (df : DataFrame) : outcome DataFrame :=
  match positions "_related_urls" df with
  | [] => Raise (KeyError "_related_urls")
  | [i] =>
      do cells <- omap filter_links (column_at i df);
      Ok (set_column_at i cells df)
  | _ =>
      match rows df with
      | [] => Ok df
      | _ :: _ => Raise TypeError
      end
  end.

(** [to_geopandas] up to the point where the geometries are computed. *)
Definition tabulate (results : list dict) (fields : list string) : outcome DataFrame :=
  let results_df := json_normalize results in
  let results_df := _flattent_column_names results_df in
  let fields := if Nat.eqb (length fields) 0 then default_fields else fields in
  let results_df :=
    drop_columns (List.filter (fun col => negb (mem_str col fields)) (columns results_df))
                 results_df in
  apply_related_urls results_df.

(** The body of the [try] block of [_get_shapely_object]. *)
Definition shapely_object (result : dict) : outcome geom :=
  do umm <- getitem (JDict result) "umm";
  do se <- getitem umm "SpatialExtent";
  do hsd <- getitem se "HorizontalSpatialDomain";
  do geo <- getitem hsd "Geometry";
  do ks <- keys geo;
  if mem_str "BoundingRectangles" ks then
    do brs <- getitem geo "BoundingRectangles";
    do bounding_rectangle <- getitem0 brs;
    do w <- getitem bounding_rectangle "WestBoundingCoordinate";
    do s <- getitem bounding_rectangle "SouthBoundingCoordinate";
    do e <- getitem bounding_rectangle "EastBoundingCoordinate";
    do n <- getitem bounding_rectangle "NorthBoundingCoordinate";
    geometry_box w s e n
  else if mem_str "GPolygons" ks then
    do gps <- getitem geo "GPolygons";
    do gp <- getitem0 gps;
    do boundary <- getitem gp "Boundary";
    do points <- getitem boundary "Points";
    do ps <- iter points;
    do shell <- omap (fun p => do lon <- getitem p "Longitude";
                               do lat <- getitem p "Latitude";
                               Ok (JList [lon; lat])) ps;
    Polygon (JList shell)
  else
    Raise (ValueError "Provided result does not contain bounding boxes/polygons or is incompatible.").

(** [_get_shapely_object]: any exception of the body is printed and the
    shape stays [None]. *)
Definition _get_shapely_object (result : dict) : M (option geom) :=
  match shapely_object result with
  | Ok shape => ret (Some shape)
  | Raise e => print (PrintExn e) ;; ret None
  end.

(** [results[index]] *)
Definition result_at (results : list dict) (index : nat) : M dict :=
  match nth_error results index with
  | Some r => ret r
  | None => raise IndexError
  end.

Definition to_geopandas (results : list dict) (fields : list string) : M GeoDataFrame :=
  let* results_df := lift (tabulate results fields) in
  let* geometries :=
    collect (fun index => let* r := result_at results index in _get_shapely_object r)
            (seq 0 (length (rows results_df))) in
  ret (mkGDF (drop_columns ["geometry"] results_df) geometries).

Definition _orient_polygon (coords : json) : outcome (list point) :=
  do p <- Polygon coords;
  do polygon <- orient p;
  Ok (exterior_coords polygon).

Definition _extract_geometry_info (geometry : json) : M (option param) :=
  let* geometry_type := lift (getitem geometry "type") in
  let* coordinates := lift (getitem geometry "coordinates") in
  if py_in geometry_type ["Polygon"] then
    let* c0 := lift (getitem0 coordinates) in
    let* coords := lift (_orient_polygon c0) in
    set_search_param "polygon" (PRing coords) ;;
    ret (Some (PRing coords))
  else if py_in geometry_type ["Point"] then
    set_search_param "point" (PJson coordinates) ;;
    ret (Some (PJson coordinates))
  else if py_in geometry_type ["LineString"] then
    set_search_param "line" (PJson coordinates) ;;
    ret (Some (PJson coordinates))
  else
    print (PrintUnsupported geometry_type) ;;
    ret None.

Definition _handle_draw (target action geo_json : json) : M unit :=
  let* ls := get active_layers in
  for_each remove_layer ls ;;
  set_active_layers [] ;;
  let* cur := get current_geometry in
  match cur with
  | Some l => remove_layer l
  | None => ret tt
  end ;;
  let* g := new_layer (GeoJSON "ROI" geo_json "red") in
  set_current_geometry g ;;
  let* geometry := lift (getitem geo_json "geometry") in
  let* r := _extract_geometry_info geometry in
  set_roi r ;;
  add_layer g.

(** [gdf.loc[gdf['dataset-id'] == p]] with the dataset ids at position [i]. *)
Definition rows_of (i : nat) (p : cell) (gdf : GeoDataFrame) : GeoDataFrame :=
  let tagged := combine (rows (gdf_data gdf)) (gdf_geometry gdf) in
  let sel := List.filter (fun rg => matches p (nth i (fst rg) Missing)) tagged in
  mkGDF (mkDF (columns (gdf_data gdf)) (map fst sel)) (map snd sel).

(** [round(df["size"].sum() / 1024, 2)] for the rows [df] selected from
    [gdf], which keep the dtypes of the columns of [gdf]. *)
Definition total_size (gdf df : GeoDataFrame) : outcome (list f64) :=
  match positions "size" (gdf_data df) with
  | [] => Raise (KeyError "size")
  | ps =>
      omap (fun i => gb_rounded (numeric_column (column_at i (gdf_data gdf)))
                                (column_at i (gdf_data df))) ps
  end.

(** One turn of the loop of [explore]. *)
Definition add_dataset_layer (i : nat) (gdf : GeoDataFrame) (pc : cell * string) : M unit :=
  let df := rows_of i (fst pc) gdf in
  let* total := lift (total_size gdf df) in
  let total_granules := length (rows (gdf_data df)) in
  let* g := new_layer (GeoData (mkName (fst pc) total_granules total) (snd pc) df) in
  let* ls := get active_layers in
  set_active_layers (ls ++ [g]) ;;
  add_layer g.

(** [list(gdf["dataset-id"].unique())] and the position of that column. *)
Definition dataset_ids (gdf : GeoDataFrame) : outcome (nat * list cell) :=
  match positions "dataset-id" (gdf_data gdf) with
  | [] => Raise (KeyError "dataset-id")
  | [i] => do ids <- unique (column_at i (gdf_data gdf)); Ok (i, ids)
  | _ => Raise AttributeError
  end.

Definition explore (results : list dict) : M unit :=
  let* gdf := to_geopandas results [] in
  let* ids := lift (dataset_ids gdf) in
  let colors := tab10 in
  for_each (add_dataset_layer (fst ids) gdf) (combine (snd ids) colors).

(** [_build_widget]: the polygon parameter defaults to the empty string. *)
Definition with_polygon_default (params : gmap string param) : gmap string param :=
  match params !! "polygon" with
  | Some _ => params
  | None => <["polygon" := PStr EmptyString]> params
  end.

Definition basemap_of (projection : string) : outcome string :=
  if String.eqb projection "global" then Ok "Esri.WorldImagery"
  else if String.eqb projection "south" then Ok "NASAGIBS.BlueMarble3031"
  else if String.eqb projection "north" then Ok "NASAGIBS.BlueMarble3413"
  else Raise (KeyError projection).

(** [SearchWidget(params, projection)] with a map of its own. *)
Definition new_widget (params : gmap string param) (projection : string) : outcome SearchWidget :=
  do basemap <- basemap_of projection;
  Ok (mkWidget None [] (Some (PJson (JList []))) (with_polygon_default params)
        [mkLayer 0 (TileLayer basemap)] 1 []).

(** ** Notions used to state the properties *)

(** A polygon boundary as the Python value handed to [_orient_polygon]. *)
Definition ring_json (pts : list point) : json :=
  JList (map (fun p => JList [JNum (fst p); JNum (snd p)]) pts).

(** A closed ring, as every polygon built by shapely has. *)
Definition closed_ring (r : list point) : Prop :=
  (4 <= length r)%nat /\
  match r with
  | [] => False
  | p0 :: _ => pt_eqb p0 (List.last r p0) = true
  end.

(** What [_get_shapely_object] leaves in the geometry column, and prints. *)
Definition geometry_of (result : dict) : option geom :=
  match shapely_object result with
  | Ok g => Some g
  | Raise _ => None
  end.

Definition printed_of (result : dict) : list printed :=
  match shapely_object result with
  | Ok _ => []
  | Raise e => [PrintExn e]
  end.

(** [v[k1][k2]...] *)
Fixpoint dig (v : json) (path : list string) : outcome json :=
  match path with
  | [] => Ok v
  | k :: path' => do x <- getitem v k; dig x path'
  end.

Definition geometry_path : list string :=
  ["umm"; "SpatialExtent"; "HorizontalSpatialDomain"; "Geometry"].

(** The state the widget keeps between events: the layers it remembers are
    on the map, they are distinct objects, and no object on the map has an
    identity that a later object will get. *)
Record wf (w : SearchWidget) : Prop := mkWf {
  wf_active_on_map :
    forall l, In l (active_layers w) -> on_map l (m_layers w) = true;
  wf_active_distinct : List.NoDup (map model_id (active_layers w));
  wf_current_on_map :
    forall l, current_geometry w = Some l ->
              on_map l (m_layers w) = true /\
              ~ In (model_id l) (map model_id (active_layers w));
  wf_fresh :
    forall l, In l (m_layers w) -> (model_id l < next_model_id w)%nat
}.

(** The search parameter a drawn geometry kind is stored under. *)
Definition param_key (geometry_type : json) : option string :=
  if py_in geometry_type ["Polygon"] then Some "polygon"
  else if py_in geometry_type ["Point"] then Some "point"
  else if py_in geometry_type ["LineString"] then Some "line"
  else None.

(** A GeoJSON feature as the draw control reports it. *)
Definition feature (geometry_type : string) (coordinates : json) : json :=
  JDict [("type", JStr "Feature");
         ("properties", JDict []);
         ("geometry", JDict [("type", JStr geometry_type);
                             ("coordinates", coordinates)])].

(** The names and colours of the dataset layers among a list of layers. *)
Fixpoint dataset_layers (ls : list layer) : list (layer_name * string) :=
  match ls with
  | [] => []
  | l :: ls' =>
      match layer_of l with
      | GeoData n c _ => (n, c) :: dataset_layers ls'
      | _ => dataset_layers ls'
      end
  end.

(** The layer one turn of the loop of [explore] builds for the dataset id
    and colour [pc]. *)
Definition layer_for (i : nat) (gdf : GeoDataFrame) (pc : cell * string) (l : layer) : Prop :=
  exists total,
    total_size gdf (rows_of i (fst pc) gdf) = Ok total /\
    layer_of l =
      GeoData (mkName (fst pc) (length (rows (gdf_data (rows_of i (fst pc) gdf)))) total)
              (snd pc) (rows_of i (fst pc) gdf).

(** The text after the last dot, read off in one pass. *)
Fixpoint after_last_dot (acc s : string) : string :=
  match s with
  | EmptyString => acc
  | String c s' =>
      if is_dot c then after_last_dot EmptyString s'
      else after_last_dot (acc ++ String c EmptyString) s'
  end.

(** An underscore before every capital that does not follow a capital, and
    every letter in lower case. *)
Fixpoint underscore_caps (after_capital : bool) (s : string) : string :=
  match s with
  | EmptyString => EmptyString
  | String c s' =>
      if is_upper c && negb after_capital
      then String "_" (String (lower_ascii c) (underscore_caps true s'))
      else String (lower_ascii c) (underscore_caps (is_upper c) s')
  end.

Definition is_separator (c : ascii) : bool :=
  Ascii.eqb c "-" || Ascii.eqb c " ".

(** [snake_case] in the usual sense of the word, for comparison: the
    lower-case words of an identifier joined by single underscores; a word starts
    at a capital that follows a lower-case character and after a hyphen or
    a space, and the name does not start with an underscore. *)
Fixpoint snake_words (at_start after_capital : bool) (s : string) : string :=
  match s with
  | EmptyString => EmptyString
  | String c s' =>
      if is_separator c then String "_" (snake_words true false s')
      else if is_upper c && negb after_capital && negb at_start
      then String "_" (String (lower_ascii c) (snake_words false true s'))
      else String (lower_ascii c) (snake_words false (is_upper c) s')
  end.

Definition snake_case (s : string) : string := snake_words true false s.

Fixpoint has_upper (s : string) : bool :=
  match s with
  | EmptyString => false
  | String c s' => is_upper c || has_upper s'
  end.

Fixpoint has_dot (s : string) : bool :=
  match s with
  | EmptyString => false
  | String c s' => is_dot c || has_dot s'
  end.

(** The widget after more lines were printed. *)
Definition printed_more (w : SearchWidget) (ps : list printed) : SearchWidget :=
  mkWidget (current_geometry w) (active_layers w) (roi w) (search_params w)
           (m_layers w) (next_model_id w) (stdout w ++ ps).

(** The identities of the layers the widget remembers. *)
Definition remembered (w : SearchWidget) : list nat :=
  map model_id (active_layers w) ++
  match current_geometry w with
  | Some l => [model_id l]
  | None => []
  end.

(** The layers left once those with the given identities are removed. *)
Definition without (ids : list nat) (layers : list layer) : list layer :=
  List.filter (fun l' => negb (existsb (Nat.eqb (model_id l')) ids)) layers.

Definition with_layers (w : SearchWidget) (layers : list layer) : SearchWidget :=
  mkWidget (current_geometry w) (active_layers w) (roi w) (search_params w)
           layers (next_model_id w) (stdout w).

(** The overlay [_handle_draw] builds for a drawn shape. *)
Definition roi_layer (w : SearchWidget) (geo_json : json) : layer :=
  mkLayer (next_model_id w) (GeoJSON "ROI" geo_json "red").

(** The widget when [_handle_draw] is about to build the overlay: the
    layers it remembered are off the map and the dataset layers are
    forgotten; the previous overlay is still remembered. *)
Definition emptied (w : SearchWidget) : SearchWidget :=
  mkWidget (current_geometry w) [] (roi w) (search_params w)
           (without (remembered w) (m_layers w)) (next_model_id w) (stdout w).

(** The widget when [_handle_draw] reaches [_extract_geometry_info]: the old
    layers are off the map and forgotten, the overlay exists but is not on
    the map yet. *)
Definition cleared (w : SearchWidget) (geo_json : json) : SearchWidget :=
  mkWidget (Some (roi_layer w geo_json)) [] (roi w) (search_params w)
           (without (remembered w) (m_layers w)) (S (next_model_id w)) (stdout w).

(** The widget when [_handle_draw] returns. *)
Definition shown (w : SearchWidget) (r : option param) (g : layer) : SearchWidget :=
  mkWidget (current_geometry w) (active_layers w) r (search_params w)
           (m_layers w ++ [g]) (next_model_id w) (stdout w).

(** A method leaves a relation between the widget before and after it,
    whether it returns or raises. *)
Definition preserves {A : Type} (R : SearchWidget -> SearchWidget -> Prop) (m : M A) : Prop :=
  forall w, R w (fst (m w)).

(** The search parameter [k] is left as it is. *)
Definition same_param (k : string) (w w' : SearchWidget) : Prop :=
  search_params w' !! k = search_params w !! k.

(** ** Sample data *)

(** A granule record of dataset [dataset_id], [size] MB large, with a
    bounding rectangle and two related urls. *)
Definition sample_granule (dataset_id : string) (size : Q) : dict :=
  [("meta", JDict [("concept-id", JStr "G1"); ("dataset-id", JStr dataset_id);
                   ("native-id", JStr "granule"); ("provider-id", JStr "P")]);
   ("umm", JDict
      [("SpatialExtent", JDict [("HorizontalSpatialDomain", JDict [("Geometry",
          JDict [("BoundingRectangles",
                  JList [JDict [("WestBoundingCoordinate", JNum (-10));
                                ("SouthBoundingCoordinate", JNum (-5));
                                ("EastBoundingCoordinate", JNum 20);
                                ("NorthBoundingCoordinate", JNum 15)]])])])]);
       ("RelatedUrls",
        JList [JDict [("URL", JStr "https://data"); ("Type", JStr "GET DATA")];
               JDict [("URL", JStr "https://info");
                      ("Type", JStr "VIEW RELATED INFORMATION")]])]);
   ("size", JNum size)].

(** A record with related urls and no spatial extent. *)
Definition granule_without_geometry : dict :=
  [("meta", JDict [("dataset-id", JStr "A")]);
   ("umm", JDict [("RelatedUrls", JList [])]);
   ("size", JNum 1)].

(** A record with related urls whose geometry has neither bounding
    rectangles nor polygons. *)
Definition granule_with_empty_geometry : dict :=
  [("meta", JDict [("dataset-id", JStr "A")]);
   ("umm", JDict
      [("RelatedUrls", JList []);
       ("SpatialExtent", JDict [("HorizontalSpatialDomain", JDict [("Geometry",
          JDict [("Lines", JList [])])])])]);
   ("size", JNum 1)].

(** Three granules of 10 MB in one dataset, two of 5 MB in another. *)
Definition five_granules : list dict :=
  [sample_granule "A" 10; sample_granule "A" 10; sample_granule "A" 10;
   sample_granule "B" 5; sample_granule "B" 5].

(** One granule in each of eleven datasets. *)
Definition eleven_datasets : list dict :=
  map (fun d => sample_granule d 1)
      ["D00"; "D01"; "D02"; "D03"; "D04"; "D05"; "D06"; "D07"; "D08"; "D09"; "D10"].

(** The widget [SearchWidget()] starts as. *)
Definition fresh_widget : SearchWidget :=
  mkWidget None [] (Some (PJson (JList []))) (with_polygon_default ∅)
           [mkLayer 0 (TileLayer "Esri.WorldImagery")] 1 [].

Definition triangle : list point := [(0, 0); (0, 1); (1, 1)]%Q.

(** ** Further notions: the columns of the result table *)

(** The allow-list [to_geopandas] works with. *)
Definition allow_list (fields : list string) : list string :=
  if Nat.eqb (length fields) 0 then default_fields else fields.

(** The flattened key paths of the records, in order of first appearance. *)
Definition key_paths (results : list dict) : list string :=
  union_keys [] (map _normalise_json_ordered results).

(** The key paths whose column is on the allow-list. *)
Definition kept_paths (results : list dict) (fields : list string) : list string :=
  List.filter (fun k => mem_str (flat_name k) (allow_list fields)) (key_paths results).

(** The type of a related url is one of the three kept ones. *)
Definition kept_link (l : json) : bool :=
  match getitem l "Type" with
  | Ok t => py_in t link_types
  | Raise _ => false
  end.

(** A record with a size and a dataset id, without related urls. *)
Definition granule_without_urls : dict :=
  [("meta", JDict [("dataset-id", JStr "A")]); ("size", JNum 1)].

(** ** Further notions: polygon boundaries of granules *)

(** A boundary point of the metadata, read as a planar point. *)
Definition is_point (pj : json) (p : point) : Prop :=
  getitem pj "Longitude" = Ok (JNum (fst p)) /\
  getitem pj "Latitude" = Ok (JNum (snd p)).

(** A granule whose spatial extent is a polygon with the given points. *)
Definition polygon_granule (pts : list point) : dict :=
  [("umm", JDict
      [("RelatedUrls", JList []);
       ("SpatialExtent", JDict [("HorizontalSpatialDomain", JDict [("Geometry",
          JDict [("GPolygons",
                  JList [JDict [("Boundary",
                    JDict [("Points",
                      JList (map (fun p => JDict [("Longitude", JNum (fst p));
                                                  ("Latitude", JNum (snd p))]) pts))])]])])])])])].

(** ** Further notions: draw events *)

(** What [_handle_draw] still has to do once the old layers are cleared
    and the overlay [g] is built. *)
Definition draw_rest (geo_json : json) (g : layer) : M unit :=
  let* geometry := lift (getitem geo_json "geometry") in
  let* r := _extract_geometry_info geometry in
  set_roi r ;;
  add_layer g.

(** A widget whose last draw event raised: it remembers an overlay that is
    not on the map. *)
Definition wedged (w : SearchWidget) : Prop :=
  active_layers w = [] /\
  exists g, current_geometry w = Some g /\ on_map g (m_layers w) = false.

(** A drawn shape of a kind that has no coordinates of its own. *)
Definition geometry_collection : json :=
  JDict [("type", JStr "Feature");
         ("properties", JDict []);
         ("geometry", JDict [("type", JStr "GeometryCollection");
                             ("geometries", JList [])])].

(** A polygon with an outer ring of two points. *)
Definition two_point_polygon : json :=
  feature "Polygon" (JList [ring_json [(0, 0); (1, 1)]%Q]).

(** ** The centre of a bounding box *)



(** ** The info panel *)

(** [link["URL"]] when it is a string that starts with [https]; a URL that
    is not a string has no [startswith]. *)
Definition https_url (link : json) : outcome (option string) :=
  do u <- getitem link "URL";
  match u with
  | JStr s => Ok (if String.prefix "https" s then Some s else None)
  | _ => Raise AttributeError
  end.

(** [[render(link["URL"]) for link in links
      if link["Type"] == type and link["URL"].startswith("https")]] *)
Fixpoint links_of_type (type : string) (render : string -> string) (links : list json)
  : outcome (list string) :=
  match links with
  | [] => Ok []
  | link :: rest =>
      do t <- getitem link "Type";
      do here <- (if py_in t [type] then https_url link else Ok None);
      do others <- links_of_type type render rest;
      Ok (match here with
          | Some u => render u :: others
          | None => others
          end)
  end.

Definition anchor (u : string) : string := ("<a href=" ++ u ++ ">link</a>")%string.

Definition img (u : string) : string := ("<img src=" ++ u ++ " width='200px'/>")%string.

(** What goes into the last hole of the template: the first two previews
    joined into one text, or, when there is exactly one, the list itself. *)
Inductive browse : Type :=
| Joined (parts : list string)
| Listed (items : list string).

(** The text of the panel, kept as the values that fill the template. *)
Record html : Type := mkHtml {
  html_native_id : json;
  html_size : Q;
  html_start : json;
  html_end : json;
  html_url : list string;
  html_browse : browse
}.

(** [round(size, 2)] needs a number. *)
Definition as_number (v : json) : outcome Q :=
  match v with
  | JNum q => Ok q
  | JBool b => Ok (if b then 1%Q else 0%Q)
  | _ => Raise TypeError
  end.

(** The part of [update_html] that builds the text. *)
Definition panel_html (feature : json) : outcome html :=
  do properties <- getitem feature "properties";
  do native_id <- getitem properties "native-id";
  do start <- getitem properties "_beginning_date_time";
  do end_ <- getitem properties "_ending_date_time";
  do size <- getitem properties "size";
  do related <- getitem properties "_related_urls";
  do links <- iter related;
  do url <- links_of_type "GET DATA" anchor links;
  do preview <- links_of_type "GET RELATED VISUALIZATION" img links;
  let browse :=
    if (1 <? length preview)%nat then Joined (firstn 2 preview)
    else if Nat.eqb (length preview) 1 then Listed preview
    else Joined [] in
  do size <- as_number size;
  Ok (mkHtml native_id (round2 size) start end_ url browse).

(** The part of the widget [update_html] works on: the text of the panel,
    the control that shows it, and the controls of the map; a control is
    known by its identity. *)
Record InfoPanel : Type := mkPanel {
  html_value : option html;
  overview : option nat;
  m_controls : list nat;
  next_control_id : nat
}.

(** How a hover event ends. *)
Inductive hover_outcome : Type :=
| Hovered
| HoverRaise (e : exn)
| ControlException.

Definition update_html (feature : json) (p : InfoPanel) : InfoPanel * hover_outcome :=
  match panel_html feature with
  | Raise e => (p, HoverRaise e)
  | Ok value =>
      let p1 := mkPanel (Some value) (overview p) (m_controls p) (next_control_id p) in
      let removed :=
        match overview p1 with
        | Some c =>
            if existsb (Nat.eqb c) (m_controls p1)
            then Some (List.filter (fun c' => negb (Nat.eqb c' c)) (m_controls p1))
            else None
        | None => Some (m_controls p1)
        end in
      match removed with
      | None => (p1, ControlException)
      | Some controls =>
          let c := next_control_id p1 in
          let p2 := mkPanel (Some value) (Some c) controls (S c) in
          if existsb (Nat.eqb c) controls then (p2, ControlException)
          else (mkPanel (Some value) (Some c) (controls ++ [c]) (S c), Hovered)
      end
  end.

(** The URL of a link of the given type, when it is a string that starts
    with [https]. *)
Definition https_link (type : string) (link : json) : option string :=
  match getitem link "Type", getitem link "URL" with
  | Ok t, Ok (JStr u) =>
      if py_in t [type] && String.prefix "https" u then Some u else None
  | _, _ => None
  end.

Fixpoint pick {A B : Type} (f : A -> option B) (l : list A) : list B :=
  match l with
  | [] => []
  | a :: l' =>
      match f a with
      | Some b => b :: pick f l'
      | None => pick f l'
      end
  end.

(** The controls of the map other than the one that shows the panel. *)
Definition other_controls (p : InfoPanel) : list nat :=
  match overview p with
  | Some c => List.filter (fun c' => negb (Nat.eqb c' c)) (m_controls p)
  | None => m_controls p
  end.

(** The panel's control is on the map, and no control on the map has an
    identity a later control will get. *)
Definition panel_ok (p : InfoPanel) : Prop :=
  (forall c, overview p = Some c -> In c (m_controls p)) /\
  (forall c, In c (m_controls p) -> (c < next_control_id p)%nat).

(** A run of hover events; an event that raises is lost. *)
Fixpoint hovers (features : list json) (p : InfoPanel) : InfoPanel :=
  match features with
  | [] => p
  | feature :: rest => hovers rest (fst (update_html feature p))
  end.

(** The feature of a row of the table, as the hover event gets it. *)
Definition sample_feature : json :=
  JDict [("properties", JDict
    [("native-id", JStr "granule"); ("size", JNum (12346 # 1000));
     ("_beginning_date_time", JStr "2020-01-01"); ("_ending_date_time", JStr "2020-01-02");
     ("_related_urls",
      JList [JDict [("URL", JStr "https://data"); ("Type", JStr "GET DATA")];
             JDict [("URL", JStr "http://plain"); ("Type", JStr "GET DATA")];
             JDict [("URL", JStr "s3://bucket"); ("Type", JStr "GET DATA VIA DIRECT ACCESS")];
             JDict [("URL", JStr "https://a.png"); ("Type", JStr "GET RELATED VISUALIZATION")];
             JDict [("URL", JStr "https://b.png"); ("Type", JStr "GET RELATED VISUALIZATION")];
             JDict [("URL", JStr "https://c.png"); ("Type", JStr "GET RELATED VISUALIZATION")]])])].

(** The map of a fresh widget has six controls (zoom and attribution, which
    every map starts with, layers, full screen, measure, draw) and no panel
    yet. *)
Definition fresh_panel : InfoPanel := mkPanel None None [0; 1; 2; 3; 4; 5]%nat 6.

(** ** Parameter dicts shared between widgets *)

(** The dicts of search parameters live outside the widgets:
    [self.search_params] refers to the dict the caller passed to
    [SearchWidget], or to the one default dict of [__init__], and every
    write goes to that dict. *)
Definition heap : Type := gmap nat (gmap string param).

(** The dict at an address. *)
Definition deref (dicts : heap) (ref : nat) : gmap string param :=
  default ∅ (dicts !! ref).

(** A widget object: the address of its parameter dict and its own fields
    (the [search_params] of [self_fields] are read from the dict on every
    call). *)
Record instance : Type := mkInstance {
  params_ref : nat;
  self_fields : SearchWidget
}.

Definition with_params (w : SearchWidget) (params : gmap string param) : SearchWidget :=
  mkWidget (current_geometry w) (active_layers w) (roi w) params
           (m_layers w) (next_model_id w) (stdout w).

(** A method called on a widget object: it works on the dict the object
    refers to. *)
Definition call {A : Type} (m : M A) (x : instance) (dicts : heap)
  : instance * heap * outcome A :=
  let w := with_params (self_fields x) (deref dicts (params_ref x)) in
  (mkInstance (params_ref x) (fst (m w)),
   <[params_ref x := search_params (fst (m w))]> dicts,
   snd (m w)).

(** [SearchWidget(params, projection)] with a map of its own, for the dict
    at [ref]:
    [_build_widget] writes the polygon default into that dict before it
    looks the projection up. *)
Definition construct (ref : nat) (projection : string) (dicts : heap)
  : heap * outcome instance :=
  let dicts' := <[ref := with_polygon_default (deref dicts ref)]> dicts in
  match new_widget (deref dicts ref) projection with
  | Ok w => (dicts', Ok (mkInstance ref w))
  | Raise e => (dicts', Raise e)
  end.

(** ** Building the table *)

Lemma positions_from_absent (c : string) (cols : list string) (i : nat) :
  ~ In c cols -> positions_from i c cols = [].
Proof.
  revert i. induction cols as [|c' cols IH]; intros i Hc; simpl; [reflexivity|].
  destruct (String.eqb_spec c c') as [->|_].
  - exfalso. apply Hc. now left.
  - apply IH. intros H. apply Hc. now right.
Qed.

Lemma mem_str_In (s : string) (l : list string) : mem_str s l = true <-> In s l.
Proof.
  unfold mem_str. rewrite existsb_exists. split.
  - intros [x [Hx He]]. apply String.eqb_eq in He. now subst.
  - intros H. exists s. split; [assumption|apply String.eqb_refl].
Qed.

Lemma kept_columns_in_fields (fields cols : list string) (c : string) :
  In c (List.filter (fun c => negb (mem_str c
          (List.filter (fun col => negb (mem_str col fields)) cols))) cols) ->
  In c fields.
Proof.
  intros H. apply filter_In in H as [Hin Hk].
  apply negb_true_iff in Hk.
  destruct (mem_str c fields) eqn:E; [now apply mem_str_In|].
  exfalso. assert (mem_str c (List.filter (fun col => negb (mem_str col fields)) cols) = true) as H';
    [|rewrite H' in Hk; discriminate].
  apply mem_str_In, filter_In. split; [assumption|]. now rewrite E.
Qed.

Lemma tabulate_without_related_urls (results : list dict) (fields : list string) :
  fields <> [] -> ~ In "_related_urls" fields ->
  tabulate results fields = Raise (KeyError "_related_urls").
Proof.
  intros Hne Hnot. unfold tabulate, apply_related_urls, positions.
  destruct fields as [|f fields]; [congruence|]. cbn [length Nat.eqb].
  rewrite positions_from_absent; [reflexivity|].
  cbn [columns drop_columns]. intros H. apply Hnot.
  eapply kept_columns_in_fields. exact H.
Qed.

(** C10: with a non-empty [fields] that lacks [_related_urls] the column is
    dropped and then read: [to_geopandas] raises [KeyError], whatever the
    records are, and leaves the widget as it was. *)
Theorem to_geopandas_fields_without_related_urls
    (results : list dict) (fields : list string) (w : SearchWidget) :
  fields <> [] -> ~ In "_related_urls" fields ->
  to_geopandas results fields w = (w, Raise (KeyError "_related_urls")).
Proof.
  intros Hne Hnot. unfold to_geopandas, bind, lift.
  now rewrite tabulate_without_related_urls.
Qed.

(** C4: on an empty result list with the default fields the frame has no
    column at all, and reading [_related_urls] raises [KeyError]. *)
Theorem to_geopandas_empty_results (w : SearchWidget) :
  to_geopandas [] [] w = (w, Raise (KeyError "_related_urls")).
Proof. reflexivity. Qed.

(** ** Column names *)

Lemma split_dot_nonempty (s : string) : split_dot s <> [].
Proof.
  destruct s as [|c s]; simpl; [discriminate|].
  destruct (is_dot c); [discriminate|].
  destruct (split_dot s); discriminate.
Qed.

Lemma append_cons (x : ascii) (a b : string) :
  (String x a ++ b)%string = String x (a ++ b)%string.
Proof. reflexivity. Qed.

Lemma append_empty_l (b : string) : (EmptyString ++ b)%string = b.
Proof. reflexivity. Qed.

Lemma string_app_assoc (a b c : string) : ((a ++ b) ++ c = a ++ (b ++ c))%string.
Proof.
  induction a as [|x a IH]; [reflexivity|].
  now rewrite !append_cons, IH.
Qed.

Lemma string_app_empty_r (a : string) : (a ++ EmptyString)%string = a.
Proof.
  induction a as [|x a IH]; [reflexivity|].
  now rewrite append_cons, IH.
Qed.

Lemma after_last_dot_split (s acc : string) :
  after_last_dot acc s =
  match split_dot s with
  | [seg] => (acc ++ seg)%string
  | segs => List.last segs EmptyString
  end.
Proof.
  revert acc. induction s as [|c s IH]; intros acc; simpl.
  - now rewrite string_app_empty_r.
  - destruct (is_dot c).
    + rewrite IH. pose proof (split_dot_nonempty s) as Hne.
      destruct (split_dot s) as [|seg [|seg' segs]]; [congruence|reflexivity|reflexivity].
    + rewrite IH. pose proof (split_dot_nonempty s) as Hne.
      destruct (split_dot s) as [|seg [|seg' segs]]; [congruence| |reflexivity].
      now rewrite string_app_assoc, append_cons, append_empty_l.
Qed.

Lemma last_segment_after_last_dot (s : string) :
  last_segment s = after_last_dot EmptyString s.
Proof.
  rewrite after_last_dot_split. unfold last_segment.
  destruct (split_dot s) as [|seg [|seg' segs]]; reflexivity.
Qed.

Lemma lower_re_sub (s : string) :
  lower (re_sub s) = underscore_caps false s /\
  lower (in_run s) = underscore_caps true s.
Proof.
  induction s as [|c s [IH1 IH2]]; [split; reflexivity|].
  split; simpl; destruct (is_upper c) eqn:E; simpl; rewrite ?E; simpl.
  all: try (change (lower_ascii "_") with "_"%char).
  all: rewrite ?IH1, ?IH2; try reflexivity.
Qed.

Lemma is_upper_lower_ascii (c : ascii) : is_upper (lower_ascii c) = false.
Proof. destruct c as [[] [] [] [] [] [] [] []]; reflexivity. Qed.

Lemma underscore_caps_no_upper (s : string) (b : bool) :
  has_upper (underscore_caps b s) = false.
Proof.
  revert b. induction s as [|c s IH]; intros b; simpl; [reflexivity|].
  destruct (is_upper c && negb b); simpl; now rewrite is_upper_lower_ascii, IH.
Qed.

Lemma after_last_dot_dot_free (seg acc : string) :
  has_dot seg = false -> after_last_dot acc seg = (acc ++ seg)%string.
Proof.
  revert acc. induction seg as [|c seg IH]; intros acc H; simpl in *.
  - now rewrite string_app_empty_r.
  - apply orb_false_iff in H as [Hc Hs]. rewrite Hc, IH by assumption.
    now rewrite string_app_assoc, append_cons, append_empty_l.
Qed.

Lemma after_last_dot_path (path seg acc : string) :
  after_last_dot acc (path ++ String "." seg)%string = after_last_dot EmptyString seg.
Proof.
  revert acc. induction path as [|c path IH]; intros acc.
  - rewrite append_empty_l. reflexivity.
  - rewrite append_cons. simpl. destruct (is_dot c); apply IH.
Qed.

(** C8 (as the code has it): a column is named after the text that follows
    the last dot of its key path, with an underscore put before every run of
    capitals (a leading one too) and the letters lower-cased; every other
    character, a hyphen included, is kept.  So for a key path [path.seg]
    whose last segment [seg] has no dot the name is [underscore_caps false
    seg], it has no capital, and the rows are untouched. *)
Theorem flattened_column_names (df : DataFrame) (path seg : string) :
  has_dot seg = false ->
  columns (_flattent_column_names df)
    = map (fun col => underscore_caps false (after_last_dot EmptyString col)) (columns df) /\
  rows (_flattent_column_names df) = rows df /\
  flat_name (path ++ String "." seg)%string = underscore_caps false seg /\
  flat_name seg = underscore_caps false seg /\
  has_upper (flat_name (path ++ String "." seg)%string) = false.
Proof.
  intros Hseg.
  assert (Hname : forall col, flat_name col
                 = underscore_caps false (after_last_dot EmptyString col)).
  { intros col. unfold flat_name.
    rewrite last_segment_after_last_dot. apply lower_re_sub. }
  repeat split.
  - simpl. apply map_ext. exact Hname.
  - now rewrite Hname, after_last_dot_path, after_last_dot_dot_free.
  - now rewrite Hname, after_last_dot_dot_free.
  - rewrite Hname. apply underscore_caps_no_upper.
Qed.

Lemma flattened_column_names_witness :
  has_dot "RelatedUrls" = false /\
  flat_name ("umm" ++ String "." "RelatedUrls")%string = "_related_urls".
Proof.
  split; [reflexivity|].
  exact (proj1 (proj2 (proj2
    (flattened_column_names (mkDF [] []) "umm" "RelatedUrls" eq_refl)))).
Defined.

(** C8 (as stated) fails: [RelatedUrls] becomes [_related_urls], not
    [related_urls], and [native-id] keeps its hyphen. *)
Lemma flattened_column_names_not_snake_case :
  columns (_flattent_column_names (mkDF ["umm.RelatedUrls"; "meta.native-id"] []))
    = ["_related_urls"; "native-id"] /\
  map (fun col => snake_case (last_segment col)) ["umm.RelatedUrls"; "meta.native-id"]
    = ["related_urls"; "native_id"] /\
  ~ (forall col, flat_name col = snake_case (last_segment col)).
Proof.
  split; [reflexivity|]. split; [reflexivity|].
  intros H. specialize (H "umm.RelatedUrls"). vm_compute in H. discriminate.
Qed.

(** ** Geometries of granules *)

Lemma dict_get_mem (k : string) (d : dict) (v : json) :
  dict_get k d = Some v -> mem_str k (map fst d) = true.
Proof.
  induction d as [|[k' v'] d IH]; simpl; [discriminate|].
  destruct (String.eqb k k'); [reflexivity|]. intros H. simpl. now apply IH.
Qed.

Lemma dict_get_none_mem (k : string) (d : dict) :
  dict_get k d = None -> mem_str k (map fst d) = false.
Proof.
  induction d as [|[k' v'] d IH]; simpl; [reflexivity|].
  destruct (String.eqb k k'); [discriminate|]. exact IH.
Qed.

Lemma obind_Ok {A B : Type} (m : outcome A) (k : A -> outcome B) (b : B) :
  obind m k = Ok b -> exists a, m = Ok a /\ k a = Ok b.
Proof. destruct m as [a|e]; simpl; [eauto|discriminate]. Qed.

Lemma Qle_bool_refl (a : Q) : Qle_bool a a = true.
Proof. apply Qle_bool_iff, Qle_refl. Qed.

Lemma Qle_bool_lt (a b : Q) : (a < b)%Q -> Qle_bool a b = true.
Proof. intros H. apply Qle_bool_iff, Qlt_le_weak, H. Qed.

Lemma Qle_bool_gt (a b : Q) : (a < b)%Q -> Qle_bool b a = false.
Proof.
  intros H. destruct (Qle_bool b a) eqn:E; [|reflexivity].
  apply Qle_bool_iff in E. exfalso. exact (Qlt_not_le _ _ H E).
Qed.

Lemma box_bounds (w s e n : Q) :
  (w < e)%Q -> (s < n)%Q -> bounds (box w s e n) = Some (w, s, e, n).
Proof.
  intros Hwe Hsn. unfold bounds, box, qmin, qmax. simpl.
  repeat (first [ rewrite Qle_bool_refl
                | rewrite (Qle_bool_gt _ _ Hwe) | rewrite (Qle_bool_lt _ _ Hwe)
                | rewrite (Qle_bool_gt _ _ Hsn) | rewrite (Qle_bool_lt _ _ Hsn) ];
          cbv iota).
  reflexivity.
Qed.

(** The corners of a rectangle given by four values that [float] reads: the
    ring is closed by its first corner unless the last corner is the
    first, which is when [maxx] and [minx] are the same number. *)
Lemma geometry_box_values (vw vs ve vn : json) (w s e n : Q) :
  as_float vw = Ok w -> as_float vs = Ok s -> as_float ve = Ok e -> as_float vn = Ok n ->
  geometry_box vw vs ve vn
  = Ok (Polygon_ (if Qeq_bool e w
                  then [(e, s); (e, n); (w, n); (w, s)]
                  else [(e, s); (e, n); (w, n); (w, s); (e, s)])).
Proof.
  intros Hw Hs He Hn. unfold geometry_box, Polygon.
  cbn [iter obind omap point_of_json]. rewrite He, Hs, Hn, Hw. cbn [obind].
  unfold Polygon_of_points, close_ring. cbn [length Nat.eqb List.last].
  unfold pt_eqb. cbn [fst snd].
  assert (Hss : Qeq_bool s s = true) by (apply Qeq_bool_iff; reflexivity).
  rewrite Hss, andb_true_r. destruct (Qeq_bool e w); reflexivity.
Qed.

Lemma geometry_box_numbers (w s e n : Q) :
  ~ (w == e)%Q ->
  geometry_box (JNum w) (JNum s) (JNum e) (JNum n) = Ok (box w s e n).
Proof.
  intros Hne.
  rewrite (geometry_box_values (JNum w) (JNum s) (JNum e) (JNum n) w s e n)
    by reflexivity.
  destruct (Qeq_bool e w) eqn:E; [|reflexivity].
  apply Qeq_bool_iff in E. exfalso. apply Hne. now symmetry.
Qed.

Lemma box_ccw (w s e n : Q) :
  (w < e)%Q -> (s < n)%Q ->
  exists a, signed_area (exterior_coords (box w s e n)) = Ok a /\ (0 < a)%Q.
Proof.
  intros Hwe Hsn. eexists. split; [reflexivity|]. simpl.
  assert (H : ((e * (n - s) + (w * (s - n) + (w * (s - n) + (e * (n - s) + 0)))) / 2
               == (e - w) * (n - s))%Q) by field.
  rewrite H. apply Qmult_lt_0_compat.
  - rewrite <- (Qplus_opp_r w). apply Qplus_lt_l. exact Hwe.
  - rewrite <- (Qplus_opp_r s). apply Qplus_lt_l. exact Hsn.
Qed.

(** C3: a granule whose geometry has a bounding rectangle (w, s, e, n) with
    w < e and s < n gets the axis-aligned box with corners listed
    counter-clockwise (positive signed area), whose bounds are exactly
    (w, s, e, n); nothing is printed. *)
Theorem bounding_rectangle_box
    (result geo br : dict) (others : list json) (w s e n : Q) (W : SearchWidget) :
  dig (JDict result) geometry_path = Ok (JDict geo) ->
  dict_get "BoundingRectangles" geo = Some (JList (JDict br :: others)) ->
  dict_get "WestBoundingCoordinate" br = Some (JNum w) ->
  dict_get "SouthBoundingCoordinate" br = Some (JNum s) ->
  dict_get "EastBoundingCoordinate" br = Some (JNum e) ->
  dict_get "NorthBoundingCoordinate" br = Some (JNum n) ->
  (w < e)%Q -> (s < n)%Q ->
  _get_shapely_object result W = (W, Ok (Some (box w s e n))) /\
  exterior_coords (box w s e n) = [(e, s); (e, n); (w, n); (w, s); (e, s)] /\
  bounds (box w s e n) = Some (w, s, e, n) /\
  exists a, signed_area (exterior_coords (box w s e n)) = Ok a /\ (0 < a)%Q.
Proof.
  intros Hdig Hbr Hw Hs He Hn Hwe Hsn.
  split; [|split; [reflexivity|split; [now apply box_bounds|now apply box_ccw]]].
  unfold geometry_path in Hdig. cbn [dig] in Hdig.
  apply obind_Ok in Hdig as [umm [H1 Hdig]].
  apply obind_Ok in Hdig as [se [H2 Hdig]].
  apply obind_Ok in Hdig as [hsd [H3 Hdig]].
  apply obind_Ok in Hdig as [g [H4 Hdig]].
  injection Hdig as ->.
  unfold _get_shapely_object, shapely_object.
  rewrite H1; cbn [obind]. rewrite H2; cbn [obind].
  rewrite H3; cbn [obind]. rewrite H4; cbn [obind keys].
  rewrite (dict_get_mem _ _ _ Hbr). cbn [getitem getitem0 obind].
  rewrite Hbr. cbn [getitem getitem0 obind].
  rewrite Hw, Hs, He, Hn. cbn [obind].
  rewrite geometry_box_numbers; [reflexivity|].
  intros Heq. rewrite Heq in Hwe. exact (Qlt_irrefl _ Hwe).
Qed.

(** ** One geometry per row *)

Lemma omap_length {A B : Type} (f : A -> outcome B) (l : list A) (l' : list B) :
  omap f l = Ok l' -> length l' = length l.
Proof.
  revert l'. induction l as [|a l IH]; intros l' H; simpl in H.
  - now injection H as <-.
  - apply obind_Ok in H as [b [_ H]]. apply obind_Ok in H as [bs [Hbs H]].
    injection H as <-. simpl. f_equal. now apply IH.
Qed.

Lemma apply_related_urls_rows (df df' : DataFrame) :
  apply_related_urls df = Ok df' -> length (rows df') = length (rows df).
Proof.
  unfold apply_related_urls.
  destruct (positions "_related_urls" df) as [|i [|j ps]]; [discriminate| |].
  - intros H. apply obind_Ok in H as [cells [Hc H]]. injection H as <-.
    apply omap_length in Hc. unfold column_at in Hc. rewrite length_map in Hc.
    unfold set_column_at. cbn [rows].
    rewrite length_map, length_combine. lia.
  - destruct (rows df) eqn:E; [|discriminate]. intros [= <-]. now rewrite E.
Qed.

Lemma tabulate_rows (results : list dict) (fields : list string) (df : DataFrame) :
  tabulate results fields = Ok df -> length (rows df) = length results.
Proof.
  unfold tabulate. intros H. apply apply_related_urls_rows in H. rewrite H.
  unfold drop_columns, _flattent_column_names, json_normalize. cbn [rows columns].
  now rewrite !length_map.
Qed.

Lemma printed_more_nil (w : SearchWidget) : printed_more w [] = w.
Proof. destruct w. unfold printed_more. simpl. now rewrite app_nil_r. Qed.

Lemma printed_more_app (w : SearchWidget) (a b : list printed) :
  printed_more (printed_more w a) b = printed_more w (a ++ b).
Proof. unfold printed_more. simpl. now rewrite app_assoc. Qed.

Lemma get_shapely_object_run (result : dict) (w : SearchWidget) :
  _get_shapely_object result w = (printed_more w (printed_of result), Ok (geometry_of result)).
Proof.
  unfold _get_shapely_object, printed_of, geometry_of.
  destruct (shapely_object result) as [g|e].
  - unfold ret. now rewrite printed_more_nil.
  - reflexivity.
Qed.

Lemma nth_error_middle {A : Type} (prefix suffix : list A) (a : A) :
  nth_error (prefix ++ a :: suffix) (length prefix) = Some a.
Proof. induction prefix as [|x prefix IH]; simpl; [reflexivity|exact IH]. Qed.

Lemma collect_geometries (suffix prefix : list dict) (w : SearchWidget) :
  collect (fun index => let* r := result_at (prefix ++ suffix) index in
                        _get_shapely_object r)
          (seq (length prefix) (length suffix)) w
  = (printed_more w (concat (map printed_of suffix)), Ok (map geometry_of suffix)).
Proof.
  revert prefix w. induction suffix as [|r suffix IH]; intros prefix w.
  - simpl. unfold ret. now rewrite printed_more_nil.
  - cbn [length seq collect map concat]. unfold bind at 1. unfold bind at 1.
    unfold result_at at 1. rewrite nth_error_middle. unfold ret at 1.
    rewrite get_shapely_object_run.
    replace (prefix ++ r :: suffix) with ((prefix ++ [r]) ++ suffix)
      by now rewrite <- app_assoc.
    replace (S (length prefix)) with (length (prefix ++ [r]))
      by (rewrite length_app; simpl; lia).
    unfold bind at 1. rewrite IH. unfold ret. now rewrite printed_more_app.
Qed.

Lemma to_geopandas_run (results : list dict) (fields : list string) (df : DataFrame)
    (w : SearchWidget) :
  tabulate results fields = Ok df ->
  to_geopandas results fields w
  = (printed_more w (concat (map printed_of results)),
     Ok (mkGDF (drop_columns ["geometry"] df) (map geometry_of results))).
Proof.
  intros Htab. pose proof (tabulate_rows _ _ _ Htab) as Hlen.
  unfold to_geopandas. unfold bind at 1. unfold lift. rewrite Htab.
  unfold bind at 1. rewrite Hlen.
  pose proof (collect_geometries results [] w) as Hc. simpl in Hc.
  rewrite Hc. reflexivity.
Qed.

Lemma to_geopandas_raise (results : list dict) (fields : list string) (e : exn)
    (w : SearchWidget) :
  tabulate results fields = Raise e ->
  to_geopandas results fields w = (w, Raise e).
Proof. intros Htab. unfold to_geopandas, bind, lift. now rewrite Htab. Qed.

(** *** What the spatial metadata gives *)

Lemma shapely_object_dig (result : dict) :
  shapely_object result
  = do geo <- dig (JDict result) geometry_path;
    do ks <- keys geo;
    if mem_str "BoundingRectangles" ks then
      do brs <- getitem geo "BoundingRectangles";
      do bounding_rectangle <- getitem0 brs;
      do w <- getitem bounding_rectangle "WestBoundingCoordinate";
      do s <- getitem bounding_rectangle "SouthBoundingCoordinate";
      do e <- getitem bounding_rectangle "EastBoundingCoordinate";
      do n <- getitem bounding_rectangle "NorthBoundingCoordinate";
      geometry_box w s e n
    else if mem_str "GPolygons" ks then
      do gps <- getitem geo "GPolygons";
      do gp <- getitem0 gps;
      do boundary <- getitem gp "Boundary";
      do points <- getitem boundary "Points";
      do ps <- iter points;
      do shell <- omap (fun p => do lon <- getitem p "Longitude";
                                 do lat <- getitem p "Latitude";
                                 Ok (JList [lon; lat])) ps;
      Polygon (JList shell)
    else
      Raise (ValueError "Provided result does not contain bounding boxes/polygons or is incompatible.").
Proof.
  unfold shapely_object, geometry_path. cbn [dig].
  destruct (getitem (JDict result) "umm") as [umm|e]; [|reflexivity]. cbn [obind].
  destruct (getitem umm "SpatialExtent") as [se|e]; [|reflexivity]. cbn [obind].
  destruct (getitem se "HorizontalSpatialDomain") as [hsd|e]; [|reflexivity]. cbn [obind].
  destruct (getitem hsd "Geometry") as [geo|e]; reflexivity.
Qed.

(** A record without the path to its geometry. *)
Lemma shapely_object_no_path (result : dict) (e : exn) :
  dig (JDict result) geometry_path = Raise e -> shapely_object result = Raise e.
Proof. intros H. now rewrite shapely_object_dig, H. Qed.

(** A geometry that is not a dict has no keys. *)
Lemma shapely_object_no_keys (result : dict) (geo : json) (e : exn) :
  dig (JDict result) geometry_path = Ok geo -> keys geo = Raise e ->
  shapely_object result = Raise e.
Proof. intros H Hk. rewrite shapely_object_dig, H. cbn [obind]. now rewrite Hk. Qed.

(** A geometry with neither bounding rectangles nor polygons. *)
Lemma shapely_object_neither (result geo : dict) :
  dig (JDict result) geometry_path = Ok (JDict geo) ->
  dict_get "BoundingRectangles" geo = None ->
  dict_get "GPolygons" geo = None ->
  shapely_object result
  = Raise (ValueError "Provided result does not contain bounding boxes/polygons or is incompatible.").
Proof.
  intros H Hb Hg. rewrite shapely_object_dig, H. cbn [obind keys].
  now rewrite (dict_get_none_mem _ _ Hb), (dict_get_none_mem _ _ Hg).
Qed.

(** A geometry with bounding rectangles: the first one is what counts. *)
Lemma shapely_object_rectangle (result geo br : dict) (others : list json)
    (vw vs ve vn : json) :
  dig (JDict result) geometry_path = Ok (JDict geo) ->
  dict_get "BoundingRectangles" geo = Some (JList (JDict br :: others)) ->
  dict_get "WestBoundingCoordinate" br = Some vw ->
  dict_get "SouthBoundingCoordinate" br = Some vs ->
  dict_get "EastBoundingCoordinate" br = Some ve ->
  dict_get "NorthBoundingCoordinate" br = Some vn ->
  shapely_object result = geometry_box vw vs ve vn.
Proof.
  intros H Hbr Hw Hs He Hn. rewrite shapely_object_dig, H. cbn [obind keys].
  rewrite (dict_get_mem _ _ _ Hbr). cbn [getitem getitem0 obind].
  rewrite Hbr. cbn [getitem getitem0 obind].
  rewrite Hw, Hs, He, Hn. reflexivity.
Qed.

(** A geometry whose first bounding rectangle has four numbers. *)
Lemma shapely_object_box (result geo br : dict) (others : list json)
    (west south east north : Q) :
  dig (JDict result) geometry_path = Ok (JDict geo) ->
  dict_get "BoundingRectangles" geo = Some (JList (JDict br :: others)) ->
  dict_get "WestBoundingCoordinate" br = Some (JNum west) ->
  dict_get "SouthBoundingCoordinate" br = Some (JNum south) ->
  dict_get "EastBoundingCoordinate" br = Some (JNum east) ->
  dict_get "NorthBoundingCoordinate" br = Some (JNum north) ->
  ~ (west == east)%Q ->
  shapely_object result = Ok (box west south east north).
Proof.
  intros H Hbr Hw Hs He Hn Hne.
  rewrite (shapely_object_rectangle _ _ _ _ _ _ _ _ H Hbr Hw Hs He Hn).
  now apply geometry_box_numbers.
Qed.

(** C1 (as the code has it): once the columns of the table are built
    (lines 113 to 122 did not raise), the geometry step keeps every row
    and the table is returned, whatever the spatial metadata.  A record
    whose spatial metadata cannot be read has its exception printed and
    gets a null geometry: so a record without the path to its geometry, one
    whose geometry is not a dict, and one whose geometry has neither
    bounding rectangles nor polygons, for which the [ValueError] of line 196
    is printed.  Every other record gets its geometry: a record whose
    first bounding rectangle has four numbers, west and east different,
    gets their box. *)
Theorem to_geopandas_keeps_rows_without_geometry
    (results : list dict) (fields : list string) (df : DataFrame) (w : SearchWidget) :
  tabulate results fields = Ok df ->
  exists gdf,
    to_geopandas results fields w
      = (printed_more w (concat (map printed_of results)), Ok gdf) /\
    gdf_data gdf = drop_columns ["geometry"] df /\
    length (rows (gdf_data gdf)) = length results /\
    gdf_geometry gdf = map geometry_of results /\
    (forall i result e,
        nth_error results i = Some result -> shapely_object result = Raise e ->
        nth_error (gdf_geometry gdf) i = Some None /\
        In (PrintExn e) (concat (map printed_of results))) /\
    (forall i result g,
        nth_error results i = Some result -> shapely_object result = Ok g ->
        nth_error (gdf_geometry gdf) i = Some (Some g)) /\
    (forall i result,
        nth_error results i = Some result ->
        (forall e,
            dig (JDict result) geometry_path = Raise e ->
            nth_error (gdf_geometry gdf) i = Some None /\
            In (PrintExn e) (concat (map printed_of results))) /\
        (forall geo e,
            dig (JDict result) geometry_path = Ok geo -> keys geo = Raise e ->
            nth_error (gdf_geometry gdf) i = Some None /\
            In (PrintExn e) (concat (map printed_of results))) /\
        (forall geo,
            dig (JDict result) geometry_path = Ok (JDict geo) ->
            dict_get "BoundingRectangles" geo = None ->
            dict_get "GPolygons" geo = None ->
            nth_error (gdf_geometry gdf) i = Some None /\
            In (PrintExn (ValueError "Provided result does not contain bounding boxes/polygons or is incompatible."))
               (concat (map printed_of results))) /\
        (forall geo br others west south east north,
            dig (JDict result) geometry_path = Ok (JDict geo) ->
            dict_get "BoundingRectangles" geo = Some (JList (JDict br :: others)) ->
            dict_get "WestBoundingCoordinate" br = Some (JNum west) ->
            dict_get "SouthBoundingCoordinate" br = Some (JNum south) ->
            dict_get "EastBoundingCoordinate" br = Some (JNum east) ->
            dict_get "NorthBoundingCoordinate" br = Some (JNum north) ->
            ~ (west == east)%Q ->
            nth_error (gdf_geometry gdf) i = Some (Some (box west south east north)))).
Proof.
  intros Htab.
  exists (mkGDF (drop_columns ["geometry"] df) (map geometry_of results)).
  pose proof (tabulate_rows _ _ _ Htab) as Hlen.
  assert (Hraise : forall i result e,
             nth_error results i = Some result -> shapely_object result = Raise e ->
             nth_error (map geometry_of results) i = Some None /\
             In (PrintExn e) (concat (map printed_of results))).
  { intros i result e Hi He. split.
    - rewrite nth_error_map, Hi. simpl. unfold geometry_of. now rewrite He.
    - apply in_concat. exists (printed_of result). split.
      + apply in_map. eapply nth_error_In, Hi.
      + unfold printed_of. rewrite He. now left. }
  assert (Hok : forall i result g,
             nth_error results i = Some result -> shapely_object result = Ok g ->
             nth_error (map geometry_of results) i = Some (Some g)).
  { intros i result g Hi Hg.
    rewrite nth_error_map, Hi. simpl. unfold geometry_of. now rewrite Hg. }
  split; [now apply to_geopandas_run|].
  split; [reflexivity|]. split.
  { cbn [gdf_data drop_columns rows]. now rewrite length_map. }
  split; [reflexivity|]. cbn [gdf_geometry].
  split; [exact Hraise|]. split; [exact Hok|].
  intros i result Hi. split; [|split; [|split]].
  - intros e He. apply (Hraise i result e Hi). now apply shapely_object_no_path.
  - intros geo e Hd Hk. apply (Hraise i result e Hi).
    now apply (shapely_object_no_keys result geo).
  - intros geo Hd Hb Hg. apply (Hraise i result _ Hi).
    now apply (shapely_object_neither result geo).
  - intros geo br others west south east north Hd Hbr Hw Hs He Hn Hne.
    apply (Hok i result _ Hi).
    now apply (shapely_object_box result geo br others).
Qed.

(** C1 (as stated) fails: the spatial metadata of [granule_without_urls]
    cannot be read, and with this record in the list no table is built.
    The record has no related urls either, and the filter of line 122
    raises on it before any geometry is computed. *)
Lemma to_geopandas_aborts_before_geometries :
  shapely_object granule_without_urls = Raise (KeyError "umm") /\
  shapely_object (sample_granule "A" 10) = Ok (box (-10) (-5) 20 15) /\
  to_geopandas [sample_granule "A" 10; granule_without_urls] [] fresh_widget
  = (fresh_widget, Raise TypeError).
Proof. repeat split; vm_compute; reflexivity. Qed.

(** ** Sums of floats *)

Lemma pairwise_sum_eq (fuel : nat) (a : list f64) :
  pairwise_sum fuel a
  = if (length a <? 8)%nat then fold_left f64_add a f64_zero
    else if (length a <=? 128)%nat then block_sum a
    else
      match fuel with
      | O => block_sum a
      | S fuel' =>
          let n2 := (length a / 2 - (length a / 2) mod 8)%nat in
          f64_add (pairwise_sum fuel' (firstn n2 a)) (pairwise_sum fuel' (skipn n2 a))
      end.
Proof. destruct fuel; reflexivity. Qed.

(** The length of the list is fuel enough for [pairwise_sum]: more fuel
    changes nothing. *)
Lemma pairwise_sum_fuel (fuel : nat) (a : list f64) :
  (length a <= fuel)%nat -> pairwise_sum fuel a = pairwise_sum (length a) a.
Proof.
  revert a. induction fuel as [fuel IH] using lt_wf_ind. intros a Hle.
  rewrite (pairwise_sum_eq fuel), (pairwise_sum_eq (length a)).
  destruct (Nat.ltb_spec (length a) 8) as [|H8]; [reflexivity|].
  destruct (Nat.leb_spec (length a) 128) as [|H128]; [reflexivity|].
  destruct fuel as [|f]; [lia|].
  destruct (length a) as [|n] eqn:En; [lia|]. cbv zeta.
  set (n2 := (S n / 2 - (S n / 2) mod 8)%nat).
  assert (Hdiv : (64 <= S n / 2 <= n)%nat).
  { split; [apply (Nat.div_le_lower_bound (S n) 2 64); lia|].
    apply Nat.Div0.div_le_upper_bound; lia. }
  assert (Hmod : ((S n / 2) mod 8 < 8)%nat) by (apply Nat.mod_upper_bound; lia).
  assert (Hn2 : (1 <= n2 <= n)%nat) by (unfold n2; lia).
  assert (H1 : length (firstn n2 a) = n2) by (rewrite length_firstn; lia).
  assert (H2 : length (skipn n2 a) = (S n - n2)%nat) by (rewrite length_skipn; lia).
  rewrite (IH f (Nat.lt_succ_diag_r f) (firstn n2 a)) by lia.
  rewrite (IH f (Nat.lt_succ_diag_r f) (skipn n2 a)) by lia.
  assert (Hn : (n < S f)%nat) by lia.
  rewrite (IH n Hn (firstn n2 a)) by lia.
  rewrite (IH n Hn (skipn n2 a)) by lia.
  reflexivity.
Qed.

(** ** Winding of drawn polygons *)



Lemma last_of_rev {A : Type} (r m : list A) (q0 d : A) :
  rev r = q0 :: m -> List.last r d = q0.
Proof.
  intros H. rewrite <- (rev_involutive r), H. simpl. apply last_last.
Qed.


Lemma pt_eqb_refl (p : point) : pt_eqb p p = true.
Proof.
  unfold pt_eqb. apply andb_true_iff. split; apply Qeq_bool_iff; reflexivity.
Qed.

Lemma pt_eqb_sym (p q : point) : pt_eqb p q = true -> pt_eqb q p = true.
Proof.
  unfold pt_eqb. rewrite !andb_true_iff, !Qeq_bool_iff.
  intros [H1 H2]. split; symmetry; assumption.
Qed.


Lemma closed_ring_rev (r : list point) : closed_ring r -> closed_ring (rev r).
Proof.
  intros [Hlen Hc]. split; [now rewrite length_rev|].
  destruct r as [|p0 r]; [contradiction|].
  destruct (rev (p0 :: r)) as [|q0 m] eqn:E.
  - apply (f_equal (@length point)) in E. rewrite length_rev in E. discriminate.
  - rewrite (last_of_rev _ _ _ p0 E) in Hc.
    rewrite <- E. cbn [rev]. rewrite (last_of_rev (rev r ++ [p0]) (rev (rev r)) p0 q0) by (rewrite rev_app_distr; reflexivity). now apply pt_eqb_sym.
Qed.

Lemma close_ring_closed (r : list point) : closed_ring r -> close_ring r = Ok r.
Proof.
  intros [Hlen Hc]. destruct r as [|p0 r]; [contradiction|].
  unfold close_ring. rewrite Hc.
  destruct (Nat.eqb_spec (length (p0 :: r)) 3) as [E|_]; [lia|].
  cbn [negb]. rewrite Nat.add_0_r.
  destruct (Nat.ltb_spec (length (p0 :: r)) 4); [lia|reflexivity].
Qed.

Lemma close_ring_three (pts : list point) :
  (3 <= length pts)%nat -> exists r, close_ring pts = Ok r /\ closed_ring r.
Proof.
  intros Hlen. destruct pts as [|p0 pts]; [simpl in Hlen; lia|].
  unfold close_ring.
  assert (Hclosed : closed_ring ((p0 :: pts) ++ [p0])).
  { split; [rewrite length_app; simpl in *; lia|].
    change (pt_eqb p0 (List.last ((p0 :: pts) ++ [p0]) p0) = true).
    rewrite List.last_last. apply pt_eqb_refl. }
  destruct (Nat.eqb_spec (length (p0 :: pts)) 3) as [E|E].
  - rewrite E. simpl. eauto.
  - destruct (pt_eqb p0 (List.last (p0 :: pts) p0)) eqn:Hc; cbn [negb].
    + rewrite Nat.add_0_r.
      destruct (Nat.ltb_spec (length (p0 :: pts)) 4); [lia|].
      eexists. split; [reflexivity|]. split; [lia|exact Hc].
    + destruct (Nat.ltb_spec (length (p0 :: pts) + 1) 4); [lia|]. eauto.
Qed.

Lemma Polygon_ring_json (pts : list point) :
  Polygon (ring_json pts) = Polygon_of_points pts.
Proof.
  unfold Polygon, ring_json. cbn [iter obind].
  assert (H : omap point_of_json
                (map (fun p => JList [JNum (fst p); JNum (snd p)]) pts) = Ok pts).
  { induction pts as [|[x y] pts IH]; [reflexivity|].
    cbn [map omap]. rewrite IH. reflexivity. }
  now rewrite H.
Qed.


Lemma close_ring_cases (pts ring : list point) :
  close_ring pts = Ok ring ->
  ring = pts \/ exists p0 rest, pts = p0 :: rest /\ ring = pts ++ [p0].
Proof.
  unfold close_ring. destruct pts as [|p0 rest]; [intros [= <-]; now left|].
  cbv zeta.
  match goal with |- context [if ?b then 1%nat else 0%nat] => destruct b end;
    match goal with |- context [(?n <? 4)%nat] => destruct (n <? 4)%nat end;
    intros H; try discriminate; injection H as <-; [right; eauto|now left].
Qed.

Lemma close_ring_prefix (pts ring : list point) :
  close_ring pts = Ok ring ->
  firstn (length pts) ring = pts /\ (length ring <= S (length pts))%nat.
Proof.
  intros H. destruct (close_ring_cases _ _ H) as [->|[p0 [rest [-> ->]]]].
  - split; [apply firstn_all|lia].
  - split.
    + rewrite firstn_app, Nat.sub_diag, firstn_all. cbn [firstn]. now rewrite app_nil_r.
    + rewrite length_app. simpl. lia.
Qed.

Lemma cga_signed_area_Ok (r : list point) :
  (2 <= length r)%nat -> exists a, cga_signed_area r = Ok a.
Proof.
  destruct r as [|c0 [|c1 rest]]; intros H; try (simpl in H; lia).
  eexists. reflexivity.
Qed.

(** [orient] on a polygon with a closed exterior. *)
Lemma orient_closed (r : list point) (a : f64) :
  closed_ring r -> cga_signed_area r = Ok a ->
  orient (Polygon_ r) = Ok (Polygon_ (if keeps_winding a then r else rev r)).
Proof.
  intros Hc Ha. unfold orient. cbn [exterior_coords]. rewrite Ha. cbn [obind].
  destruct (keeps_winding a); [reflexivity|].
  unfold Polygon_of_points. now rewrite (close_ring_closed _ (closed_ring_rev r Hc)).
Qed.

Lemma orient_polygon_closed (r : list point) (a : f64) :
  closed_ring r -> cga_signed_area r = Ok a ->
  _orient_polygon (ring_json r) = Ok (if keeps_winding a then r else rev r).
Proof.
  intros Hc Ha. unfold _orient_polygon. rewrite Polygon_ring_json.
  unfold Polygon_of_points. rewrite (close_ring_closed _ Hc). cbn [obind].
  rewrite (orient_closed _ _ Hc Ha). reflexivity.
Qed.

Lemma closed_ring_two (r : list point) : closed_ring r -> (2 <= length r)%nat.
Proof. intros [H _]. lia. Qed.

Lemma orient_polygon_ring (pts : list point) :
  (3 <= length pts)%nat ->
  exists ring a,
    _orient_polygon (ring_json pts) = Ok ring /\ closed_ring ring /\
    cga_signed_area ring = Ok a /\
    _orient_polygon (ring_json ring) = Ok (if keeps_winding a then ring else rev ring).
Proof.
  intros Hlen.
  destruct (close_ring_three pts Hlen) as [r [Hr Hc]].
  destruct (cga_signed_area_Ok r (closed_ring_two r Hc)) as [a0 Ha0].
  assert (Hco : closed_ring (if keeps_winding a0 then r else rev r)).
  { destruct (keeps_winding a0); [exact Hc|now apply closed_ring_rev]. }
  destruct (cga_signed_area_Ok _ (closed_ring_two _ Hco)) as [a Ha].
  exists (if keeps_winding a0 then r else rev r), a.
  split; [|split; [exact Hco|split; [exact Ha|now apply orient_polygon_closed]]].
  unfold _orient_polygon. rewrite Polygon_ring_json. unfold Polygon_of_points.
  rewrite Hr. cbn [obind]. rewrite (orient_closed _ _ Hc Ha0). reflexivity.
Qed.



(** ** Drawing on the map *)

Lemma bind_run {A B : Type} (m : M A) (k : A -> M B) (w w1 : SearchWidget) (a : A) :
  m w = (w1, Ok a) -> bind m k w = k a w1.
Proof. intros H. unfold bind. now rewrite H. Qed.

Lemma bind_raise {A B : Type} (m : M A) (k : A -> M B) (w w1 : SearchWidget) (e : exn) :
  m w = (w1, Raise e) -> bind m k w = (w1, Raise e).
Proof. intros H. unfold bind. now rewrite H. Qed.

Lemma with_layers_same (w : SearchWidget) : with_layers w (m_layers w) = w.
Proof. now destruct w. Qed.

Lemma without_nil (layers : list layer) : without [] layers = layers.
Proof.
  unfold without. induction layers as [|l layers IH]; simpl in *; [reflexivity|].
  now rewrite IH.
Qed.

Lemma without_cons (i : nat) (ids : list nat) (layers : list layer) :
  without ids (List.filter (fun l' => negb (Nat.eqb (model_id l') i)) layers)
  = without (i :: ids) layers.
Proof.
  unfold without. induction layers as [|l layers IH]; simpl in *; [reflexivity|].
  destruct (Nat.eqb (model_id l) i); simpl in *; [exact IH|].
  destruct (existsb (Nat.eqb (model_id l)) ids); simpl in *; now rewrite IH.
Qed.

Lemma without_app (ids ids' : list nat) (layers : list layer) :
  without ids' (without ids layers) = without (ids ++ ids') layers.
Proof.
  unfold without. induction layers as [|l layers IH]; simpl in *; [reflexivity|].
  rewrite existsb_app.
  destruct (existsb (Nat.eqb (model_id l)) ids); simpl in *; [exact IH|].
  destruct (existsb (Nat.eqb (model_id l)) ids'); simpl in *; now rewrite IH.
Qed.

Lemma on_map_In (l : layer) (layers : list layer) :
  on_map l layers = true <-> exists l', In l' layers /\ model_id l' = model_id l.
Proof.
  unfold on_map. rewrite existsb_exists. split; intros [l' [Hin H]]; exists l'.
  - split; [assumption|now apply Nat.eqb_eq].
  - split; [assumption|now apply Nat.eqb_eq].
Qed.

Lemma existsb_eqb_In (i : nat) (ids : list nat) :
  existsb (Nat.eqb i) ids = true <-> In i ids.
Proof.
  rewrite existsb_exists. split.
  - intros [j [Hj E]]. apply Nat.eqb_eq in E. now subst.
  - intros H. exists i. split; [assumption|apply Nat.eqb_refl].
Qed.

Lemma on_map_without (l : layer) (ids : list nat) (layers : list layer) :
  on_map l layers = true -> ~ In (model_id l) ids ->
  on_map l (without ids layers) = true.
Proof.
  rewrite !on_map_In. intros [l' [Hin E]] Hout. exists l'. split; [|assumption].
  apply filter_In. split; [assumption|]. apply negb_true_iff.
  destruct (existsb (Nat.eqb (model_id l')) ids) eqn:X; [|reflexivity].
  apply existsb_eqb_In in X. rewrite E in X. contradiction.
Qed.

Lemma on_map_fresh (n : nat) (d : layer_data) (layers : list layer) :
  (forall l, In l layers -> (model_id l < n)%nat) ->
  on_map (mkLayer n d) layers = false.
Proof.
  intros H. destruct (on_map (mkLayer n d) layers) eqn:E; [|reflexivity].
  apply on_map_In in E as [l' [Hin E]]. apply H in Hin. simpl in E. lia.
Qed.

Lemma for_each_remove (ls : list layer) (w : SearchWidget) :
  List.NoDup (map model_id ls) ->
  (forall l, In l ls -> on_map l (m_layers w) = true) ->
  for_each remove_layer ls w
  = (with_layers w (without (map model_id ls) (m_layers w)), Ok tt).
Proof.
  revert w. induction ls as [|l ls IH]; intros w Hnd Hon.
  - simpl. unfold ret. now rewrite without_nil, with_layers_same.
  - cbn [for_each map]. inversion Hnd as [|i ids Hnotin Hnd']; subst.
    assert (Hl : remove_layer l w
                 = (with_layers w (List.filter
                      (fun l' => negb (Nat.eqb (model_id l') (model_id l))) (m_layers w)),
                    Ok tt)).
    { unfold remove_layer. rewrite (Hon l) by now left. reflexivity. }
    rewrite (bind_run _ _ _ _ _ Hl). rewrite IH; [|assumption|].
    + cbn [with_layers m_layers current_geometry active_layers roi search_params
           next_model_id stdout]. now rewrite without_cons.
    + intros l' Hin. cbn [with_layers m_layers].
      change (List.filter (fun l'0 => negb (Nat.eqb (model_id l'0) (model_id l))) (m_layers w))
        with (List.filter (fun l'0 => negb (existsb (Nat.eqb (model_id l'0)) [])
                                     && negb (Nat.eqb (model_id l'0) (model_id l)))
                          (m_layers w)).
      apply on_map_In. specialize (Hon l' (or_intror Hin)).
      apply on_map_In in Hon as [l'' [Hin'' E]]. exists l''. split; [|assumption].
      apply filter_In. split; [assumption|]. simpl. apply negb_true_iff.
      apply Nat.eqb_neq. rewrite E. intros Heq. apply Hnotin. rewrite <- Heq.
      now apply in_map.
Qed.

Lemma filter_one_without (i : nat) (layers : list layer) :
  List.filter (fun l' => negb (Nat.eqb (model_id l') i)) layers = without [i] layers.
Proof.
  unfold without. apply filter_ext. intros l. simpl. now rewrite orb_false_r.
Qed.

Lemma without_subset (ids : list nat) (layers : list layer) (l : layer) :
  In l (without ids layers) -> In l layers.
Proof. unfold without. intros H. now apply filter_In in H. Qed.

(** [_extract_geometry_info] only touches the search parameters and the
    output. *)
Lemma extract_geometry_info_fields (geometry : json) (w : SearchWidget) :
  let w' := fst (_extract_geometry_info geometry w) in
  current_geometry w' = current_geometry w /\
  active_layers w' = active_layers w /\
  roi w' = roi w /\
  m_layers w' = m_layers w /\
  next_model_id w' = next_model_id w.
Proof.
  unfold _extract_geometry_info, bind, lift, set_search_param, print, ret.
  destruct (getitem geometry "type") as [ty|e]; [|simpl; auto].
  destruct (getitem geometry "coordinates") as [c|e]; [|simpl; auto].
  destruct (py_in ty ["Polygon"]).
  - destruct (getitem0 c) as [c0|e]; [|simpl; auto].
    destruct (_orient_polygon c0) as [coords|e]; simpl; auto.
  - destruct (py_in ty ["Point"]); [simpl; auto|].
    destruct (py_in ty ["LineString"]); simpl; auto.
Qed.

Lemma getitem_dict (v x : json) (k : string) : getitem v k = Ok x -> is_dict v = true.
Proof. destruct v; try discriminate. reflexivity. Qed.

(** The overlay of a draw event is built when the event data is a dict. *)
Lemma new_roi_layer (w : SearchWidget) (geo_json : json) :
  is_dict geo_json = true ->
  new_layer (GeoJSON "ROI" geo_json "red") w
  = (mkWidget (current_geometry w) (active_layers w) (roi w) (search_params w)
       (m_layers w) (S (next_model_id w)) (stdout w),
     Ok (roi_layer w geo_json)).
Proof. intros H. unfold new_layer, init_error. now rewrite H. Qed.

(** A draw event on a widget in a consistent state, up to the outcome of
    [_extract_geometry_info]. *)
Lemma handle_draw_run (w w2 : SearchWidget) (target action geo_json geometry : json)
    (r : option param) :
  wf w ->
  getitem geo_json "geometry" = Ok geometry ->
  _extract_geometry_info geometry (cleared w geo_json) = (w2, Ok r) ->
  _handle_draw target action geo_json w = (shown w2 r (roi_layer w geo_json), Ok tt).
Proof.
  intros [Hon Hnd Hcur Hfresh] Hgeo Hex. unfold _handle_draw.
  rewrite (bind_run _ _ w w (active_layers w)) by reflexivity.
  rewrite (bind_run _ _ _ _ _ (for_each_remove _ w Hnd Hon)).
  set (w1 := mkWidget (current_geometry w) [] (roi w) (search_params w)
               (without (map model_id (active_layers w)) (m_layers w))
               (next_model_id w) (stdout w)).
  rewrite (bind_run _ _ _ w1 tt) by reflexivity.
  rewrite (bind_run _ _ w1 w1 (current_geometry w)) by reflexivity.
  set (w1' := with_layers w1 (without (remembered w) (m_layers w))).
  assert (Hrem : match current_geometry w with
                 | Some l => remove_layer l
                 | None => ret tt
                 end w1 = (w1', Ok tt)).
  { unfold w1', remembered. destruct (current_geometry w) as [l|] eqn:Ec.
    - destruct (Hcur l eq_refl) as [Hl Hnot].
      unfold remove_layer. cbn [m_layers w1].
      rewrite (on_map_without _ _ _ Hl Hnot).
      rewrite filter_one_without, without_app. reflexivity.
    - unfold ret. rewrite app_nil_r. reflexivity. }
  rewrite (bind_run _ _ _ _ _ Hrem).
  rewrite (bind_run _ _ w1'
             (mkWidget (current_geometry w) [] (roi w) (search_params w)
                (without (remembered w) (m_layers w)) (S (next_model_id w)) (stdout w))
             (roi_layer w geo_json))
    by exact (new_roi_layer w1' geo_json (getitem_dict _ _ _ Hgeo)).
  rewrite (bind_run _ _ _ (cleared w geo_json) tt) by reflexivity.
  rewrite (bind_run _ _ (cleared w geo_json) (cleared w geo_json) geometry)
    by (unfold lift; now rewrite Hgeo).
  rewrite (bind_run _ _ _ _ _ Hex).
  pose proof (extract_geometry_info_fields geometry (cleared w geo_json)) as Hf.
  rewrite Hex in Hf. cbn [fst] in Hf. destruct Hf as [F1 [F2 [F3 [F4 F5]]]].
  set (w3 := mkWidget (current_geometry w2) (active_layers w2) r (search_params w2)
               (m_layers w2) (next_model_id w2) (stdout w2)).
  rewrite (bind_run _ _ w2 w3 tt) by reflexivity.
  unfold add_layer. cbn [m_layers w3]. rewrite F4. cbn [m_layers cleared].
  unfold roi_layer at 1. rewrite on_map_fresh.
  - unfold shown, w3. cbn. now rewrite F4.
  - intros l Hl. apply Hfresh. eapply without_subset, Hl.
Qed.

Lemma on_map_last (g : layer) (layers : list layer) : on_map g (layers ++ [g]) = true.
Proof.
  apply on_map_In. exists g. split; [|reflexivity]. apply in_or_app. right. now left.
Qed.

(** The state after a draw event is consistent again. *)
Lemma shown_wf (w w2 : SearchWidget) (geo_json geometry : json) (r : option param) :
  wf w ->
  fst (_extract_geometry_info geometry (cleared w geo_json)) = w2 ->
  wf (shown w2 r (roi_layer w geo_json)).
Proof.
  intros [Hon Hnd Hcur Hfresh] Hw2.
  pose proof (extract_geometry_info_fields geometry (cleared w geo_json)) as Hf.
  rewrite Hw2 in Hf. cbn [fst] in Hf. destruct Hf as [F1 [F2 [F3 [F4 F5]]]].
  split; unfold shown; cbn [active_layers current_geometry m_layers next_model_id].
  - rewrite F2. intros l [].
  - rewrite F2. constructor.
  - rewrite F1, F2, F4. intros l [= <-]. split; [apply on_map_last|intros []].
  - rewrite F4, F5. cbn [cleared m_layers next_model_id]. intros l Hl.
    apply in_app_or in Hl as [Hl|[<-|[]]].
    + apply without_subset, Hfresh in Hl. lia.
    + simpl. lia.
Qed.

(** *** What a draw event leaves alone *)

Lemma preserves_bind {A B : Type} (R : SearchWidget -> SearchWidget -> Prop)
    (m : M A) (k : A -> M B) :
  (forall x y z, R x y -> R y z -> R x z) ->
  preserves R m -> (forall a, preserves R (k a)) -> preserves R (bind m k).
Proof.
  intros Htrans Hm Hk w. unfold bind. specialize (Hm w).
  destruct (m w) as [w1 [a|e]]; cbn [fst] in *.
  - eapply Htrans; [exact Hm|apply Hk].
  - exact Hm.
Qed.

Lemma preserves_for_each {A : Type} (R : SearchWidget -> SearchWidget -> Prop)
    (body : A -> M unit) (l : list A) :
  (forall x, R x x) -> (forall x y z, R x y -> R y z -> R x z) ->
  (forall a, preserves R (body a)) -> preserves R (for_each body l).
Proof.
  intros Hrefl Htrans Hbody. induction l as [|a l IH]; simpl.
  - intros w. apply Hrefl.
  - apply preserves_bind; auto.
Qed.

Lemma same_param_trans (k : string) (x y z : SearchWidget) :
  same_param k x y -> same_param k y z -> same_param k x z.
Proof. unfold same_param. congruence. Qed.

Lemma same_param_set (k k' : string) (v : param) :
  k' <> k -> preserves (same_param k) (set_search_param k' v).
Proof.
  intros Hne w. unfold same_param, set_search_param. cbn.
  now apply lookup_insert_ne.
Qed.

Lemma param_key_polygon (ty : json) :
  py_in ty ["Polygon"] = true -> param_key ty = Some "polygon".
Proof. intros H. unfold param_key. now rewrite H. Qed.

Lemma param_key_point (ty : json) :
  py_in ty ["Polygon"] = false -> py_in ty ["Point"] = true ->
  param_key ty = Some "point".
Proof. intros H1 H2. unfold param_key. now rewrite H1, H2. Qed.

Lemma param_key_line (ty : json) :
  py_in ty ["Polygon"] = false -> py_in ty ["Point"] = false ->
  py_in ty ["LineString"] = true -> param_key ty = Some "line".
Proof. intros H1 H2 H3. unfold param_key. now rewrite H1, H2, H3. Qed.

Lemma preserves_lift_bind {A B : Type} (R : SearchWidget -> SearchWidget -> Prop)
    (o : outcome A) (k : A -> M B) :
  (forall x, R x x) ->
  (forall a, o = Ok a -> preserves R (k a)) -> preserves R (bind (lift o) k).
Proof.
  intros Hrefl Hk w. unfold bind, lift. destruct o as [a|e].
  - now apply Hk.
  - apply Hrefl.
Qed.

Lemma same_param_refl (k : string) (w : SearchWidget) : same_param k w w.
Proof. reflexivity. Qed.

Lemma same_param_set_ret {A : Type} (k k' : string) (v : param) (a : A) :
  k' <> k -> preserves (same_param k) (set_search_param k' v ;; ret a).
Proof.
  intros Hne. apply preserves_bind; [apply same_param_trans| |intros ? ?; reflexivity].
  now apply same_param_set.
Qed.

Lemma extract_geometry_info_frame (geometry ty : json) (k : string) :
  getitem geometry "type" = Ok ty -> param_key ty <> Some k ->
  preserves (same_param k) (_extract_geometry_info geometry).
Proof.
  intros Hty Hk. unfold _extract_geometry_info.
  apply preserves_lift_bind; [apply same_param_refl|intros ty' Hty'].
  assert (ty' = ty) as -> by congruence.
  apply preserves_lift_bind; [apply same_param_refl|intros c _].
  destruct (py_in ty ["Polygon"]) eqn:E1.
  { apply preserves_lift_bind; [apply same_param_refl|intros c0 _].
    apply preserves_lift_bind; [apply same_param_refl|intros coords _].
    apply same_param_set_ret. intros <-. apply Hk. now apply param_key_polygon. }
  destruct (py_in ty ["Point"]) eqn:E2.
  { apply same_param_set_ret. intros <-. apply Hk. now apply param_key_point. }
  destruct (py_in ty ["LineString"]) eqn:E3.
  { apply same_param_set_ret. intros <-. apply Hk. now apply param_key_line. }
  apply preserves_bind; [apply same_param_trans|intros ?; reflexivity|intros ? ?; reflexivity].
Qed.

Lemma remove_layer_frame (k : string) (l : layer) :
  preserves (same_param k) (remove_layer l).
Proof.
  intros w. unfold same_param, remove_layer.
  destruct (on_map l (m_layers w)); reflexivity.
Qed.

Lemma add_layer_frame (k : string) (l : layer) :
  preserves (same_param k) (add_layer l).
Proof.
  intros w. unfold same_param, add_layer.
  destruct (on_map l (m_layers w)); reflexivity.
Qed.

Lemma new_layer_frame (k : string) (d : layer_data) :
  preserves (same_param k) (new_layer d).
Proof.
  intros w. unfold same_param, new_layer. destruct (init_error d); reflexivity.
Qed.

(** A draw event leaves every search parameter but the one of the drawn
    kind as it was, whether it returns or raises. *)
Lemma handle_draw_frame (target action geo_json geometry ty : json) (k : string) :
  getitem geo_json "geometry" = Ok geometry ->
  getitem geometry "type" = Ok ty ->
  param_key ty <> Some k ->
  preserves (same_param k) (_handle_draw target action geo_json).
Proof.
  intros Hgeo Hty Hk. unfold _handle_draw.
  apply preserves_bind; [apply same_param_trans|intros ?; reflexivity|intros ls].
  apply preserves_bind; [apply same_param_trans| |intros _].
  { apply preserves_for_each;
      [apply same_param_refl|apply same_param_trans|apply remove_layer_frame]. }
  apply preserves_bind; [apply same_param_trans|intros ?; reflexivity|intros _].
  apply preserves_bind; [apply same_param_trans|intros ?; reflexivity|intros cur].
  apply preserves_bind; [apply same_param_trans| |intros _].
  { destruct cur; [apply remove_layer_frame|intros ?; reflexivity]. }
  apply preserves_bind; [apply same_param_trans|apply new_layer_frame|intros g].
  apply preserves_bind; [apply same_param_trans|intros ?; reflexivity|intros _].
  apply preserves_lift_bind; [apply same_param_refl|intros geometry' Hg'].
  assert (geometry' = geometry) as -> by congruence.
  apply preserves_bind; [apply same_param_trans| |intros r].
  { eapply extract_geometry_info_frame; eassumption. }
  apply preserves_bind; [apply same_param_trans|intros ?; reflexivity|intros _].
  apply add_layer_frame.
Qed.

(** *** What a draw event does *)

Lemma param_key_none (ty : json) :
  param_key ty = None ->
  py_in ty ["Polygon"] = false /\ py_in ty ["Point"] = false /\
  py_in ty ["LineString"] = false.
Proof.
  unfold param_key.
  destruct (py_in ty ["Polygon"]); [discriminate|].
  destruct (py_in ty ["Point"]); [discriminate|].
  destruct (py_in ty ["LineString"]); [discriminate|auto].
Qed.

Lemma extract_unsupported (geometry ty c : json) (w : SearchWidget) :
  getitem geometry "type" = Ok ty ->
  getitem geometry "coordinates" = Ok c ->
  param_key ty = None ->
  _extract_geometry_info geometry w = (printed_more w [PrintUnsupported ty], Ok None).
Proof.
  intros Hty Hc Hk. apply param_key_none in Hk as [H1 [H2 H3]].
  unfold _extract_geometry_info, bind, lift. rewrite Hty, Hc, H1, H2, H3.
  reflexivity.
Qed.

Lemma extract_polygon (geometry c c0 : json) (ring : list point) (w : SearchWidget) :
  getitem geometry "type" = Ok (JStr "Polygon") ->
  getitem geometry "coordinates" = Ok c ->
  getitem0 c = Ok c0 ->
  _orient_polygon c0 = Ok ring ->
  _extract_geometry_info geometry w
  = (fst (set_search_param "polygon" (PRing ring) w), Ok (Some (PRing ring))).
Proof.
  intros Hty Hc Hc0 Hor.
  unfold _extract_geometry_info, bind, lift. rewrite Hty, Hc.
  change (py_in (JStr "Polygon") ["Polygon"]) with true. cbv iota.
  rewrite Hc0, Hor. reflexivity.
Qed.

Lemma extract_point (geometry c : json) (w : SearchWidget) :
  getitem geometry "type" = Ok (JStr "Point") ->
  getitem geometry "coordinates" = Ok c ->
  _extract_geometry_info geometry w
  = (fst (set_search_param "point" (PJson c) w), Ok (Some (PJson c))).
Proof.
  intros Hty Hc.
  unfold _extract_geometry_info, bind, lift. rewrite Hty, Hc. reflexivity.
Qed.

(** C6 (as the code has it): on a widget in a consistent state, a drawn
    shape that carries coordinates and whose kind is other than polygon,
    point or line is reported on the output; the search parameters are left
    as they were, [roi] becomes [None], and the handler returns. *)
Theorem unsupported_geometry_kind
    (w : SearchWidget) (target action geo_json geometry ty c : json) :
  wf w ->
  getitem geo_json "geometry" = Ok geometry ->
  getitem geometry "type" = Ok ty ->
  getitem geometry "coordinates" = Ok c ->
  param_key ty = None ->
  exists w',
    _handle_draw target action geo_json w = (w', Ok tt) /\
    search_params w' = search_params w /\
    roi w' = None /\
    stdout w' = stdout w ++ [PrintUnsupported ty] /\
    wf w'.
Proof.
  intros Hwf Hgeo Hty Hc Hk.
  pose proof (extract_unsupported geometry ty c (cleared w geo_json) Hty Hc Hk) as Hex.
  eexists. split; [exact (handle_draw_run _ _ _ _ _ _ _ Hwf Hgeo Hex)|].
  split; [reflexivity|]. split; [reflexivity|]. split; [reflexivity|].
  eapply shown_wf; [exact Hwf|]. now rewrite Hex.
Qed.

(** C6 (as stated) fails: a geometry collection is none of polygon, point
    and line, and it has no [coordinates]; line 138 reads them before the
    kind is looked at and raises [KeyError].  Nothing is printed, and the
    widget is left with an overlay that never reached the map: on that
    widget a shape of an unsupported kind that does carry coordinates
    raises [LayerException]. *)
Lemma unsupported_kind_without_coordinates :
  param_key (JStr "GeometryCollection") = None /\
  snd (_handle_draw JNull JNull geometry_collection fresh_widget)
  = Raise (KeyError "coordinates") /\
  stdout (fst (_handle_draw JNull JNull geometry_collection fresh_widget)) = [] /\
  param_key (JStr "MultiPoint") = None /\
  snd (_handle_draw JNull JNull (feature "MultiPoint" (JList []))
         (fst (_handle_draw JNull JNull geometry_collection fresh_widget)))
  = Raise LayerException.
Proof. repeat split; vm_compute; reflexivity. Qed.

Lemma handle_draw_polygon (w : SearchWidget) (target action : json)
    (pts ring : list point) :
  wf w -> _orient_polygon (ring_json pts) = Ok ring ->
  exists w',
    _handle_draw target action (feature "Polygon" (JList [ring_json pts])) w = (w', Ok tt) /\
    wf w' /\
    search_params w' = <["polygon" := PRing ring]> (search_params w).
Proof.
  intros Hwf Hor.
  set (geo_json := feature "Polygon" (JList [ring_json pts])).
  assert (Hex : _extract_geometry_info
                  (JDict [("type", JStr "Polygon"); ("coordinates", JList [ring_json pts])])
                  (cleared w geo_json)
                = (fst (set_search_param "polygon" (PRing ring) (cleared w geo_json)),
                   Ok (Some (PRing ring)))).
  { eapply extract_polygon; [reflexivity|reflexivity|reflexivity|exact Hor]. }
  eexists. split; [exact (handle_draw_run w _ target action geo_json _ _ Hwf eq_refl Hex)|].
  split; [|reflexivity].
  eapply shown_wf; [exact Hwf|]. now rewrite Hex.
Qed.

Lemma handle_draw_point (w : SearchWidget) (target action c : json) :
  wf w ->
  exists w',
    _handle_draw target action (feature "Point" c) w = (w', Ok tt) /\
    wf w' /\
    search_params w' = <["point" := PJson c]> (search_params w).
Proof.
  intros Hwf.
  set (geo_json := feature "Point" c).
  assert (Hex : _extract_geometry_info
                  (JDict [("type", JStr "Point"); ("coordinates", c)])
                  (cleared w geo_json)
                = (fst (set_search_param "point" (PJson c) (cleared w geo_json)),
                   Ok (Some (PJson c)))).
  { apply extract_point; reflexivity. }
  eexists. split; [exact (handle_draw_run w _ target action geo_json _ _ Hwf eq_refl Hex)|].
  split; [|reflexivity].
  eapply shown_wf; [exact Hwf|]. now rewrite Hex.
Qed.

(** C9: a draw event changes no search parameter but the one of the drawn
    kind; so after a polygon and then a point are drawn the parameters hold
    the ring of the polygon next to the new point, and every other
    parameter is as it was before the two draws. *)
Theorem draw_updates_only_its_parameter
    (w : SearchWidget) (target action c : json) (pts : list point) :
  wf w -> (3 <= length pts)%nat ->
  (forall (W : SearchWidget) (geo_json geometry ty : json) (k : string),
      getitem geo_json "geometry" = Ok geometry ->
      getitem geometry "type" = Ok ty ->
      param_key ty <> Some k ->
      search_params (fst (_handle_draw target action geo_json W)) !! k
      = search_params W !! k) /\
  exists ring w1 w2,
    _orient_polygon (ring_json pts) = Ok ring /\
    _handle_draw target action (feature "Polygon" (JList [ring_json pts])) w = (w1, Ok tt) /\
    _handle_draw target action (feature "Point" c) w1 = (w2, Ok tt) /\
    search_params w1 !! "polygon" = Some (PRing ring) /\
    search_params w2 !! "polygon" = Some (PRing ring) /\
    search_params w2 !! "point" = Some (PJson c) /\
    (forall k, k <> "polygon" -> k <> "point" ->
               search_params w2 !! k = search_params w !! k).
Proof.
  intros Hwf Hlen. split.
  { intros W geo_json geometry ty k Hgeo Hty Hk.
    exact (handle_draw_frame target action geo_json geometry ty k Hgeo Hty Hk W). }
  destruct (orient_polygon_ring pts Hlen) as [ring [a [Hor _]]].
  destruct (handle_draw_polygon w target action pts ring Hwf Hor) as [w1 [H1 [Hwf1 Hp1]]].
  destruct (handle_draw_point w1 target action c Hwf1) as [w2 [H2 [_ Hp2]]].
  exists ring, w1, w2. repeat split; try assumption.
  - rewrite Hp1. apply lookup_insert_eq.
  - rewrite Hp2, lookup_insert_ne by discriminate. rewrite Hp1. apply lookup_insert_eq.
  - rewrite Hp2. apply lookup_insert_eq.
  - intros k Hk1 Hk2. rewrite Hp2, lookup_insert_ne by congruence.
    rewrite Hp1. now apply lookup_insert_ne.
Qed.

(** ** One layer per dataset *)

Lemma bind_Ok_inv {A B : Type} (m : M A) (k : A -> M B) (w w' : SearchWidget) (b : B) :
  bind m k w = (w', Ok b) ->
  exists w1 a, m w = (w1, Ok a) /\ k a w1 = (w', Ok b).
Proof.
  unfold bind. destruct (m w) as [w1 [a|e]]; intros H; [eauto|discriminate].
Qed.

Lemma add_dataset_layer_Ok (i : nat) (gdf : GeoDataFrame) (pc : cell * string)
    (w w1 : SearchWidget) :
  add_dataset_layer i gdf pc w = (w1, Ok tt) ->
  exists g,
    layer_for i gdf pc g /\
    m_layers w1 = m_layers w ++ [g] /\
    active_layers w1 = active_layers w ++ [g] /\
    search_params w1 = search_params w /\
    stdout w1 = stdout w.
Proof.
  unfold add_dataset_layer, bind, lift, new_layer, get, set_active_layers, add_layer.
  destruct (total_size gdf (rows_of i (fst pc) gdf)) as [total|e] eqn:Et; [|discriminate].
  match goal with |- context [init_error ?d] => destruct (init_error d) end;
    [discriminate|].
  cbn [m_layers]. match goal with |- context [on_map ?l ?ls] => destruct (on_map l ls) end;
    [discriminate|].
  intros [= <-]. eexists. split; [|cbn; auto].
  exists total. split; [exact Et|reflexivity].
Qed.


Lemma explore_loop (i : nat) (gdf : GeoDataFrame) (pcs : list (cell * string))
    (w w' : SearchWidget) :
  for_each (add_dataset_layer i gdf) pcs w = (w', Ok tt) ->
  exists new,
    Forall2 (layer_for i gdf) pcs new /\
    m_layers w' = m_layers w ++ new /\
    active_layers w' = active_layers w ++ new /\
    search_params w' = search_params w /\
    stdout w' = stdout w.
Proof.
  revert w. induction pcs as [|pc pcs IH]; intros w H.
  - injection H as <-. exists []. rewrite !app_nil_r. auto using Forall2_nil.
  - cbn [for_each] in H. apply bind_Ok_inv in H as [w1 [[] [H1 H2]]].
    apply add_dataset_layer_Ok in H1 as [g [Hg [Hm [Ha [Hs Ho]]]]].
    apply IH in H2 as [new [Hnew [Hm' [Ha' [Hs' Ho']]]]].
    exists (g :: new). rewrite Hm', Ha', Hs', Ho', Hm, Ha, <- !app_assoc.
    split; [now constructor|auto].
Qed.

Lemma dataset_layers_of_new (i : nat) (gdf : GeoDataFrame) (pcs : list (cell * string))
    (new : list layer) :
  Forall2 (layer_for i gdf) pcs new ->
  map (fun nc => (name_dataset (fst nc), snd nc)) (dataset_layers new) = pcs /\
  length new = length pcs.
Proof.
  induction 1 as [|pc g pcs new [total [_ Hg]] _ [IH1 IH2]]; [split; reflexivity|].
  cbn [dataset_layers]. rewrite Hg. cbn [map name_dataset fst snd length].
  rewrite IH1, IH2. split; [|reflexivity]. now destruct pc.
Qed.

Lemma combine_fst {A B : Type} (l : list A) (l' : list B) :
  map fst (combine l l') = firstn (length l') l.
Proof.
  revert l'. induction l as [|a l IH]; intros [|b l']; simpl; try reflexivity.
  now rewrite IH.
Qed.

Lemma combine_snd {A B : Type} (l : list A) (l' : list B) :
  map snd (combine l l') = firstn (length l) l'.
Proof.
  revert l'. induction l as [|a l IH]; intros [|b l']; simpl; try reflexivity.
  now rewrite IH.
Qed.

Lemma NoDup_prefix {A : Type} (n : nat) (l : list A) :
  List.NoDup l -> List.NoDup (firstn n l).
Proof.
  intros H. rewrite <- (firstn_skipn n l) in H. eapply List.NoDup_app_remove_r, H.
Qed.

Lemma tab10_distinct : List.NoDup tab10.
Proof.
  unfold tab10.
  repeat (constructor; [simpl; intuition discriminate|]). constructor.
Qed.

(** *** [unique] *)

Lemma same_key_refl (c : cell) : hashable c = true -> same_key c c = true.
Proof.
  destruct c as [|[| b | q | s | l | d]]; simpl; intros H; try reflexivity;
    try discriminate.
  - now destruct b.
  - apply Qeq_bool_iff. reflexivity.
  - apply String.eqb_refl.
Qed.

Lemma unique_from_spec (cs seen ids : list cell) :
  unique_from seen cs = Ok ids ->
  List.NoDup seen -> Forall (fun c => hashable c = true) seen ->
  List.NoDup ids /\
  (forall p, In p seen -> In p ids) /\
  (forall p, In p ids -> In p seen \/ In p cs) /\
  (forall c, In c cs -> exists p, In p ids /\ same_key c p = true).
Proof.
  revert seen. induction cs as [|c cs IH]; intros seen H Hnd Hh.
  - injection H as <-. repeat split; auto. intros c [].
  - cbn [unique_from] in H. destruct (hashable c) eqn:Ec; [|discriminate].
    destruct (existsb (same_key c) seen) eqn:Ex.
    + destruct (IH seen H Hnd Hh) as [I1 [I2 [I3 I4]]].
      split; [exact I1|]. split; [exact I2|]. split.
      * intros p Hp. destruct (I3 p Hp); [now left|right; now right].
      * intros c' [<-|Hc']; [|now apply I4].
        apply existsb_exists in Ex as [p [Hp Hk]]. exists p. split; [now apply I2|exact Hk].
    + assert (Hnot : ~ In c seen).
      { intros Hin. assert (existsb (same_key c) seen = true) as X; [|congruence].
        apply existsb_exists. exists c. split; [exact Hin|now apply same_key_refl]. }
      destruct (IH (seen ++ [c]) H) as [I1 [I2 [I3 I4]]].
      * apply List.NoDup_app; [exact Hnd|repeat constructor; intros []|].
        intros x Hx [<-|[]]. contradiction.
      * apply List.Forall_app. split; [exact Hh|now repeat constructor].
      * split; [exact I1|]. split.
        { intros p Hp. apply I2, in_or_app. now left. }
        split.
        { intros p Hp. destruct (I3 p Hp) as [Hs|Hs]; [|right; now right].
          apply in_app_or in Hs as [Hs|[<-|[]]]; [now left|right; now left]. }
        intros c' [<-|Hc']; [|now apply I4].
        exists c. split; [apply I2, in_or_app; right; now left|now apply same_key_refl].
Qed.

Lemma lift_Ok_inv {A : Type} (o : outcome A) (w w' : SearchWidget) (a : A) :
  lift o w = (w', Ok a) -> o = Ok a /\ w' = w.
Proof. unfold lift. intros [= <- ->]. auto. Qed.

Lemma to_geopandas_Ok_inv (results : list dict) (fields : list string)
    (w w0 : SearchWidget) (gdf : GeoDataFrame) :
  to_geopandas results fields w = (w0, Ok gdf) ->
  m_layers w0 = m_layers w /\ active_layers w0 = active_layers w /\
  search_params w0 = search_params w.
Proof.
  destruct (tabulate results fields) as [df|e] eqn:Et.
  - rewrite (to_geopandas_run _ _ _ _ Et). intros [= <- _]. auto.
  - rewrite (to_geopandas_raise _ _ _ _ Et). discriminate.
Qed.

Lemma dataset_ids_spec (gdf : GeoDataFrame) (i : nat) (ids : list cell) :
  dataset_ids gdf = Ok (i, ids) ->
  positions "dataset-id" (gdf_data gdf) = [i] /\
  List.NoDup ids /\
  (forall p, In p ids -> In p (column_at i (gdf_data gdf))) /\
  (forall c, In c (column_at i (gdf_data gdf)) ->
             exists p, In p ids /\ same_key c p = true).
Proof.
  unfold dataset_ids.
  destruct (positions "dataset-id" (gdf_data gdf)) as [|j [|j' ps]]; try discriminate.
  intros H. apply obind_Ok in H as [ids' [Hu H]]. injection H as -> ->.
  split; [reflexivity|].
  destruct (unique_from_spec _ _ _ Hu (List.NoDup_nil _) (List.Forall_nil _)) as [I1 [_ [I3 I4]]].
  split; [exact I1|]. split; [|exact I4].
  intros p Hp. destruct (I3 p Hp) as [[]|]; assumption.
Qed.

(** What a call of [explore] that returns has done. *)
Lemma explore_run (results : list dict) (w w' : SearchWidget) :
  explore results w = (w', Ok tt) ->
  exists w0 gdf i ids new,
    to_geopandas results [] w = (w0, Ok gdf) /\
    dataset_ids gdf = Ok (i, ids) /\
    Forall2 (layer_for i gdf) (combine ids tab10) new /\
    m_layers w' = m_layers w ++ new /\
    active_layers w' = active_layers w ++ new /\
    search_params w' = search_params w.
Proof.
  unfold explore. intros H.
  apply bind_Ok_inv in H as [w0 [gdf [Hg H]]].
  apply bind_Ok_inv in H as [w0' [[i ids] [Hi H]]].
  apply lift_Ok_inv in Hi as [Hi ->]. cbn [fst snd] in H.
  apply explore_loop in H as [new [Hnew [Hm [Ha [Hs _]]]]].
  destruct (to_geopandas_Ok_inv _ _ _ _ _ Hg) as [Em [Ea Es]].
  exists w0, gdf, i, ids, new. rewrite Hm, Ha, Hs, Em, Ea, Es. repeat split; auto.
Qed.

Lemma length_tab10 : length tab10 = 10%nat.
Proof. reflexivity. Qed.

(** C2 (as the code has it): [explore] adds one layer for each of the first
    ten distinct dataset ids of the table, in order of first appearance,
    the i-th with the i-th colour of the palette, so no two layers share a
    colour; with at most ten distinct ids every one of them gets its layer.
    The palette is not cycled. *)
Theorem explore_layers (results : list dict) (w w' : SearchWidget) :
  explore results w = (w', Ok tt) ->
  exists w0 gdf i ids new,
    to_geopandas results [] w = (w0, Ok gdf) /\
    dataset_ids gdf = Ok (i, ids) /\
    List.NoDup ids /\
    (forall p, In p ids -> In p (column_at i (gdf_data gdf))) /\
    (forall c, In c (column_at i (gdf_data gdf)) ->
               exists p, In p ids /\ same_key c p = true) /\
    m_layers w' = m_layers w ++ new /\
    active_layers w' = active_layers w ++ new /\
    Forall2 (layer_for i gdf) (combine ids tab10) new /\
    length new = Nat.min (length ids) 10 /\
    map (fun nc => name_dataset (fst nc)) (dataset_layers new) = firstn 10 ids /\
    map snd (dataset_layers new) = firstn (length ids) tab10 /\
    List.NoDup (map snd (dataset_layers new)) /\
    ((length ids <= 10)%nat ->
     map (fun nc => name_dataset (fst nc)) (dataset_layers new) = ids).
Proof.
  intros H. apply explore_run in H as [w0 [gdf [i [ids [new [Hg [Hi [Hnew [Hm [Ha _]]]]]]]]]].
  destruct (dataset_ids_spec _ _ _ Hi) as [_ [Hnd [Hin Hcov]]].
  destruct (dataset_layers_of_new _ _ _ _ Hnew) as [Hdl Hlen].
  exists w0, gdf, i, ids, new.
  assert (E1 : map (fun nc => name_dataset (fst nc)) (dataset_layers new) = firstn 10 ids).
  { rewrite <- length_tab10, <- combine_fst, <- Hdl, map_map. reflexivity. }
  assert (E2 : map snd (dataset_layers new) = firstn (length ids) tab10).
  { rewrite <- combine_snd, <- Hdl, map_map. reflexivity. }
  repeat (split; [assumption|]).
  split; [now rewrite Hlen, length_combine|].
  split; [exact E1|]. split; [exact E2|].
  split; [rewrite E2; apply NoDup_prefix, tab10_distinct|].
  intros Hle. rewrite E1. apply firstn_all2. exact Hle.
Qed.

(** C2 (as stated) fails: with eleven distinct dataset ids in the table,
    [explore] returns with ten dataset layers, and the eleventh id has no
    layer. *)
Lemma explore_eleven_datasets_ten_layers :
  snd (explore eleven_datasets fresh_widget) = Ok tt /\
  (do gdf <- snd (to_geopandas eleven_datasets [] fresh_widget);
   do ids <- dataset_ids gdf;
   Ok (length (snd ids), existsb (same_key (Val (JStr "D10"))) (snd ids)))
  = Ok (11%nat, true) /\
  length (dataset_layers (m_layers (fst (explore eleven_datasets fresh_widget)))) = 10%nat /\
  ~ In (Val (JStr "D10"))
       (map (fun nc => name_dataset (fst nc))
            (dataset_layers (m_layers (fst (explore eleven_datasets fresh_widget))))).
Proof.
  split; [vm_compute; reflexivity|]. split; [vm_compute; reflexivity|].
  split; [vm_compute; reflexivity|].
  vm_compute. intuition discriminate.
Qed.

(** [round2] is a rounding to hundredths: the result is within half a
    hundredth of its argument. *)
Lemma round2_close (q : Q) :
  (q - (1 # 200) <= round2 q)%Q /\ (round2 q <= q + (1 # 200))%Q.
Proof.
  unfold round2, round_half_even.
  set (x := (q * 100)%Q). set (f := Qfloor x).
  pose proof (Qfloor_le x) as Hlo. pose proof (Qlt_floor x) as Hhi.
  fold f in Hlo, Hhi. rewrite inject_Z_plus in Hhi.
  assert (Hx : (q == x * (1 # 100))%Q) by (unfold x; field).
  assert (Hm : forall z : Z, (Qmake z 100 == inject_Z z * (1 # 100))%Q).
  { intros z. unfold Qeq. simpl. lia. }
  change (inject_Z 1) with 1%Q in Hhi. clearbody f. clearbody x.
  destruct (Qcompare_spec (x - inject_Z f) (1 # 2)) as [E|E|E].
  - destruct (Z.even f); rewrite Hm, ?inject_Z_plus, Hx;
      change (inject_Z 1) with 1%Q; split; lra.
  - rewrite Hm, Hx; split; lra.
  - rewrite Hm, inject_Z_plus, Hx; change (inject_Z 1) with 1%Q; split; lra.
Qed.






(** ** The properties on sample data *)

Lemma fresh_widget_wf : wf fresh_widget.
Proof.
  split; cbn.
  - intros l [].
  - constructor.
  - discriminate.
  - intros l [<-|[]]. cbn. lia.
Qed.

Lemma new_widget_fresh : new_widget ∅ "global" = Ok fresh_widget.
Proof. reflexivity. Qed.

Lemma to_geopandas_keeps_rows_without_geometry_witness :
  exists df gdf,
    tabulate [sample_granule "A" 10; granule_without_geometry; granule_with_empty_geometry] []
    = Ok df /\
    to_geopandas [sample_granule "A" 10; granule_without_geometry; granule_with_empty_geometry]
                 [] fresh_widget
    = (printed_more fresh_widget
         [PrintExn (KeyError "SpatialExtent");
          PrintExn (ValueError "Provided result does not contain bounding boxes/polygons or is incompatible.")],
       Ok gdf) /\
    length (rows (gdf_data gdf)) = 3%nat /\
    gdf_geometry gdf = [Some (box (-10) (-5) 20 15); None; None].
Proof.
  destruct (tabulate [sample_granule "A" 10; granule_without_geometry;
                      granule_with_empty_geometry] [])
    as [df|e] eqn:E; [|vm_compute in E; discriminate].
  destruct (to_geopandas_keeps_rows_without_geometry
              [sample_granule "A" 10; granule_without_geometry; granule_with_empty_geometry]
              [] df fresh_widget E)
    as [gdf [H1 [_ [H3 [H4 _]]]]].
  exists df, gdf. split; [reflexivity|]. split; [exact H1|]. split; [exact H3|exact H4].
Defined.

Lemma bounding_rectangle_box_witness :
  (-10 < 20)%Q /\ (-5 < 15)%Q /\
  _get_shapely_object (sample_granule "A" 10) fresh_widget
  = (fresh_widget, Ok (Some (box (-10) (-5) 20 15))) /\
  bounds (box (-10) (-5) 20 15) = Some ((-10)%Q, (-5)%Q, 20%Q, 15%Q).
Proof.
  split; [reflexivity|]. split; [reflexivity|].
  destruct (bounding_rectangle_box (sample_granule "A" 10)
              [("BoundingRectangles",
                JList [JDict [("WestBoundingCoordinate", JNum (-10));
                              ("SouthBoundingCoordinate", JNum (-5));
                              ("EastBoundingCoordinate", JNum 20);
                              ("NorthBoundingCoordinate", JNum 15)]])]
              [("WestBoundingCoordinate", JNum (-10));
               ("SouthBoundingCoordinate", JNum (-5));
               ("EastBoundingCoordinate", JNum 20);
               ("NorthBoundingCoordinate", JNum 15)]
              [] (-10) (-5) 20 15 fresh_widget
              eq_refl eq_refl eq_refl eq_refl eq_refl eq_refl eq_refl eq_refl)
    as [H1 [_ [H3 _]]].
  split; [exact H1|exact H3].
Defined.


Lemma unsupported_geometry_kind_witness :
  exists w',
    _handle_draw JNull JNull (feature "MultiPoint" (JList [])) fresh_widget = (w', Ok tt) /\
    search_params w' = search_params fresh_widget /\
    roi w' = None.
Proof.
  destruct (unsupported_geometry_kind fresh_widget JNull JNull
              (feature "MultiPoint" (JList []))
              (JDict [("type", JStr "MultiPoint"); ("coordinates", JList [])])
              (JStr "MultiPoint") (JList [])
              fresh_widget_wf eq_refl eq_refl eq_refl eq_refl)
    as [w' [H1 [H2 [H3 _]]]].
  exists w'. split; [exact H1|]. split; [exact H2|exact H3].
Defined.

Lemma draw_updates_only_its_parameter_witness :
  (3 <= length triangle)%nat /\
  exists ring w1 w2,
    _handle_draw JNull JNull (feature "Polygon" (JList [ring_json triangle])) fresh_widget
    = (w1, Ok tt) /\
    _handle_draw JNull JNull (feature "Point" (JList [JNum 1; JNum 2])) w1 = (w2, Ok tt) /\
    search_params w2 !! "polygon" = Some (PRing ring) /\
    search_params w2 !! "point" = Some (PJson (JList [JNum 1; JNum 2])).
Proof.
  assert (H : (3 <= length triangle)%nat) by (simpl; lia).
  split; [exact H|].
  destruct (draw_updates_only_its_parameter fresh_widget JNull JNull
              (JList [JNum 1; JNum 2]) triangle fresh_widget_wf H)
    as [_ [ring [w1 [w2 [_ [H1 [H2 [_ [H4 [H5 _]]]]]]]]]].
  exists ring, w1, w2. split; [exact H1|]. split; [exact H2|].
  split; [exact H4|exact H5].
Defined.

Lemma to_geopandas_fields_without_related_urls_witness :
  ["size"] <> [] /\ ~ In "_related_urls" ["size"] /\
  to_geopandas five_granules ["size"] fresh_widget
  = (fresh_widget, Raise (KeyError "_related_urls")).
Proof.
  assert (H1 : ["size"] <> ([] : list string)) by discriminate.
  assert (H2 : ~ In "_related_urls" ["size"]).
  { intros [H|[]]. discriminate H. }
  split; [exact H1|]. split; [exact H2|].
  exact (to_geopandas_fields_without_related_urls five_granules ["size"] fresh_widget H1 H2).
Defined.

Lemma explore_layers_witness :
  exists w' new,
    explore five_granules fresh_widget = (w', Ok tt) /\
    m_layers w' = m_layers fresh_widget ++ new /\
    length new = 2%nat.
Proof.
  destruct (explore five_granules fresh_widget) as [w' [[]|e]] eqn:E;
    [|vm_compute in E; discriminate].
  destruct (explore_layers five_granules fresh_widget w' E)
    as [w0 [gdf [i [ids [new [Hg [Hi [_ [_ [_ [Hm [_ [_ [Hlen _]]]]]]]]]]]]]].
  exists w', new. split; [reflexivity|]. split; [exact Hm|].
  rewrite Hlen. vm_compute in Hg. injection Hg as _ <-.
  vm_compute in Hi. injection Hi as _ <-. reflexivity.
Defined.


(** ** The columns and rows of the table *)

Lemma filter_map_comm {A B : Type} (h : A -> B) (p : B -> bool) (l : list A) :
  List.filter p (map h l) = map h (List.filter (fun a => p (h a)) l).
Proof.
  induction l as [|a l IH]; simpl; [reflexivity|].
  destruct (p (h a)); simpl; now rewrite IH.
Qed.

Lemma select_map {A C : Type} (h : A -> string) (g : A -> C) (p : string -> bool)
    (l : list A) :
  select p (map h l) (map g l) = map g (List.filter (fun a => p (h a)) l).
Proof.
  induction l as [|a l IH]; simpl; [reflexivity|].
  destruct (p (h a)); simpl; now rewrite IH.
Qed.

Lemma dropped_iff_listed (F names : list string) (c : string) :
  In c names ->
  negb (mem_str c (List.filter (fun col => negb (mem_str col F)) names)) = mem_str c F.
Proof.
  intros Hin. destruct (mem_str c F) eqn:E.
  - apply negb_true_iff.
    destruct (mem_str c (List.filter (fun col => negb (mem_str col F)) names)) eqn:X;
      [|reflexivity].
    apply mem_str_In, filter_In in X as [_ X]. rewrite E in X. discriminate.
  - apply negb_false_iff. apply mem_str_In, filter_In. split; [exact Hin|].
    now rewrite E.
Qed.

(** The frame [to_geopandas] has before it filters the related urls: one
    column per kept key path, one row per record. *)
Lemma tabulate_projection (results : list dict) (fields : list string) :
  tabulate results fields
  = apply_related_urls
      (mkDF (map flat_name (kept_paths results fields))
            (map (fun r => map (cell_of (_normalise_json_ordered r))
                               (kept_paths results fields))
                 results)).
Proof.
  unfold tabulate, kept_paths, key_paths, allow_list.
  set (F := if Nat.eqb (length fields) 0 then default_fields else fields).
  unfold json_normalize, _flattent_column_names, drop_columns. cbn [columns rows].
  set (cols := union_keys [] (map _normalise_json_ordered results)).
  set (labels := List.filter (fun col => negb (mem_str col F)) (map flat_name cols)).
  f_equal. f_equal.
  - rewrite filter_map_comm. f_equal. apply filter_ext_in.
    intros k Hk. apply dropped_iff_listed. now apply in_map.
  - rewrite !map_map. apply map_ext. intros r.
    rewrite select_map. f_equal. apply filter_ext_in.
    intros k Hk. apply dropped_iff_listed. now apply in_map.
Qed.

Lemma nth_error_insert_eq {A : Type} (l : list A) (i : nat) (x : A) :
  (i < length l)%nat -> nth_error (<[i := x]> l) i = Some x.
Proof.
  revert i. induction l as [|y l IH]; intros [|i] H; simpl in *; try lia.
  - reflexivity.
  - apply IH. lia.
Qed.

Lemma nth_error_insert_ne {A : Type} (l : list A) (i j : nat) (x : A) :
  i <> j -> nth_error (<[i := x]> l) j = nth_error l j.
Proof.
  revert i j. induction l as [|y l IH]; intros [|i] [|j] H; simpl; try reflexivity.
  - congruence.
  - apply IH. congruence.
Qed.

Lemma positions_from_In (c : string) (cols : list string) (s j : nat) :
  In j (positions_from s c cols) ->
  (s <= j)%nat /\ nth_error cols (j - s) = Some c.
Proof.
  revert s. induction cols as [|c' cols IH]; intros s H; simpl in H; [contradiction|].
  assert (Hrest : In j (positions_from (S s) c cols) ->
                  (s <= j)%nat /\ nth_error (c' :: cols) (j - s) = Some c).
  { intros H'. apply IH in H' as [Hle Hn]. split; [lia|].
    replace (j - s)%nat with (S (j - S s)) by lia. exact Hn. }
  destruct (String.eqb_spec c c') as [->|_]; [|now apply Hrest].
  destruct H as [<-|H]; [|now apply Hrest].
  split; [lia|]. now rewrite Nat.sub_diag.
Qed.

Lemma positions_from_complete (c : string) (cols : list string) (s j : nat) :
  nth_error cols j = Some c -> In (s + j)%nat (positions_from s c cols).
Proof.
  revert s j. induction cols as [|c' cols IH]; intros s [|j] H; simpl in H;
    try discriminate.
  - injection H as ->. simpl. rewrite String.eqb_refl, Nat.add_0_r. now left.
  - simpl. replace (s + S j)%nat with (S s + j)%nat by lia.
    destruct (String.eqb c c'); [right|]; now apply IH.
Qed.

Lemma omap_nth {A B : Type} (f : A -> outcome B) (l : list A) (l' : list B)
    (n : nat) (a : A) :
  omap f l = Ok l' -> nth_error l n = Some a ->
  exists b, nth_error l' n = Some b /\ f a = Ok b.
Proof.
  revert l' n. induction l as [|x l IH]; intros l' n H Hn; [now destruct n|].
  simpl in H. apply obind_Ok in H as [b [Hb H]]. apply obind_Ok in H as [bs [Hbs H]].
  injection H as <-. destruct n as [|n]; simpl in *.
  - injection Hn as ->. eauto.
  - eapply IH; eassumption.
Qed.

Lemma nth_error_combine {A B : Type} (l : list A) (l' : list B) (n : nat) (a : A) (b : B) :
  nth_error l n = Some a -> nth_error l' n = Some b ->
  nth_error (combine l l') n = Some (a, b).
Proof.
  revert l' n. induction l as [|x l IH]; intros [|y l'] [|n] Ha Hb; simpl in *;
    try discriminate.
  - now injection Ha as ->; injection Hb as ->.
  - now apply IH.
Qed.

Lemma keep_links_filter (ls out : list json) :
  keep_links ls = Ok out ->
  out = List.filter kept_link ls /\
  forall l, In l ls -> exists t, getitem l "Type" = Ok t.
Proof.
  revert out. induction ls as [|l ls IH]; intros out H; cbn [keep_links] in H.
  - injection H as <-. split; [reflexivity|intros l []].
  - apply obind_Ok in H as [t [Ht H]]. apply obind_Ok in H as [rest [Hr H]].
    injection H as <-. destruct (IH rest Hr) as [-> Hall].
    split.
    + assert (E : kept_link l = py_in t link_types)
        by (unfold kept_link; now rewrite Ht).
      cbn [List.filter]. now rewrite E.
    + intros l' [<-|Hin]; [eauto|now apply Hall].
Qed.

Lemma dict_get_In (k : string) (d : dict) (v : json) :
  dict_get k d = Some v -> In k (map fst d).
Proof.
  induction d as [|[k' v'] d IH]; simpl; [discriminate|].
  destruct (String.eqb_spec k k') as [->|_]; [now left|].
  intros H. right. now apply IH.
Qed.

(** What a call of [tabulate] that returns has done to the row of one
    record: the related-urls cell is filtered, every other cell is the
    value the record has under the key path of the column. *)
Lemma tabulate_row (results : list dict) (fields : list string) (df : DataFrame)
    (n : nat) (r : dict) :
  tabulate results fields = Ok df ->
  nth_error results n = Some r ->
  columns df = map flat_name (kept_paths results fields) /\
  exists i k v ls row,
    positions "_related_urls" df = [i] /\
    nth_error (kept_paths results fields) i = Some k /\
    flat_name k = "_related_urls" /\
    dict_get k (_normalise_json_ordered r) = Some v /\
    iter v = Ok ls /\
    (forall l, In l ls -> exists t, getitem l "Type" = Ok t) /\
    nth_error (rows df) n = Some row /\
    length row = length (columns df) /\
    nth_error row i = Some (Val (JList (List.filter kept_link ls))) /\
    (forall j k', j <> i -> nth_error (kept_paths results fields) j = Some k' ->
                  nth_error row j = Some (cell_of (_normalise_json_ordered r) k')).
Proof.
  rewrite tabulate_projection. set (K := kept_paths results fields).
  set (P := mkDF (map flat_name K)
                 (map (fun r => map (cell_of (_normalise_json_ordered r)) K) results)).
  intros H Hn. unfold apply_related_urls in H.
  assert (Hrow : nth_error (rows P) n
                 = Some (map (cell_of (_normalise_json_ordered r)) K)).
  { cbn [rows P]. rewrite nth_error_map, Hn. reflexivity. }
  destruct (positions "_related_urls" P) as [|i [|i' ps]] eqn:Ep; [discriminate| |].
  2:{ destruct (rows P) eqn:Er; [|discriminate]. now destruct n. }
  apply obind_Ok in H as [cells [Hc H]]. injection H as <-.
  split; [reflexivity|].
  assert (Hi : In i (positions "_related_urls" P)) by (rewrite Ep; now left).
  apply positions_from_In in Hi as [_ Hi]. rewrite Nat.sub_0_r in Hi.
  cbn [columns P] in Hi. rewrite nth_error_map in Hi.
  destruct (nth_error K i) as [k|] eqn:Ek; [|discriminate]. injection Hi as Hk.
  assert (Hcell : nth_error (column_at i P) n
                  = Some (cell_of (_normalise_json_ordered r) k)).
  { unfold column_at. rewrite nth_error_map, Hrow. cbn [option_map].
    f_equal. apply nth_error_nth. rewrite nth_error_map, Ek. reflexivity. }
  destruct (omap_nth _ _ _ _ _ Hc Hcell) as [c [Hcn Hf]].
  unfold cell_of in Hf.
  destruct (dict_get k (_normalise_json_ordered r)) as [v|] eqn:Ev; [|discriminate].
  cbn [filter_links] in Hf.
  apply obind_Ok in Hf as [ls [Hls Hf]]. apply obind_Ok in Hf as [kept [Hkept Hf]].
  injection Hf as <-. apply keep_links_filter in Hkept as [-> Hall].
  exists i, k, v, ls,
    (<[i := Val (JList (List.filter kept_link ls))]>
       (map (cell_of (_normalise_json_ordered r)) K)).
  split; [exact Ep|]. split; [exact Ek|]. split; [exact Hk|].
  split; [exact Ev|]. split; [exact Hls|]. split; [exact Hall|].
  split.
  { unfold set_column_at. cbn [rows]. rewrite nth_error_map.
    rewrite (nth_error_combine _ _ _ _ _ Hrow Hcn). reflexivity. }
  split.
  { cbn [columns set_column_at P]. now rewrite length_insert, !length_map. }
  split.
  { apply nth_error_insert_eq. rewrite length_map. apply nth_error_Some. congruence. }
  intros j k' Hj Hk'. rewrite nth_error_insert_ne by congruence.
  rewrite nth_error_map, Hk'. reflexivity.
Qed.

Lemma fold_keys_In (d : dict) (seen : list string) (k : string) :
  In k (fold_left (fun acc kv => if mem_str (fst kv) acc then acc else acc ++ [fst kv])
                  d seen)
  <-> In k seen \/ In k (map fst d).
Proof.
  revert seen. induction d as [|[k' v] d IH]; intros seen; simpl.
  - tauto.
  - rewrite IH. destruct (mem_str k' seen) eqn:E.
    + apply mem_str_In in E. split; [tauto|]. intros [H|[<-|H]]; tauto.
    + rewrite in_app_iff. simpl. tauto.
Qed.

Lemma union_keys_In (ds : list dict) (seen : list string) (k : string) :
  In k (union_keys seen ds)
  <-> In k seen \/ exists d, In d ds /\ In k (map fst d).
Proof.
  revert seen. induction ds as [|d ds IH]; intros seen; simpl.
  - split; [tauto|]. intros [H|[d [[] _]]]. exact H.
  - rewrite IH, fold_keys_In. split.
    + intros [[H|H]|[d' [H1 H2]]]; [tauto|right; exists d; tauto|right; exists d'; tauto].
    + intros [H|[d' [[<-|H1] H2]]]; [tauto|tauto|right; exists d'; tauto].
Qed.

Lemma apply_related_urls_columns (df df' : DataFrame) :
  apply_related_urls df = Ok df' -> columns df' = columns df.
Proof.
  unfold apply_related_urls.
  destruct (positions "_related_urls" df) as [|i [|j ps]]; [discriminate| |].
  - intros H. apply obind_Ok in H as [cells [_ H]]. now injection H as <-.
  - destruct (rows df); [|discriminate]. now intros [= <-].
Qed.

(** X1: the columns of the table are the renamed key paths of the records
    that are on the allow-list, in the order in which the records introduce
    them; a label is a column exactly when it is on the allow-list and is
    the name of a key path of some record.  The allow-list adds no column
    and does not order them. *)
Theorem table_columns (results : list dict) (fields : list string) (df : DataFrame) :
  tabulate results fields = Ok df ->
  columns df = map flat_name (kept_paths results fields) /\
  length (rows df) = length results /\
  forall c, In c (columns df) <->
            In c (allow_list fields) /\
            exists r k, In r results /\
                        In k (map fst (_normalise_json_ordered r)) /\
                        flat_name k = c.
Proof.
  intros H. pose proof (tabulate_rows _ _ _ H) as Hlen.
  rewrite tabulate_projection in H. apply apply_related_urls_columns in H.
  cbn [columns] in H. split; [exact H|]. split; [exact Hlen|].
  intros c. rewrite H, in_map_iff. unfold kept_paths, key_paths. split.
  - intros [k [<- Hk]]. apply filter_In in Hk as [Hk Hm].
    apply union_keys_In in Hk as [[]|[d [Hd Hk]]].
    apply in_map_iff in Hd as [r [<- Hr]].
    split; [now apply mem_str_In|]. exists r, k. auto.
  - intros [Hc [r [k [Hr [Hk <-]]]]]. exists k. split; [reflexivity|].
    apply filter_In. split; [|now apply mem_str_In].
    apply union_keys_In. right. exists (_normalise_json_ordered r).
    split; [now apply in_map|exact Hk].
Qed.

Lemma table_columns_witness :
  exists df,
    tabulate five_granules [] = Ok df /\
    columns df = ["size"; "dataset-id"; "native-id"; "provider-id"; "_related_urls"].
Proof.
  destruct (tabulate five_granules []) as [df|e] eqn:E; [|vm_compute in E; discriminate].
  exists df. split; [reflexivity|].
  rewrite (proj1 (table_columns five_granules [] df E)). vm_compute. reflexivity.
Defined.

(** X2: in a table that was built, the related-urls cell of every row holds
    the related urls of its record whose type is GET DATA, GET DATA VIA
    DIRECT ACCESS or GET RELATED VISUALIZATION, in the record's order, and
    nothing else. *)
Theorem related_urls_filtered (results : list dict) (fields : list string)
    (df : DataFrame) (n : nat) (r : dict) :
  tabulate results fields = Ok df ->
  nth_error results n = Some r ->
  exists i k v ls row,
    positions "_related_urls" df = [i] /\
    flat_name k = "_related_urls" /\
    dict_get k (_normalise_json_ordered r) = Some v /\
    iter v = Ok ls /\
    nth_error (rows df) n = Some row /\
    nth_error row i = Some (Val (JList (List.filter kept_link ls))) /\
    forall l, In l (List.filter kept_link ls) ->
              In l ls /\ exists t, getitem l "Type" = Ok t /\ py_in t link_types = true.
Proof.
  intros H Hn.
  destruct (tabulate_row _ _ _ _ _ H Hn)
    as [_ [i [k [v [ls [row [Hp [_ [Hk [Hv [Hls [Hall [Hrow [_ [Hcell _]]]]]]]]]]]]]]].
  exists i, k, v, ls, row. repeat (split; [assumption|]).
  intros l Hl. apply filter_In in Hl as [Hin Hkept]. split; [exact Hin|].
  destruct (Hall l Hin) as [t Ht]. exists t. split; [exact Ht|].
  unfold kept_link in Hkept. now rewrite Ht in Hkept.
Qed.

Lemma related_urls_filtered_witness :
  exists df i ls row,
    tabulate five_granules [] = Ok df /\
    nth_error five_granules 0 = Some (sample_granule "A" 10) /\
    nth_error (rows df) 0 = Some row /\
    nth_error row i = Some (Val (JList (List.filter kept_link ls))).
Proof.
  destruct (tabulate five_granules []) as [df|e] eqn:E; [|vm_compute in E; discriminate].
  destruct (related_urls_filtered five_granules [] df 0 (sample_granule "A" 10) E eq_refl)
    as [i [k [v [ls [row [_ [_ [_ [_ [Hrow [Hcell _]]]]]]]]]]].
  exists df, i, ls, row. split; [reflexivity|]. split; [reflexivity|].
  split; [exact Hrow|exact Hcell].
Defined.

(** X3: every record has to carry related urls: if one record has no key
    path named [_related_urls], [to_geopandas] raises, whatever the other
    records and the fields are, and no geometry is computed. *)
Theorem record_without_related_urls (results : list dict) (fields : list string)
    (r : dict) (w : SearchWidget) :
  In r results ->
  (forall k, In k (map fst (_normalise_json_ordered r)) -> flat_name k <> "_related_urls") ->
  exists e, to_geopandas results fields w = (w, Raise e).
Proof.
  intros Hr Hno. destruct (tabulate results fields) as [df|e] eqn:E.
  - exfalso. apply In_nth_error in Hr as [n Hn].
    destruct (tabulate_row _ _ _ _ _ E Hn)
      as [_ [i [k [v [ls [row [_ [_ [Hk [Hv _]]]]]]]]]].
    exact (Hno k (dict_get_In _ _ _ Hv) Hk).
  - exists e. now apply to_geopandas_raise.
Qed.

Lemma record_without_related_urls_witness :
  In granule_without_urls [sample_granule "A" 10; granule_without_urls] /\
  exists e,
    to_geopandas [sample_granule "A" 10; granule_without_urls] [] fresh_widget
    = (fresh_widget, Raise e).
Proof.
  assert (H1 : In granule_without_urls [sample_granule "A" 10; granule_without_urls])
    by (right; now left).
  split; [exact H1|].
  apply (record_without_related_urls _ [] granule_without_urls fresh_widget H1).
  intros k Hk. vm_compute in Hk.
  destruct Hk as [<-|[<-|[]]]; vm_compute; discriminate.
Defined.

(** X4: the rows of the table follow the records: row n belongs to record
    n, is as long as the list of columns, and holds under every column but
    the related urls the value the record has at the key path of that
    column, or a missing cell if the record has no such key path. *)
Theorem rows_mirror_results (results : list dict) (fields : list string)
    (df : DataFrame) (n : nat) (r : dict) :
  tabulate results fields = Ok df ->
  nth_error results n = Some r ->
  exists row,
    nth_error (rows df) n = Some row /\
    length row = length (columns df) /\
    forall j k, nth_error (kept_paths results fields) j = Some k ->
                flat_name k <> "_related_urls" ->
                nth_error (columns df) j = Some (flat_name k) /\
                nth_error row j
                = Some (match dict_get k (_normalise_json_ordered r) with
                        | Some v => Val v
                        | None => Missing
                        end).
Proof.
  intros H Hn.
  destruct (tabulate_row _ _ _ _ _ H Hn)
    as [Hcols [i [k0 [v [ls [row [_ [Hk0 [Hf0 [_ [_ [_ [Hrow [Hlen [_ Hother]]]]]]]]]]]]]]].
  exists row. split; [exact Hrow|]. split; [exact Hlen|].
  intros j k Hk Hne. split.
  - rewrite Hcols, nth_error_map, Hk. reflexivity.
  - apply Hother; [|exact Hk]. intros ->. congruence.
Qed.

Lemma rows_mirror_results_witness :
  exists df row,
    tabulate [sample_granule "A" 10; granule_without_geometry] [] = Ok df /\
    nth_error (rows df) 1 = Some row /\
    nth_error row 0 = Some (Val (JNum 1)) /\
    nth_error row 2 = Some Missing.
Proof.
  destruct (tabulate [sample_granule "A" 10; granule_without_geometry] [])
    as [df|e] eqn:E; [|vm_compute in E; discriminate].
  destruct (rows_mirror_results _ [] df 1 granule_without_geometry E eq_refl)
    as [row [Hrow [_ Hcells]]].
  exists df, row. split; [reflexivity|]. split; [exact Hrow|]. split.
  - apply (Hcells 0%nat "size"); [reflexivity|vm_compute; discriminate].
  - apply (Hcells 2%nat "meta.native-id"); [reflexivity|vm_compute; discriminate].
Defined.

(** ** Polygon boundaries of granules *)

Lemma boundary_shell (pjs : list json) (pts : list point) :
  Forall2 is_point pjs pts ->
  omap (fun p => do lon <- getitem p "Longitude";
                 do lat <- getitem p "Latitude";
                 Ok (JList [lon; lat])) pjs
  = Ok (map (fun p => JList [JNum (fst p); JNum (snd p)]) pts).
Proof.
  induction 1 as [|pj p pjs pts [Hlon Hlat] _ IH]; [reflexivity|].
  cbn [omap map]. rewrite Hlon, Hlat. cbn [obind]. rewrite IH. reflexivity.
Qed.

Lemma close_ring_short (pts : list point) :
  (1 <= length pts <= 2)%nat ->
  close_ring pts = Raise (ValueError "A linearring requires at least 4 coordinates.").
Proof.
  intros H. destruct pts as [|p0 [|p1 [|p2 pts]]]; simpl in H; try lia.
  - unfold close_ring. cbn [length Nat.eqb].
    destruct (negb (pt_eqb p0 (List.last [p0] p0))); reflexivity.
  - unfold close_ring. cbn [length Nat.eqb].
    destruct (negb (pt_eqb p0 (List.last [p0; p1] p0))); reflexivity.
Qed.

(** X5: a granule without bounding rectangles whose first polygon has a
    boundary of at least three points gets the polygon through exactly these
    points, in the order given (closed by its first point when it is not
    closed, never re-wound); with one or two boundary points the geometry is
    null and the error is printed. *)
Theorem polygon_boundary_geometry
    (result geo gp boundary : dict) (others pjs : list json) (pts : list point)
    (W : SearchWidget) :
  dig (JDict result) geometry_path = Ok (JDict geo) ->
  dict_get "BoundingRectangles" geo = None ->
  dict_get "GPolygons" geo = Some (JList (JDict gp :: others)) ->
  dict_get "Boundary" gp = Some (JDict boundary) ->
  dict_get "Points" boundary = Some (JList pjs) ->
  Forall2 is_point pjs pts ->
  ((3 <= length pts)%nat ->
   exists ring,
     _get_shapely_object result W = (W, Ok (Some (Polygon_ ring))) /\
     closed_ring ring /\
     firstn (length pts) ring = pts /\
     (length ring <= S (length pts))%nat) /\
  ((1 <= length pts <= 2)%nat ->
   _get_shapely_object result W
   = (printed_more W
        [PrintExn (ValueError "A linearring requires at least 4 coordinates.")],
      Ok None)).
Proof.
  intros Hdig Hbr Hgp Hb Hp Hpts.
  unfold geometry_path in Hdig. cbn [dig] in Hdig.
  apply obind_Ok in Hdig as [umm [H1 Hdig]].
  apply obind_Ok in Hdig as [se [H2 Hdig]].
  apply obind_Ok in Hdig as [hsd [H3 Hdig]].
  apply obind_Ok in Hdig as [g [H4 Hdig]].
  injection Hdig as ->.
  assert (Hbody : shapely_object result = Polygon_of_points pts).
  { unfold shapely_object.
    rewrite H1; cbn [obind]. rewrite H2; cbn [obind].
    rewrite H3; cbn [obind]. rewrite H4; cbn [obind keys].
    rewrite (dict_get_none_mem _ _ Hbr), (dict_get_mem _ _ _ Hgp).
    cbn [getitem getitem0 obind]. rewrite Hgp. cbn [getitem getitem0 obind].
    rewrite Hb. cbn [getitem obind]. rewrite Hp. cbn [iter obind].
    rewrite (boundary_shell _ _ Hpts). cbn [obind].
    exact (Polygon_ring_json pts). }
  unfold _get_shapely_object. rewrite Hbody. unfold Polygon_of_points. split.
  - intros Hlen. destruct (close_ring_three pts Hlen) as [ring [Hr Hc]].
    exists ring. rewrite Hr. cbn [obind]. split; [reflexivity|]. split; [exact Hc|].
    exact (close_ring_prefix _ _ Hr).
  - intros Hlen. rewrite (close_ring_short pts Hlen). reflexivity.
Qed.

Lemma polygon_boundary_geometry_witness :
  (3 <= length triangle)%nat /\
  exists ring,
    _get_shapely_object (polygon_granule triangle) fresh_widget
    = (fresh_widget, Ok (Some (Polygon_ ring))) /\
    firstn 3 ring = triangle.
Proof.
  assert (H : (3 <= length triangle)%nat) by (simpl; lia).
  split; [exact H|].
  destruct (polygon_boundary_geometry (polygon_granule triangle)
              [("GPolygons",
                JList [JDict [("Boundary",
                  JDict [("Points",
                    JList (map (fun p => JDict [("Longitude", JNum (fst p));
                                                ("Latitude", JNum (snd p))]) triangle))])]])]
              [("Boundary",
                JDict [("Points",
                  JList (map (fun p => JDict [("Longitude", JNum (fst p));
                                              ("Latitude", JNum (snd p))]) triangle))])]
              [("Points",
                JList (map (fun p => JDict [("Longitude", JNum (fst p));
                                            ("Latitude", JNum (snd p))]) triangle))]
              [] _ triangle fresh_widget
              eq_refl eq_refl eq_refl eq_refl eq_refl)
    as [Hok _].
  - repeat constructor.
  - destruct (Hok H) as [ring [H1 [_ [H3 _]]]]. exists ring. split; [exact H1|exact H3].
Defined.

(** ** More on draw events *)

(** On a consistent widget a draw event clears the old layers and then
    builds the overlay: when the event data is a dict, what follows runs on
    [cleared]; otherwise the constructor of the overlay raises. *)
Lemma handle_draw_steps (w : SearchWidget) (target action geo_json : json) :
  wf w ->
  _handle_draw target action geo_json w
  = if is_dict geo_json
    then draw_rest geo_json (roi_layer w geo_json) (cleared w geo_json)
    else (emptied w, Raise TraitError).
Proof.
  intros [Hon Hnd Hcur Hfresh]. unfold _handle_draw.
  rewrite (bind_run _ _ w w (active_layers w)) by reflexivity.
  rewrite (bind_run _ _ _ _ _ (for_each_remove _ w Hnd Hon)).
  set (w1 := mkWidget (current_geometry w) [] (roi w) (search_params w)
               (without (map model_id (active_layers w)) (m_layers w))
               (next_model_id w) (stdout w)).
  rewrite (bind_run _ _ _ w1 tt) by reflexivity.
  rewrite (bind_run _ _ w1 w1 (current_geometry w)) by reflexivity.
  set (w1' := with_layers w1 (without (remembered w) (m_layers w))).
  assert (Hrem : match current_geometry w with
                 | Some l => remove_layer l
                 | None => ret tt
                 end w1 = (w1', Ok tt)).
  { unfold w1', remembered. destruct (current_geometry w) as [l|] eqn:Ec.
    - destruct (Hcur l eq_refl) as [Hl Hnot].
      unfold remove_layer. cbn [m_layers w1].
      rewrite (on_map_without _ _ _ Hl Hnot).
      rewrite filter_one_without, without_app. reflexivity.
    - unfold ret. rewrite app_nil_r. reflexivity. }
  rewrite (bind_run _ _ _ _ _ Hrem).
  destruct (is_dict geo_json) eqn:Hd.
  - rewrite (bind_run _ _ w1'
               (mkWidget (current_geometry w) [] (roi w) (search_params w)
                  (without (remembered w) (m_layers w)) (S (next_model_id w)) (stdout w))
               (roi_layer w geo_json))
      by exact (new_roi_layer w1' geo_json Hd).
    rewrite (bind_run _ _ _ (cleared w geo_json) tt) by reflexivity.
    reflexivity.
  - apply bind_raise. unfold new_layer, init_error. rewrite Hd. reflexivity.
Qed.

(** A layer the widget remembered is off the map once the old layers are
    cleared. *)
Lemma remembered_not_emptied (w : SearchWidget) (l : layer) :
  In l (active_layers w) \/ current_geometry w = Some l ->
  on_map l (without (remembered w) (m_layers w)) = false.
Proof.
  intros Hl.
  assert (Hid : In (model_id l) (remembered w)).
  { unfold remembered. apply in_or_app. destruct Hl as [Hl|Hl].
    - left. now apply in_map.
    - right. rewrite Hl. now left. }
  destruct (on_map l (without (remembered w) (m_layers w))) eqn:E; [|reflexivity].
  exfalso. apply on_map_In in E as [l' [Hin Heq]].
  apply filter_In in Hin as [_ Hin]. apply negb_true_iff in Hin.
  assert (existsb (Nat.eqb (model_id l')) (remembered w) = true) as X; [|congruence].
  apply existsb_eqb_In. now rewrite Heq.
Qed.

Lemma emptied_wf (w : SearchWidget) :
  wf w -> current_geometry w = None -> wf (emptied w).
Proof.
  intros Hwf Hc. split; cbn [emptied active_layers current_geometry m_layers next_model_id map].
  - intros l [].
  - constructor.
  - rewrite Hc. discriminate.
  - intros l Hl. apply (wf_fresh w Hwf). eapply without_subset, Hl.
Qed.

Lemma roi_layer_not_cleared (w : SearchWidget) (geo_json : json) :
  wf w -> on_map (roi_layer w geo_json) (m_layers (cleared w geo_json)) = false.
Proof.
  intros Hwf. unfold roi_layer. apply on_map_fresh.
  intros l Hl. cbn [cleared m_layers] in Hl.
  apply (wf_fresh w Hwf). eapply without_subset, Hl.
Qed.

(** The outcome of a draw event on a consistent widget, by cases: it
    returns; it raises after the overlay was built; it raises because the
    overlay cannot be built. *)
Lemma handle_draw_cases (w w' : SearchWidget) (target action geo_json : json)
    (o : outcome unit) :
  wf w ->
  _handle_draw target action geo_json w = (w', o) ->
  (exists geometry w2 r,
      getitem geo_json "geometry" = Ok geometry /\
      _extract_geometry_info geometry (cleared w geo_json) = (w2, Ok r) /\
      w' = shown w2 r (roi_layer w geo_json) /\ o = Ok tt) \/
  (exists e, is_dict geo_json = true /\ o = Raise e /\
             active_layers w' = [] /\
             current_geometry w' = Some (roi_layer w geo_json) /\
             m_layers w' = m_layers (cleared w geo_json) /\
             search_params w' = search_params w) \/
  (is_dict geo_json = false /\ o = Raise TraitError /\ w' = emptied w).
Proof.
  intros Hwf H. rewrite (handle_draw_steps _ _ _ _ Hwf) in H.
  destruct (is_dict geo_json) eqn:Hd.
  2:{ injection H as <- <-. right. right. auto. }
  unfold draw_rest in H. unfold bind at 1 in H. unfold lift at 1 in H.
  destruct (getitem geo_json "geometry") as [geometry|e] eqn:Eg.
  2:{ injection H as <- <-. right. left. exists e. repeat split; reflexivity. }
  unfold bind at 1 in H.
  pose proof (extract_geometry_info_fields geometry (cleared w geo_json)) as Hf.
  pose proof (extract_geometry_info_frame geometry) as Hsp.
  destruct (_extract_geometry_info geometry (cleared w geo_json)) as [w2 [r|e]] eqn:Ex.
  - left. exists geometry, w2, r. split; [reflexivity|]. split; [exact Ex|].
    cbn [fst] in Hf. destruct Hf as [F1 [F2 [F3 [F4 F5]]]].
    unfold bind, set_roi, add_layer in H. cbn [m_layers] in H. rewrite F4 in H.
    rewrite (roi_layer_not_cleared w geo_json Hwf) in H.
    injection H as <- <-. split; [|reflexivity]. unfold shown. now rewrite F4.
  - injection H as <- <-. right. left. exists e. cbn [fst] in Hf.
    destruct Hf as [F1 [F2 [F3 [F4 F5]]]]. rewrite F1, F2, F4.
    split; [reflexivity|]. repeat split; try reflexivity.
    revert Ex. unfold _extract_geometry_info, bind, lift, set_search_param, print, ret.
    destruct (getitem geometry "type") as [ty|e1]; [|now intros [= <- _]].
    destruct (getitem geometry "coordinates") as [c|e1]; [|now intros [= <- _]].
    destruct (py_in ty ["Polygon"]).
    + destruct (getitem0 c) as [c0|e1]; [|now intros [= <- _]].
      destruct (_orient_polygon c0) as [coords|e1]; [discriminate|now intros [= <- _]].
    + destruct (py_in ty ["Point"]); [discriminate|].
      destruct (py_in ty ["LineString"]); discriminate.
Qed.

Lemma remembered_not_shown (w : SearchWidget) (geo_json : json) (l : layer) :
  wf w ->
  In l (active_layers w) \/ current_geometry w = Some l ->
  on_map l (without (remembered w) (m_layers w) ++ [roi_layer w geo_json]) = false.
Proof.
  intros Hwf Hl.
  assert (Hid : In (model_id l) (remembered w)).
  { unfold remembered. apply in_or_app. destruct Hl as [Hl|Hl].
    - left. now apply in_map.
    - right. rewrite Hl. now left. }
  assert (Hon : on_map l (m_layers w) = true).
  { destruct Hl as [Hl|Hl]; [now apply (wf_active_on_map w Hwf)|].
    now apply (wf_current_on_map w Hwf). }
  destruct (on_map l (without (remembered w) (m_layers w) ++ [roi_layer w geo_json]))
    eqn:E; [|reflexivity].
  exfalso. apply on_map_In in E as [l' [Hin Heq]].
  apply in_app_or in Hin as [Hin|[<-|[]]].
  - apply filter_In in Hin as [_ Hin]. apply negb_true_iff in Hin.
    assert (existsb (Nat.eqb (model_id l')) (remembered w) = true) as X;
      [|congruence].
    apply existsb_eqb_In. now rewrite Heq.
  - apply on_map_In in Hon as [l'' [Hin'' Heq'']].
    apply (wf_fresh w Hwf) in Hin''. simpl in Heq. lia.
Qed.

Lemma draw_clears (w w' : SearchWidget) (target action geo_json : json) :
  wf w ->
  _handle_draw target action geo_json w = (w', Ok tt) ->
  active_layers w' = [] /\
  current_geometry w' = Some (roi_layer w geo_json) /\
  m_layers w' = without (remembered w) (m_layers w) ++ [roi_layer w geo_json] /\
  (forall l, In l (active_layers w) \/ current_geometry w = Some l ->
             on_map l (m_layers w') = false) /\
  (forall l, In l (m_layers w) -> ~ In (model_id l) (remembered w) ->
             In l (m_layers w')) /\
  wf w'.
Proof.
  intros Hwf H.
  destruct (handle_draw_cases _ _ _ _ _ _ Hwf H)
    as [[geometry [w2 [r [Hg [Hex [-> _]]]]]]|[[e [_ [He _]]]|[_ [He _]]]];
    [|discriminate|discriminate].
  pose proof (extract_geometry_info_fields geometry (cleared w geo_json)) as Hf.
  rewrite Hex in Hf. cbn [fst] in Hf. destruct Hf as [F1 [F2 [F3 [F4 F5]]]].
  assert (Hm : m_layers (shown w2 r (roi_layer w geo_json))
               = without (remembered w) (m_layers w) ++ [roi_layer w geo_json]).
  { unfold shown. cbn [m_layers]. now rewrite F4. }
  split; [exact F2|]. split; [exact F1|]. split; [exact Hm|]. split; [|split].
  - intros l Hl. rewrite Hm. now apply remembered_not_shown.
  - intros l Hl Hnot. rewrite Hm. apply in_or_app. left.
    apply filter_In. split; [exact Hl|]. apply negb_true_iff.
    destruct (existsb (Nat.eqb (model_id l)) (remembered w)) eqn:X; [|reflexivity].
    apply existsb_eqb_In in X. contradiction.
  - eapply shown_wf; [exact Hwf|]. now rewrite Hex.
Qed.


(** X6: a draw event that returns has removed from the map every layer the
    widget remembered (the dataset layers and the previous overlay), has
    kept every other layer, has put the new overlay on top, and remembers
    only that overlay; the widget is consistent again. *)
Theorem draw_clears_old_layers (w w' : SearchWidget) (target action geo_json : json) :
  wf w ->
  _handle_draw target action geo_json w = (w', Ok tt) ->
  active_layers w' = [] /\
  current_geometry w' = Some (roi_layer w geo_json) /\
  m_layers w' = without (remembered w) (m_layers w) ++ [roi_layer w geo_json] /\
  (forall l, In l (active_layers w) \/ current_geometry w = Some l ->
             on_map l (m_layers w') = false) /\
  (forall l, In l (m_layers w) -> ~ In (model_id l) (remembered w) ->
             In l (m_layers w')) /\
  wf w'.
Proof. apply draw_clears. Qed.

Lemma draw_clears_old_layers_witness :
  exists w1 w',
    explore five_granules fresh_widget = (w1, Ok tt) /\
    _handle_draw JNull JNull (feature "Point" (JList [JNum 1; JNum 2])) w1 = (w', Ok tt) /\
    length (dataset_layers (m_layers w1)) = 2%nat /\
    active_layers w' = [] /\
    dataset_layers (m_layers w') = [].
Proof.
  destruct (explore five_granules fresh_widget) as [w1 [[]|e]] eqn:E;
    [|vm_compute in E; discriminate].
  destruct (_handle_draw JNull JNull (feature "Point" (JList [JNum 1; JNum 2])) w1)
    as [w' [[]|e]] eqn:E'; [|vm_compute in E; injection E as <-; vm_compute in E'; discriminate].
  assert (Hwf : wf w1).
  { vm_compute in E. injection E as <-. split; cbn.
    - intros l [<-|[<-|[]]]; reflexivity.
    - repeat constructor; simpl; intuition discriminate.
    - discriminate.
    - intros l [<-|[<-|[<-|[]]]]; cbn; lia. }
  destruct (draw_clears_old_layers w1 w' JNull JNull _ Hwf E') as [H1 [_ [H3 _]]].
  exists w1, w'. split; [reflexivity|]. split; [exact E'|].
  split; [vm_compute in E; injection E as <-; reflexivity|].
  split; [exact H1|].
  rewrite H3. vm_compute in E. injection E as <-. reflexivity.
Defined.

Lemma wedged_draw (w : SearchWidget) (target action geo_json : json) :
  wedged w -> _handle_draw target action geo_json w = (w, Raise LayerException).
Proof.
  destruct w as [cur act r sp m nx out]. intros [Ha [g [Hc Hg]]]. simpl in *. subst.
  unfold _handle_draw, bind, get, set_active_layers, remove_layer. simpl.
  now rewrite Hg.
Qed.

(** X7: a draw event that raises on a consistent widget leaves the search
    parameters as they were; the layers the widget remembered are off the
    map by then and the dataset layers are forgotten.  When the event data
    is a dict the overlay was built and is remembered although it never
    reached the map; when it is not, the constructor of the overlay raises
    [TraitError] and the widget keeps its previous overlay, which is off
    the map.  Either way the widget remembers an overlay that is not on
    the map, and from then on every draw event raises [LayerException] and
    changes nothing.  Only a widget without a previous overlay survives
    event data that is not a dict: it stays consistent. *)
Theorem failed_draw_wedges_widget (w w' : SearchWidget) (target action geo_json : json)
    (e : exn) :
  wf w ->
  _handle_draw target action geo_json w = (w', Raise e) ->
  search_params w' = search_params w /\
  active_layers w' = [] /\
  (forall l, In l (active_layers w) \/ current_geometry w = Some l ->
             on_map l (m_layers w') = false) /\
  (is_dict geo_json = true \/ current_geometry w <> None ->
   wedged w' /\
   forall target' action' geo_json',
     _handle_draw target' action' geo_json' w' = (w', Raise LayerException)) /\
  (is_dict geo_json = false ->
   e = TraitError /\ current_geometry w' = current_geometry w /\
   (current_geometry w = None -> wf w')).
Proof.
  intros Hwf H.
  destruct (handle_draw_cases _ _ _ _ _ _ Hwf H)
    as [[geometry [w2 [r [_ [_ [_ Ho]]]]]]
       |[[e' [Hd [_ [Ha [Hc [Hm Hs]]]]]]|[Hd [Ho ->]]]]; [discriminate| |].
  - assert (Hw : wedged w').
    { split; [exact Ha|]. exists (roi_layer w geo_json). split; [exact Hc|].
      rewrite Hm. now apply roi_layer_not_cleared. }
    split; [exact Hs|]. split; [exact Ha|]. split; [|split].
    + intros l Hl. rewrite Hm. now apply remembered_not_emptied.
    + intros _. split; [exact Hw|]. intros target' action' geo_json'.
      now apply wedged_draw.
    + intros Hd'. congruence.
  - injection Ho as ->.
    split; [reflexivity|]. split; [reflexivity|]. split; [|split].
    + intros l Hl. now apply remembered_not_emptied.
    + intros [Hd'|Hcur]; [congruence|].
      assert (Hw : wedged (emptied w)).
      { split; [reflexivity|].
        destruct (current_geometry w) as [g|] eqn:Eg; [|congruence].
        exists g. split; [exact Eg|]. apply remembered_not_emptied. now right. }
      split; [exact Hw|]. intros target' action' geo_json'. now apply wedged_draw.
    + intros _. split; [reflexivity|]. split; [reflexivity|now apply emptied_wf].
Qed.

Lemma failed_draw_wedges_widget_witness :
  exists w',
    _handle_draw JNull JNull two_point_polygon fresh_widget
    = (w', Raise (ValueError "A linearring requires at least 4 coordinates.")) /\
    search_params w' = search_params fresh_widget /\
    _handle_draw JNull JNull (feature "Point" (JList [JNum 1; JNum 2])) w'
    = (w', Raise LayerException).
Proof.
  destruct (_handle_draw JNull JNull two_point_polygon fresh_widget) as [w' o] eqn:E.
  assert (Ho : o = Raise (ValueError "A linearring requires at least 4 coordinates."))
    by (vm_compute in E; now injection E as _ <-).
  subst o. exists w'. split; [reflexivity|].
  destruct (failed_draw_wedges_widget fresh_widget w' JNull JNull _ _
              fresh_widget_wf E) as [H1 [_ [_ [H4 _]]]].
  split; [exact H1|]. exact (proj2 (H4 (or_introl eq_refl)) JNull JNull _).
Defined.

Lemma extract_point_or_line (geometry ty c : json) (k : string) (w : SearchWidget) :
  getitem geometry "type" = Ok ty ->
  getitem geometry "coordinates" = Ok c ->
  param_key ty = Some k -> k <> "polygon" ->
  _extract_geometry_info geometry w
  = (fst (set_search_param k (PJson c) w), Ok (Some (PJson c))).
Proof.
  intros Hty Hc Hk Hne. unfold param_key in Hk.
  unfold _extract_geometry_info, bind, lift. rewrite Hty, Hc.
  destruct (py_in ty ["Polygon"]); [congruence|].
  destruct (py_in ty ["Point"]); [injection Hk as <-; reflexivity|].
  destruct (py_in ty ["LineString"]); [injection Hk as <-; reflexivity|discriminate].
Qed.

(** X8: the coordinates of a drawn point or line are stored as they come,
    whatever they are: under [point] or [line] in the search parameters and
    in [roi]; nothing is printed and the handler returns. *)
Theorem draw_point_or_line
    (w : SearchWidget) (target action geo_json geometry ty c : json) (k : string) :
  wf w ->
  getitem geo_json "geometry" = Ok geometry ->
  getitem geometry "type" = Ok ty ->
  getitem geometry "coordinates" = Ok c ->
  param_key ty = Some k -> k <> "polygon" ->
  (k = "point" \/ k = "line") /\
  exists w',
    _handle_draw target action geo_json w = (w', Ok tt) /\
    roi w' = Some (PJson c) /\
    search_params w' = <[k := PJson c]> (search_params w) /\
    stdout w' = stdout w /\
    wf w'.
Proof.
  intros Hwf Hgeo Hty Hc Hk Hne. split.
  { unfold param_key in Hk.
    destruct (py_in ty ["Polygon"]); [congruence|].
    destruct (py_in ty ["Point"]); [left; congruence|].
    destruct (py_in ty ["LineString"]); [right; congruence|discriminate]. }
  pose proof (extract_point_or_line geometry ty c k (cleared w geo_json) Hty Hc Hk Hne)
    as Hex.
  eexists. split; [exact (handle_draw_run _ _ _ _ _ _ _ Hwf Hgeo Hex)|].
  split; [reflexivity|]. split; [reflexivity|]. split; [reflexivity|].
  eapply shown_wf; [exact Hwf|]. now rewrite Hex.
Qed.

Lemma draw_point_or_line_witness :
  exists w',
    _handle_draw JNull JNull (feature "LineString" (JStr "anything")) fresh_widget
    = (w', Ok tt) /\
    roi w' = Some (PJson (JStr "anything")) /\
    search_params w' !! "line" = Some (PJson (JStr "anything")).
Proof.
  assert (Hne : "line" <> "polygon") by discriminate.
  destruct (draw_point_or_line fresh_widget JNull JNull
              (feature "LineString" (JStr "anything"))
              (JDict [("type", JStr "LineString"); ("coordinates", JStr "anything")])
              (JStr "LineString") (JStr "anything") "line"
              fresh_widget_wf eq_refl eq_refl eq_refl eq_refl Hne)
    as [_ [w' [H1 [H2 [H3 _]]]]].
  exists w'. split; [exact H1|]. split; [exact H2|].
  rewrite H3. apply lookup_insert_eq.
Defined.

(** X9: of a drawn polygon only the first ring counts: it is normalised
    and stored under [polygon] and in [roi], and further rings (holes) change
    nothing; when the first ring cannot be made a polygon the handler raises
    and the search parameters stay as they were. *)
Theorem draw_polygon_outer_ring
    (w : SearchWidget) (target action geo_json geometry ty c0 : json)
    (holes : list json) :
  wf w ->
  getitem geo_json "geometry" = Ok geometry ->
  getitem geometry "type" = Ok ty ->
  getitem geometry "coordinates" = Ok (JList (c0 :: holes)) ->
  param_key ty = Some "polygon" ->
  match _orient_polygon c0 with
  | Ok ring =>
      exists w',
        _handle_draw target action geo_json w = (w', Ok tt) /\
        roi w' = Some (PRing ring) /\
        search_params w' = <["polygon" := PRing ring]> (search_params w) /\
        wf w'
  | Raise e =>
      exists w',
        _handle_draw target action geo_json w = (w', Raise e) /\
        search_params w' = search_params w
  end.
Proof.
  intros Hwf Hgeo Hty Hc Hk.
  assert (Hp : py_in ty ["Polygon"] = true).
  { unfold param_key in Hk. destruct (py_in ty ["Polygon"]); [reflexivity|].
    destruct (py_in ty ["Point"]); [discriminate|].
    destruct (py_in ty ["LineString"]); discriminate. }
  destruct (_orient_polygon c0) as [ring|e] eqn:Eo.
  - assert (Hex : _extract_geometry_info geometry (cleared w geo_json)
                  = (fst (set_search_param "polygon" (PRing ring) (cleared w geo_json)),
                     Ok (Some (PRing ring)))).
    { unfold _extract_geometry_info, bind, lift. rewrite Hty, Hc, Hp.
      cbn [getitem0]. now rewrite Eo. }
    eexists. split; [exact (handle_draw_run _ _ _ _ _ _ _ Hwf Hgeo Hex)|].
    split; [reflexivity|]. split; [reflexivity|].
    eapply shown_wf; [exact Hwf|]. now rewrite Hex.
  - exists (cleared w geo_json). split; [|reflexivity].
    rewrite (handle_draw_steps _ _ _ _ Hwf), (getitem_dict _ _ _ Hgeo).
    unfold draw_rest, bind, lift.
    rewrite Hgeo. unfold _extract_geometry_info, bind, lift. rewrite Hty, Hc, Hp.
    cbn [getitem0]. now rewrite Eo.
Qed.

Lemma draw_polygon_outer_ring_witness :
  exists w' ring,
    _orient_polygon (ring_json triangle) = Ok ring /\
    _handle_draw JNull JNull
      (feature "Polygon" (JList [ring_json triangle; JStr "a hole"])) fresh_widget
    = (w', Ok tt) /\
    roi w' = Some (PRing ring).
Proof.
  pose proof (draw_polygon_outer_ring fresh_widget JNull JNull
                (feature "Polygon" (JList [ring_json triangle; JStr "a hole"]))
                (JDict [("type", JStr "Polygon");
                        ("coordinates", JList [ring_json triangle; JStr "a hole"])])
                (JStr "Polygon") (ring_json triangle) [JStr "a hole"]
                fresh_widget_wf eq_refl eq_refl eq_refl eq_refl) as H.
  destruct (_orient_polygon (ring_json triangle)) as [ring|e] eqn:E;
    [|vm_compute in E; discriminate].
  destruct H as [w' [H1 [H2 _]]]. exists w', ring.
  split; [reflexivity|]. split; [exact H1|exact H2].
Defined.

(** ** More on [explore] *)

Lemma wf_printed_more (w : SearchWidget) (ps : list printed) :
  wf w -> wf (printed_more w ps).
Proof. intros [H1 H2 H3 H4]. split; assumption. Qed.

Lemma on_map_app (l : layer) (ls ls' : list layer) :
  on_map l (ls ++ ls') = on_map l ls || on_map l ls'.
Proof. unfold on_map. apply existsb_app. Qed.

Lemma add_dataset_layer_wf (i : nat) (gdf : GeoDataFrame) (pc : cell * string)
    (w w1 : SearchWidget) :
  wf w -> add_dataset_layer i gdf pc w = (w1, Ok tt) -> wf w1.
Proof.
  intros [Hon Hnd Hcur Hfresh].
  unfold add_dataset_layer, bind, lift, new_layer, get, set_active_layers, add_layer.
  destruct (total_size gdf (rows_of i (fst pc) gdf)) as [total|e]; [|discriminate].
  match goal with |- context [init_error ?d] => destruct (init_error d) end;
    [discriminate|].
  cbn [m_layers active_layers].
  match goal with |- context [on_map ?l ?ls] => destruct (on_map l ls) end;
    [discriminate|].
  intros [= <-].
  assert (Hlt : forall l, on_map l (m_layers w) = true -> (model_id l < next_model_id w)%nat).
  { intros l Hl. apply on_map_In in Hl as [l' [Hin <-]]. now apply Hfresh. }
  split; cbn [active_layers m_layers current_geometry next_model_id].
  - intros l Hl. rewrite on_map_app. apply in_app_or in Hl as [Hl|[<-|[]]].
    + now rewrite (Hon l Hl).
    + apply orb_true_iff. right. exact (on_map_last _ []).
  - rewrite map_app. apply List.NoDup_app; [exact Hnd|repeat constructor; intros []|].
    intros a Ha [<-|[]]. apply in_map_iff in Ha as [l [Hid Hl]].
    apply Hon, Hlt in Hl. simpl in Hid. lia.
  - intros l Hl. destruct (Hcur l Hl) as [Hm Hnot]. split.
    + rewrite on_map_app, Hm. reflexivity.
    + rewrite map_app. intros Hin. apply in_app_or in Hin as [Hin|[Hin|[]]];
        [contradiction|]. apply Hlt in Hm. simpl in Hin. lia.
  - intros l Hl. apply in_app_or in Hl as [Hl|[<-|[]]].
    + apply Hfresh in Hl. lia.
    + simpl. lia.
Qed.

Lemma explore_loop_wf (i : nat) (gdf : GeoDataFrame) (pcs : list (cell * string))
    (w w' : SearchWidget) :
  wf w -> for_each (add_dataset_layer i gdf) pcs w = (w', Ok tt) -> wf w'.
Proof.
  revert w. induction pcs as [|pc pcs IH]; intros w Hwf H.
  - now injection H as <-.
  - cbn [for_each] in H. apply bind_Ok_inv in H as [w1 [[] [H1 H2]]].
    eapply IH; [|exact H2]. eapply add_dataset_layer_wf; eassumption.
Qed.

Lemma explore_wf (results : list dict) (w w' : SearchWidget) :
  wf w -> explore results w = (w', Ok tt) -> wf w'.
Proof.
  intros Hwf H. unfold explore in H.
  apply bind_Ok_inv in H as [w0 [gdf [Hg H]]].
  apply bind_Ok_inv in H as [w0' [[i ids] [Hi H]]].
  apply lift_Ok_inv in Hi as [Hi ->].
  eapply explore_loop_wf; [|exact H].
  destruct (tabulate results []) as [df|e] eqn:Et.
  - rewrite (to_geopandas_run _ _ _ _ Et) in Hg. injection Hg as <- _.
    now apply wf_printed_more.
  - rewrite (to_geopandas_raise _ _ _ _ Et) in Hg. discriminate.
Qed.

(** X10: [explore] keeps the widget consistent and removes nothing: the
    layers it adds come after the ones that were there and are all
    remembered, so the next draw event that returns takes every one of them
    (and every layer of an earlier [explore]) off the map. *)
Theorem explore_then_draw (results : list dict) (w w1 w2 : SearchWidget)
    (target action geo_json : json) :
  wf w ->
  explore results w = (w1, Ok tt) ->
  _handle_draw target action geo_json w1 = (w2, Ok tt) ->
  wf w1 /\
  (exists new, m_layers w1 = m_layers w ++ new /\
               active_layers w1 = active_layers w ++ new) /\
  active_layers w2 = [] /\
  (forall l, In l (active_layers w1) -> on_map l (m_layers w2) = false) /\
  wf w2.
Proof.
  intros Hwf He Hd. pose proof (explore_wf _ _ _ Hwf He) as Hwf1.
  destruct (explore_run _ _ _ He) as [w0 [gdf [i [ids [new [_ [_ [_ [Hm [Ha _]]]]]]]]]].
  destruct (draw_clears _ _ _ _ _ Hwf1 Hd) as [H1 [_ [_ [H4 [_ H6]]]]].
  split; [exact Hwf1|]. split; [now exists new|]. split; [exact H1|].
  split; [|exact H6]. intros l Hl. apply H4. now left.
Qed.

Lemma explore_then_draw_witness :
  exists w1 w2,
    explore five_granules fresh_widget = (w1, Ok tt) /\
    _handle_draw JNull JNull (feature "Point" (JList [JNum 1; JNum 2])) w1 = (w2, Ok tt) /\
    wf w1 /\ active_layers w2 = [].
Proof.
  destruct (explore five_granules fresh_widget) as [w1 [[]|e]] eqn:E;
    [|vm_compute in E; discriminate].
  destruct (_handle_draw JNull JNull (feature "Point" (JList [JNum 1; JNum 2])) w1)
    as [w2 [[]|e]] eqn:E';
    [|vm_compute in E; injection E as <-; vm_compute in E'; discriminate].
  destruct (explore_then_draw five_granules fresh_widget w1 w2 JNull JNull _
              fresh_widget_wf E E') as [H1 [_ [H3 _]]].
  exists w1, w2. split; [reflexivity|]. split; [exact E'|]. split; [exact H1|exact H3].
Defined.

Lemma no_key_path_no_column (results : list dict) (fields : list string)
    (df : DataFrame) (c : string) :
  tabulate results fields = Ok df ->
  (forall r k, In r results -> In k (map fst (_normalise_json_ordered r)) ->
               flat_name k <> c) ->
  positions c (drop_columns ["geometry"] df) = [].
Proof.
  intros H Hno. unfold positions. apply positions_from_absent.
  cbn [columns drop_columns]. intros Hin. apply filter_In in Hin as [Hin _].
  rewrite tabulate_projection in H. apply apply_related_urls_columns in H.
  cbn [columns] in H. rewrite H in Hin. apply in_map_iff in Hin as [k [Hk Hin]].
  unfold kept_paths, key_paths in Hin. apply filter_In in Hin as [Hin _].
  apply union_keys_In in Hin as [[]|[d [Hd Hkd]]].
  apply in_map_iff in Hd as [r [<- Hr]]. exact (Hno r k Hr Hkd Hk).
Qed.

Lemma tabulate_nil (fields : list string) :
  tabulate [] fields = Raise (KeyError "_related_urls").
Proof. reflexivity. Qed.

Lemma unique_nonempty (c : cell) (cs ids : list cell) :
  unique (c :: cs) = Ok ids -> ids <> [].
Proof.
  intros H.
  destruct (unique_from_spec _ _ _ H (List.NoDup_nil _) (List.Forall_nil _))
    as [_ [_ [_ I4]]].
  destruct (I4 c (or_introl eq_refl)) as [p [Hp _]]. intros ->. contradiction.
Qed.

(** X11: [explore] needs a dataset id and a size in the records: when no
    record has a key path named [dataset-id], or none has one named [size],
    it raises and adds no layer. *)
Theorem explore_needs_dataset_id_and_size (results : list dict) (w : SearchWidget)
    (c : string) :
  c = "dataset-id" \/ c = "size" ->
  (forall r k, In r results -> In k (map fst (_normalise_json_ordered r)) ->
               flat_name k <> c) ->
  exists w' e,
    explore results w = (w', Raise e) /\
    m_layers w' = m_layers w /\
    active_layers w' = active_layers w /\
    search_params w' = search_params w.
Proof.
  intros Hc Hno. unfold explore.
  destruct (tabulate results []) as [df|e] eqn:Et.
  2:{ exists w, e. rewrite (bind_raise _ _ _ _ _ (to_geopandas_raise _ _ _ w Et)). auto. }
  pose proof (no_key_path_no_column _ _ _ _ Et Hno) as Hpos.
  rewrite (bind_run _ _ _ _ _ (to_geopandas_run _ _ _ w Et)).
  set (w0 := printed_more w (concat (map printed_of results))).
  set (gdf := mkGDF (drop_columns ["geometry"] df) (map geometry_of results)).
  unfold bind at 1, lift at 1.
  destruct (dataset_ids gdf) as [[i ids]|e] eqn:Ei.
  2:{ exists w0, e. auto. }
  destruct Hc as [->| ->].
  { exfalso. unfold dataset_ids in Ei. cbn [gdf_data gdf] in Ei.
    rewrite Hpos in Ei. discriminate. }
  cbn [fst snd].
  assert (Hids : ids <> []).
  { unfold dataset_ids in Ei.
    destruct (positions "dataset-id" (gdf_data gdf)) as [|j [|j' ps]]; try discriminate.
    apply obind_Ok in Ei as [ids' [Hu Ei]]. injection Ei as _ <-.
    destruct results as [|r rs]; [rewrite tabulate_nil in Et; discriminate|].
    pose proof (tabulate_rows _ _ _ Et) as Hlen.
    unfold column_at in Hu. cbn [gdf_data gdf drop_columns rows] in Hu.
    destruct (rows df) as [|row rws]; [discriminate|].
    cbn [map] in Hu. eapply unique_nonempty, Hu. }
  destruct ids as [|p ids]; [congruence|].
  cbn [combine tab10 for_each].
  exists w0, (KeyError "size"). split; [|auto].
  apply bind_raise. unfold add_dataset_layer. apply bind_raise.
  unfold lift, total_size.
  change (positions "size" (gdf_data (rows_of i (fst (p, "#1f77b4")) gdf)))
    with (positions "size" (drop_columns ["geometry"] df)).
  now rewrite Hpos.
Qed.

Lemma explore_needs_dataset_id_and_size_witness :
  exists w' e,
    explore [polygon_granule triangle] fresh_widget = (w', Raise e) /\
    m_layers w' = m_layers fresh_widget.
Proof.
  destruct (explore_needs_dataset_id_and_size
              [polygon_granule triangle] fresh_widget "size" (or_intror eq_refl))
    as [w' [e [H1 [H2 _]]]].
  - intros r k [<-|[]] Hk. vm_compute in Hk.
    destruct Hk as [<-|[<-|[]]]; vm_compute; discriminate.
  - exists w', e. split; assumption.
Defined.

(** ** The centre of a bounding box *)




(** ** The info panel *)

Lemma links_of_type_pick (type : string) (render : string -> string)
    (links : list json) (out : list string) :
  links_of_type type render links = Ok out ->
  out = map render (pick (https_link type) links).
Proof.
  revert out. induction links as [|link links IH]; intros out H; cbn [links_of_type] in H.
  - now injection H as <-.
  - apply obind_Ok in H as [t [Ht H]]. apply obind_Ok in H as [here [Hh H]].
    apply obind_Ok in H as [others [Ho H]]. injection H as <-.
    rewrite (IH others Ho).
    assert (E : https_link type link = here).
    { unfold https_link. rewrite Ht. destruct (py_in t [type]).
      - unfold https_url in Hh. destruct (getitem link "URL") as [u|e]; [|discriminate].
        cbn [obind] in Hh. destruct u; try discriminate. injection Hh as <-.
        reflexivity.
      - injection Hh as <-. destruct (getitem link "URL") as [[]|]; reflexivity. }
    cbn [pick]. rewrite E. now destruct here.
Qed.

Lemma pick_In {A B : Type} (f : A -> option B) (l : list A) (b : B) :
  In b (pick f l) <-> exists a, In a l /\ f a = Some b.
Proof.
  induction l as [|a l IH]; simpl.
  - split; [intros []|intros [a [[] _]]].
  - destruct (f a) as [b'|] eqn:E; simpl; rewrite IH; split.
    + intros [<-|[a' [H1 H2]]]; [exists a; auto|exists a'; auto].
    + intros [a' [[<-|H1] H2]]; [left; congruence|right; eauto].
    + intros [a' [H1 H2]]. exists a'. auto.
    + intros [a' [[<-|H1] H2]]; [congruence|eauto].
Qed.

Lemma https_link_spec (type : string) (link : json) (u : string) :
  https_link type link = Some u <->
  getitem link "Type" = Ok (JStr type) /\ getitem link "URL" = Ok (JStr u) /\
  String.prefix "https" u = true.
Proof.
  unfold https_link. split.
  - destruct (getitem link "Type") as [t|]; [|discriminate].
    destruct (getitem link "URL") as [[| | |s| |]|]; try discriminate.
    destruct (py_in t [type]) eqn:Et; [|discriminate].
    destruct (String.prefix "https" s) eqn:Ep; [|discriminate].
    intros [= <-]. split; [|auto].
    destruct t; try discriminate. simpl in Et. rewrite orb_false_r in Et.
    apply String.eqb_eq in Et. now subst.
  - intros [-> [-> Hp]]. simpl. now rewrite String.eqb_refl, Hp.
Qed.

(** X13: after a hover event that returns, the panel lists a download link
    for exactly the related urls of the feature whose type is GET DATA and
    whose URL starts with https, in their order, and shows the first
    previews of type GET RELATED VISUALIZATION with a https URL, never more
    than two; the size is rounded to two decimals. *)
Theorem hover_panel_content (feature : json) (p p' : InfoPanel) :
  update_html feature p = (p', Hovered) ->
  exists properties related links size h,
    getitem feature "properties" = Ok properties /\
    getitem properties "_related_urls" = Ok related /\
    iter related = Ok links /\
    getitem properties "size" = Ok size /\
    html_value p' = Some h /\
    (exists q, as_number size = Ok q /\ html_size h = round2 q) /\
    html_url h = map anchor (pick (https_link "GET DATA") links) /\
    (forall a, In a (html_url h) <->
               exists link u, In link links /\
                              getitem link "Type" = Ok (JStr "GET DATA") /\
                              getitem link "URL" = Ok (JStr u) /\
                              String.prefix "https" u = true /\ a = anchor u) /\
    exists shown,
      (html_browse h = Joined shown \/ (html_browse h = Listed shown /\ length shown = 1%nat)) /\
      shown = firstn 2 (map img (pick (https_link "GET RELATED VISUALIZATION") links)) /\
      (length shown <= 2)%nat.
Proof.
  unfold update_html. destruct (panel_html feature) as [value|e] eqn:Eh; [|discriminate].
  intros H.
  assert (Hv : html_value p' = Some value).
  { revert H. cbn [overview m_controls next_control_id].
    destruct (overview p) as [c|].
    - destruct (existsb (Nat.eqb c) (m_controls p)); [|discriminate].
      match goal with |- context [existsb ?f ?l] => destruct (existsb f l) end;
        [discriminate|now intros [= <-]].
    - destruct (existsb (Nat.eqb (next_control_id p)) (m_controls p));
        [discriminate|now intros [= <-]]. }
  clear H. unfold panel_html in Eh.
  apply obind_Ok in Eh as [properties [H1 Eh]].
  apply obind_Ok in Eh as [native_id [H2 Eh]].
  apply obind_Ok in Eh as [start [H3 Eh]].
  apply obind_Ok in Eh as [end_ [H4 Eh]].
  apply obind_Ok in Eh as [size [H5 Eh]].
  apply obind_Ok in Eh as [related [H6 Eh]].
  apply obind_Ok in Eh as [links [H7 Eh]].
  apply obind_Ok in Eh as [url [H8 Eh]].
  apply obind_Ok in Eh as [preview [H9 Eh]].
  apply obind_Ok in Eh as [q [H10 Eh]]. injection Eh as <-.
  apply links_of_type_pick in H8, H9. subst url preview.
  exists properties, related, links, size. eexists.
  split; [exact H1|]. split; [exact H6|]. split; [exact H7|]. split; [exact H5|].
  split; [exact Hv|]. cbn [html_size html_url html_browse].
  split; [exists q; auto|]. split; [reflexivity|]. split.
  - intros a. rewrite in_map_iff. split.
    + intros [u [<- Hu]]. apply pick_In in Hu as [link [Hl Hu]].
      apply https_link_spec in Hu as [Ht [Hurl Hp]]. exists link, u. auto.
    + intros [link [u [Hl [Ht [Hurl [Hp ->]]]]]]. exists u. split; [reflexivity|].
      apply pick_In. exists link. split; [exact Hl|]. now apply https_link_spec.
  - set (previews := map img (pick (https_link "GET RELATED VISUALIZATION") links)).
    exists (firstn 2 previews). split; [|split; [reflexivity|apply firstn_le_length]].
    destruct previews as [|x [|y rest]]; cbn; auto.
Qed.

Lemma hover_panel_content_witness :
  exists p' h,
    update_html sample_feature fresh_panel = (p', Hovered) /\
    html_value p' = Some h /\
    html_url h = ["<a href=https://data>link</a>"].
Proof.
  destruct (update_html sample_feature fresh_panel) as [p' o] eqn:E.
  assert (Ho : o = Hovered) by (vm_compute in E; now injection E as _ <-).
  subst o.
  destruct (hover_panel_content sample_feature fresh_panel p' E)
    as [properties [related [links [size [h [H1 [H2 [H3 [_ [Hv [_ [Hu _]]]]]]]]]]]].
  exists p', h. split; [reflexivity|]. split; [exact Hv|].
  rewrite Hu. vm_compute in H1. injection H1 as <-.
  vm_compute in H2. injection H2 as <-. vm_compute in H3. injection H3 as <-.
  reflexivity.
Defined.

Lemma filter_fresh (c : nat) (controls : list nat) :
  ~ In c controls ->
  List.filter (fun c' => negb (Nat.eqb c' c)) controls = controls.
Proof.
  induction controls as [|x controls IH]; intros H; simpl; [reflexivity|].
  destruct (Nat.eqb_spec x c) as [->|_]; [exfalso; apply H; now left|].
  simpl. rewrite IH; [reflexivity|]. intros Hin. apply H. now right.
Qed.

(** One hover event on a panel in order. *)
Lemma update_html_step (feature : json) (p : InfoPanel) :
  panel_ok p ->
  let p' := fst (update_html feature p) in
  panel_ok p' /\
  other_controls p' = other_controls p /\
  snd (update_html feature p) <> ControlException /\
  (p' = p \/
   (snd (update_html feature p) = Hovered /\
    overview p' = Some (next_control_id p) /\
    m_controls p' = other_controls p ++ [next_control_id p])).
Proof.
  intros [Hov Hlt]. unfold update_html.
  destruct (panel_html feature) as [value|e]; [|cbn; repeat split; auto; discriminate].
  cbn [overview m_controls next_control_id].
  assert (Hothers : forall c, In c (other_controls p) -> (c < next_control_id p)%nat).
  { intros c Hc. apply Hlt. unfold other_controls in Hc.
    destruct (overview p); [now apply filter_In in Hc|exact Hc]. }
  assert (Hfresh : existsb (Nat.eqb (next_control_id p)) (other_controls p) = false).
  { destruct (existsb (Nat.eqb (next_control_id p)) (other_controls p)) eqn:E;
      [|reflexivity].
    apply existsb_eqb_In, Hothers in E. lia. }
  assert (Hres :
    (match
       match overview p with
       | Some c =>
           if existsb (Nat.eqb c) (m_controls p)
           then Some (List.filter (fun c' => negb (Nat.eqb c' c)) (m_controls p))
           else None
       | None => Some (m_controls p)
       end
     with
     | Some controls =>
         if existsb (Nat.eqb (next_control_id p)) controls
         then (mkPanel (Some value) (Some (next_control_id p)) controls
                       (S (next_control_id p)), ControlException)
         else (mkPanel (Some value) (Some (next_control_id p))
                       (controls ++ [next_control_id p]) (S (next_control_id p)),
               Hovered)
     | None => (mkPanel (Some value) (overview p) (m_controls p) (next_control_id p),
                ControlException)
     end)
    = (mkPanel (Some value) (Some (next_control_id p))
               (other_controls p ++ [next_control_id p]) (S (next_control_id p)),
       Hovered)).
  { unfold other_controls in *. destruct (overview p) as [c|] eqn:Ec.
    - assert (existsb (Nat.eqb c) (m_controls p) = true) as ->
        by (apply existsb_eqb_In; now apply Hov).
      now rewrite Hfresh.
    - now rewrite Hfresh. }
  rewrite Hres. cbn [fst snd].
  assert (Hnot : ~ In (next_control_id p) (other_controls p)).
  { intros Hin. apply Hothers in Hin. lia. }
  split; [|split; [|split; [discriminate|right; auto]]].
  - split; cbn [overview m_controls next_control_id].
    + intros c [= <-]. apply in_or_app. right. now left.
    + intros c Hc. apply in_app_or in Hc as [Hc|[<-|[]]]; [|lia].
      apply Hothers in Hc. lia.
  - unfold other_controls at 1. cbn [overview m_controls].
    rewrite List.filter_app. cbn [List.filter]. rewrite Nat.eqb_refl. cbn [negb].
    rewrite app_nil_r. now apply filter_fresh.
Qed.

(** X14: hover events keep exactly one panel on the map: on a panel in
    order no hover event raises [ControlException], the other controls of
    the map are never touched, and after any run of hover events the map
    has its old controls, or its other controls followed by the one control
    of the latest panel. *)
Theorem hovers_keep_one_panel (features : list json) (p : InfoPanel) :
  panel_ok p ->
  panel_ok (hovers features p) /\
  other_controls (hovers features p) = other_controls p /\
  (forall feature, snd (update_html feature (hovers features p)) <> ControlException) /\
  ((m_controls (hovers features p) = m_controls p /\
    overview (hovers features p) = overview p) \/
   exists c, overview (hovers features p) = Some c /\
             ~ In c (other_controls p) /\
             m_controls (hovers features p) = other_controls p ++ [c]).
Proof.
  revert p. induction features as [|feature features IH]; intros p Hok.
  - cbn [hovers]. split; [exact Hok|]. split; [reflexivity|]. split; [|now left].
    intros feature. now apply update_html_step.
  - cbn [hovers]. destruct (update_html_step feature p Hok) as [Hok' [Ho [_ Hstep]]].
    destruct (IH _ Hok') as [I1 [I2 [I3 I4]]].
    split; [exact I1|]. split; [congruence|]. split; [exact I3|].
    rewrite Ho in I4.
    destruct I4 as [[I4 I5]|I4]; [|now right].
    destruct Hstep as [Hp|[_ [Hov Hm]]]; [left; rewrite I4, I5, Hp; auto|].
    right. exists (next_control_id p). rewrite I4, I5, Hm.
    split; [exact Hov|]. split; [|reflexivity].
    intros Hin. destruct Hok as [_ Hlt].
    assert (In (next_control_id p) (m_controls p)) as Hin'.
    { unfold other_controls in Hin.
      destruct (overview p); [now apply filter_In in Hin|exact Hin]. }
    apply Hlt in Hin'. lia.
Qed.

Lemma fresh_panel_ok : panel_ok fresh_panel.
Proof.
  split; cbn.
  - discriminate.
  - intros c Hc. repeat (destruct Hc as [<-|Hc]; [lia|]). destruct Hc.
Qed.

Lemma hovers_keep_one_panel_witness :
  length (m_controls (hovers [sample_feature; JNull; sample_feature] fresh_panel)) = 7%nat /\
  other_controls (hovers [sample_feature; JNull; sample_feature] fresh_panel)
  = [0; 1; 2; 3; 4; 5]%nat.
Proof.
  destruct (hovers_keep_one_panel [sample_feature; JNull; sample_feature] fresh_panel
              fresh_panel_ok) as [_ [H2 _]].
  split; [reflexivity|]. rewrite H2. reflexivity.
Defined.

(** X15: a hover event that does not return changes nothing: on a panel in
    order it can only fail while the text is built (a missing property, a
    link without a type, a size that is no number), and then the text and
    the controls are as before. *)
Theorem failed_hover_changes_nothing (feature : json) (p p' : InfoPanel)
    (o : hover_outcome) :
  panel_ok p ->
  update_html feature p = (p', o) ->
  o <> Hovered ->
  p' = p /\ exists e, o = HoverRaise e /\ panel_html feature = Raise e.
Proof.
  intros Hok H Hne.
  destruct (update_html_step feature p Hok) as [_ [_ [Hc Hstep]]].
  rewrite H in Hc, Hstep. cbn [fst snd] in Hc, Hstep.
  destruct Hstep as [->|[Ho _]]; [|contradiction].
  split; [reflexivity|].
  unfold update_html in H. destruct (panel_html feature) as [value|e].
  - exfalso. revert H. cbn [overview m_controls next_control_id].
    destruct (overview p) as [c|].
    + destruct (existsb (Nat.eqb c) (m_controls p)).
      * match goal with |- context [existsb ?f ?l] => destruct (existsb f l) end;
          intros [= _ <-]; congruence.
      * intros [= _ <-]. congruence.
    + destruct (existsb (Nat.eqb (next_control_id p)) (m_controls p));
        intros [= _ <-]; congruence.
  - injection H as <-. eauto.
Qed.

Lemma failed_hover_changes_nothing_witness :
  update_html (JDict [("properties", JDict [("native-id", JStr "g")])]) fresh_panel
  = (fresh_panel, HoverRaise (KeyError "_beginning_date_time")).
Proof.
  destruct (update_html (JDict [("properties", JDict [("native-id", JStr "g")])])
              fresh_panel) as [p' o] eqn:E.
  assert (Ho : o = HoverRaise (KeyError "_beginning_date_time"))
    by (vm_compute in E; now injection E as _ <-).
  destruct (failed_hover_changes_nothing _ fresh_panel p' o fresh_panel_ok E) as [-> _].
  - rewrite Ho. discriminate.
  - now rewrite Ho.
Defined.

(** ** The rows of a dataset layer *)

Lemma in_combine_fst {A B : Type} (l : list A) (l' : list B) (a : A) :
  length l = length l' -> In a l -> exists b, In (a, b) (combine l l').
Proof.
  revert l'. induction l as [|x l IH]; intros [|y l'] Hlen Hin; simpl in *;
    try contradiction; try discriminate.
  destruct Hin as [<-|Hin]; [eauto|].
  destruct (IH l' (eq_add_S _ _ Hlen) Hin) as [b Hb]. eauto.
Qed.

Lemma rows_of_rows (i : nat) (p : cell) (gdf : GeoDataFrame) (row : list cell) :
  length (rows (gdf_data gdf)) = length (gdf_geometry gdf) ->
  (In row (rows (gdf_data (rows_of i p gdf))) <->
   In row (rows (gdf_data gdf)) /\ matches p (nth i row Missing) = true).
Proof.
  intros Hlen. unfold rows_of. cbn [gdf_data rows]. rewrite in_map_iff. split.
  - intros [[r g] [<- H]]. apply filter_In in H as [H1 H2]. cbn [fst] in *.
    split; [eapply in_combine_l, H1|exact H2].
  - intros [H1 H2]. destruct (in_combine_fst _ _ _ Hlen H1) as [g Hg].
    exists (row, g). split; [reflexivity|]. apply filter_In. auto.
Qed.

Lemma matches_null (p c : cell) :
  p = Missing \/ p = Val JNull -> matches p c = false.
Proof. intros [->| ->]; destruct c as [|[]]; reflexivity. Qed.

(** X16: every dataset layer [explore] adds shows exactly the rows of the
    table whose dataset id equals the id in its name, and its count is the
    number of these rows; a row without dataset id (missing or null) is on
    no layer, and the layer made for the missing id is empty. *)
Theorem layer_rows (results : list dict) (w w' : SearchWidget) :
  explore results w = (w', Ok tt) ->
  exists w0 gdf i new,
    to_geopandas results [] w = (w0, Ok gdf) /\
    positions "dataset-id" (gdf_data gdf) = [i] /\
    m_layers w' = m_layers w ++ new /\
    forall l, In l new ->
      exists name color df,
        layer_of l = GeoData name color df /\
        name_count name = length (rows (gdf_data df)) /\
        (forall row, In row (rows (gdf_data df)) <->
                     In row (rows (gdf_data gdf)) /\
                     matches (name_dataset name) (nth i row Missing) = true) /\
        (name_dataset name = Missing \/ name_dataset name = Val JNull ->
         name_count name = 0%nat /\ rows (gdf_data df) = []).
Proof.
  intros H. apply explore_run in H
    as [w0 [gdf [i [ids [new [Hg [Hi [Hnew [Hm _]]]]]]]]].
  destruct (dataset_ids_spec _ _ _ Hi) as [Hpos _].
  exists w0, gdf, i, new. split; [exact Hg|]. split; [exact Hpos|]. split; [exact Hm|].
  assert (Hlen : length (rows (gdf_data gdf)) = length (gdf_geometry gdf)).
  { destruct (tabulate results []) as [df|e] eqn:Et.
    - rewrite (to_geopandas_run _ _ _ _ Et) in Hg. injection Hg as _ <-.
      cbn [gdf_data gdf_geometry drop_columns rows].
      now rewrite !length_map, (tabulate_rows _ _ _ Et).
    - rewrite (to_geopandas_raise _ _ _ _ Et) in Hg. discriminate. }
  intros l Hl.
  assert (Hfor : exists pc, layer_for i gdf pc l).
  { clear -Hnew Hl. induction Hnew as [|pc g pcs new Hg _ IH]; [contradiction|].
    destruct Hl as [<-|Hl]; [eauto|now apply IH]. }
  destruct Hfor as [pc [total [_ Hlayer]]].
  eexists _, _, _. split; [exact Hlayer|]. cbn [name_count name_dataset].
  split; [reflexivity|]. split; [intros row; now apply rows_of_rows|].
  intros Hnull.
  assert (Hrows : rows (gdf_data (rows_of i (fst pc) gdf)) = []).
  { destruct (rows (gdf_data (rows_of i (fst pc) gdf))) as [|row rws] eqn:Er;
      [reflexivity|].
    assert (In row (rows (gdf_data (rows_of i (fst pc) gdf)))) as Hin
      by (rewrite Er; now left).
    apply rows_of_rows in Hin as [_ Hin]; [|exact Hlen].
    rewrite (matches_null _ _ Hnull) in Hin. discriminate. }
  now rewrite Hrows.
Qed.

Lemma layer_rows_witness :
  exists w' new,
    explore five_granules fresh_widget = (w', Ok tt) /\
    m_layers w' = m_layers fresh_widget ++ new.
Proof.
  destruct (explore five_granules fresh_widget) as [w' [[]|e]] eqn:E;
    [|vm_compute in E; discriminate].
  destruct (layer_rows five_granules fresh_widget w' E)
    as [w0 [gdf [i [new [_ [_ [Hm _]]]]]]].
  exists w', new. split; [reflexivity|exact Hm].
Defined.

(** ** Parameter dicts shared between widgets *)

Lemma new_widget_wf (params : gmap string param) (projection : string)
    (w : SearchWidget) :
  new_widget params projection = Ok w -> wf w.
Proof.
  unfold new_widget. destruct (basemap_of projection) as [b|e]; [|discriminate].
  intros [= <-]. split; cbn.
  - intros l [].
  - constructor.
  - discriminate.
  - intros l [<-|[]]. cbn. lia.
Qed.

Lemma wf_with_params (w : SearchWidget) (params : gmap string param) :
  wf w -> wf (with_params w params).
Proof. intros [H1 H2 H3 H4]. split; assumption. Qed.

Lemma deref_insert_eq (dicts : heap) (ref : nat) (d : gmap string param) :
  deref (<[ref := d]> dicts) ref = d.
Proof. unfold deref, heap in *. now rewrite lookup_insert_eq. Qed.

Lemma deref_insert_ne (dicts : heap) (ref ref' : nat) (d : gmap string param) :
  ref <> ref' -> deref (<[ref := d]> dicts) ref' = deref dicts ref'.
Proof. intros H. unfold deref, heap in *. now rewrite lookup_insert_ne. Qed.

(** X17: building a widget writes into the caller's dict: afterwards the
    dict has a [polygon] entry (its own, or the empty string), every other
    entry and every other dict is as before, and this holds also when the
    projection is not supported and the constructor raises [KeyError]. *)
Theorem construct_writes_polygon_default (ref : nat) (projection : string)
    (dicts : heap) :
  let dicts' := fst (construct ref projection dicts) in
  deref dicts' ref !! "polygon"
  = Some (default (PStr EmptyString) (deref dicts ref !! "polygon")) /\
  (forall k, k <> "polygon" -> deref dicts' ref !! k = deref dicts ref !! k) /\
  (forall ref', ref' <> ref -> deref dicts' ref' = deref dicts ref') /\
  (projection <> "global" -> projection <> "south" -> projection <> "north" ->
   snd (construct ref projection dicts) = Raise (KeyError projection)) /\
  (projection = "global" \/ projection = "south" \/ projection = "north" ->
   exists x, snd (construct ref projection dicts) = Ok x /\
             params_ref x = ref /\ wf (self_fields x)).
Proof.
  assert (Hd : fst (construct ref projection dicts)
               = <[ref := with_polygon_default (deref dicts ref)]> dicts).
  { unfold construct. now destruct (new_widget (deref dicts ref) projection). }
  cbv zeta. rewrite Hd. split; [|split; [|split; [|split]]].
  - rewrite deref_insert_eq. unfold with_polygon_default.
    destruct (deref dicts ref !! "polygon") as [v|] eqn:E; cbn.
    + exact E.
    + apply lookup_insert_eq.
  - intros k Hk. rewrite deref_insert_eq. unfold with_polygon_default.
    destruct (deref dicts ref !! "polygon"); [reflexivity|].
    apply lookup_insert_ne. congruence.
  - intros ref' Hne. apply deref_insert_ne. congruence.
  - intros H1 H2 H3. unfold construct, new_widget, basemap_of.
    destruct (String.eqb_spec projection "global"); [contradiction|].
    destruct (String.eqb_spec projection "south"); [contradiction|].
    destruct (String.eqb_spec projection "north"); [contradiction|].
    reflexivity.
  - intros H. unfold construct.
    destruct (new_widget (deref dicts ref) projection) as [w|e] eqn:E.
    + exists (mkInstance ref w). split; [reflexivity|]. split; [reflexivity|].
      eapply new_widget_wf, E.
    + exfalso. unfold new_widget, basemap_of in E.
      destruct H as [->|[->| ->]]; discriminate.
Qed.

Lemma construct_writes_polygon_default_witness :
  deref (fst (construct 0 "mars" ∅)) 0 !! "polygon" = Some (PStr EmptyString) /\
  snd (construct 0 "mars" ∅) = Raise (KeyError "mars").
Proof.
  destruct (construct_writes_polygon_default 0 "mars" ∅) as [H1 [_ [_ [H4 _]]]].
  split; [exact H1|]. apply H4; discriminate.
Defined.

(** X18: two widgets built on the same dict (the one default dict of
    [__init__] when no parameters are passed) share their search
    parameters: a polygon drawn on one of them is the polygon parameter of
    the other, and no other dict is touched. *)
Theorem widgets_share_params
    (ref : nat) (projection1 projection2 : string) (dicts dicts1 dicts2 : heap)
    (x1 x2 : instance) (target action : json) (pts : list point) :
  construct ref projection1 dicts = (dicts1, Ok x1) ->
  construct ref projection2 dicts1 = (dicts2, Ok x2) ->
  (3 <= length pts)%nat ->
  exists ring x1' dicts3,
    _orient_polygon (ring_json pts) = Ok ring /\
    call (_handle_draw target action (feature "Polygon" (JList [ring_json pts]))) x1 dicts2
    = (x1', dicts3, Ok tt) /\
    deref dicts3 (params_ref x2) !! "polygon" = Some (PRing ring) /\
    (forall k, k <> "polygon" ->
               deref dicts3 (params_ref x2) !! k = deref dicts2 (params_ref x2) !! k) /\
    (forall ref', ref' <> ref -> deref dicts3 ref' = deref dicts2 ref').
Proof.
  intros H1 H2 Hlen.
  assert (Hx1 : params_ref x1 = ref /\ wf (self_fields x1)).
  { unfold construct in H1.
    destruct (new_widget (deref dicts ref) projection1) as [w|e] eqn:E; [|discriminate].
    injection H1 as _ <-. split; [reflexivity|]. eapply new_widget_wf, E. }
  assert (Hx2 : params_ref x2 = ref).
  { unfold construct in H2.
    destruct (new_widget (deref dicts1 ref) projection2) as [w|e]; [|discriminate].
    now injection H2 as _ <-. }
  destruct Hx1 as [Hr1 Hwf1].
  destruct (orient_polygon_ring pts Hlen) as [ring [a [Hor _]]].
  destruct (handle_draw_polygon
              (with_params (self_fields x1) (deref dicts2 (params_ref x1)))
              target action pts ring (wf_with_params _ _ Hwf1) Hor)
    as [w' [Hd [_ Hsp]]].
  exists ring, (mkInstance (params_ref x1) w'),
    (<[params_ref x1 := search_params w']> dicts2).
  split; [exact Hor|]. split.
  { unfold call. now rewrite Hd. }
  rewrite Hx2, Hr1, Hsp. cbn [search_params with_params]. rewrite Hr1.
  split; [|split].
  - rewrite deref_insert_eq. apply lookup_insert_eq.
  - intros k Hk. rewrite deref_insert_eq. apply lookup_insert_ne. congruence.
  - intros ref' Hne. apply deref_insert_ne. congruence.
Qed.

Lemma widgets_share_params_witness :
  exists dicts1 dicts2 x1 x2 ring dicts3,
    construct 0 "global" ∅ = (dicts1, Ok x1) /\
    construct 0 "north" dicts1 = (dicts2, Ok x2) /\
    (3 <= length triangle)%nat /\
    snd (fst (call (_handle_draw JNull JNull (feature "Polygon" (JList [ring_json triangle])))
                   x1 dicts2)) = dicts3 /\
    deref dicts3 (params_ref x2) !! "polygon" = Some (PRing ring).
Proof.
  destruct (construct 0 "global" ∅) as [dicts1 [x1|e]] eqn:E1;
    [|vm_compute in E1; discriminate].
  destruct (construct 0 "north" dicts1) as [dicts2 [x2|e]] eqn:E2.
  2:{ unfold construct, new_widget, basemap_of in E2. cbn in E2. discriminate. }
  assert (H : (3 <= length triangle)%nat) by (simpl; lia).
  destruct (widgets_share_params 0 "global" "north" ∅ dicts1 dicts2 x1 x2 JNull JNull
              triangle E1 E2 H) as [ring [x1' [dicts3 [_ [Hc [Hp _]]]]]].
  exists dicts1, dicts2, x1, x2, ring, dicts3.
  split; [reflexivity|]. split; [exact E2|]. split; [exact H|].
  split; [now rewrite Hc|exact Hp].
Defined.
